(** * Pelotonnes: the workout normalizer and the aggregation engine

    A shallow embedding of [Aggregation.__init__] and [process_workouts_df]
    of [src/main.py], and the properties of the specification checked
    against it.

    Numbers are IEEE-754 binary64 values, as Python [float] and numpy
    [float64] are: [spec_float] of the Standard Library with precision 53
    and maximal exponent 1024.  A missing cell is NaN (or NaT in a datetime
    column), exactly what [pd.isna] and [pd.isnull] test for. *)

From Stdlib Require Import ZArith List String Ascii Bool Lia QArith Qreduction SpecFloat.
Import ListNotations.
Open Scope string_scope.
Open Scope Z_scope.
Open Scope list_scope.

(** ** Binary64 arithmetic *)

Module F64.

Definition float := spec_float.

Definition prec : Z := 53.
Definition emax : Z := 1024.

Definition add : float -> float -> float := SFadd prec emax.
Definition mul : float -> float -> float := SFmul prec emax.
Definition div : float -> float -> float := SFdiv prec emax.

Definition nan : float := S754_nan.
Definition zero : float := S754_zero false.
Definition pinf : float := S754_infinity false.

(** Conversion of an integer to the nearest binary64 (ties to even);
    an integer too large for the format gives an infinity here, which the
    callers below turn into Python's [OverflowError]. *)
Definition of_Z (z : Z) : float := binary_normalize prec emax z 0 false.

Definition is_nan (f : float) : bool :=
  match f with S754_nan => true | _ => false end.

Definition is_zero (f : float) : bool :=
  match f with S754_zero _ => true | _ => false end.

Definition is_inf (f : float) : bool :=
  match f with S754_infinity _ => true | _ => false end.

(** The running sum of a Python loop [acc = 0.0; for x in l: acc += x],
    in the order of the list. *)
Definition sum (l : list float) : float := fold_left add l zero.

End F64.

Definition float : Type := F64.float.

(** ** Python values held in the cells of a table *)

Inductive value : Type :=
| VFloat (f : float)                  (* float, NaN included *)
| VInt (z : Z)                        (* int *)
| VStr (s : string)                   (* str *)
| VDate (y m d : Z)                   (* datetime.date *)
| VTimestamp (y m d : Z) (ns : Z)     (* UTC pandas Timestamp: date, nanoseconds since midnight *)
| VNaT.                               (* pandas NaT *)

(** [pd.isna] / [pd.isnull] on a scalar. *)
Definition isna (v : value) : bool :=
  match v with
  | VFloat f => F64.is_nan f
  | VNaT => true
  | _ => false
  end.

(** *** Equality of dictionary keys

    Python compares numbers by their exact value ([30 == 30.0],
    [-0.0 == 0.0], NaN equal to nothing), and values of different kinds
    are different.  [canon] sends a value to a canonical form on which this
    equality is syntactic; a value without canonical form (NaN, NaT) is
    equal to nothing, itself included. *)

Inductive ckey : Type :=
| KNum (num : Z) (den : positive)     (* a rational in lowest terms *)
| KInf (neg : bool)
| KStr (s : string)
| KDate (y m d : Z)
| KTimestamp (y m d : Z) (ns : Z).

Definition knum (q : Q) : ckey :=
  let r := Qred q in KNum (Qnum r) (Qden r).

Definition float_exact (f : float) : option ckey :=
  match f with
  | S754_zero _ => Some (knum 0%Q)
  | S754_infinity s => Some (KInf s)
  | S754_nan => None
  | S754_finite s m e =>
      Some (knum (Qmult (inject_Z (cond_Zopp s (Zpos m))) (Qpower (2 # 1) e)))
  end.

Definition canon (v : value) : option ckey :=
  match v with
  | VFloat f => float_exact f
  | VInt z => Some (knum (inject_Z z))
  | VStr s => Some (KStr s)
  | VDate y m d => Some (KDate y m d)
  | VTimestamp y m d ns => Some (KTimestamp y m d ns)
  | VNaT => None
  end.

Definition ckey_eqb (a b : ckey) : bool :=
  match a, b with
  | KNum n1 d1, KNum n2 d2 => Z.eqb n1 n2 && Pos.eqb d1 d2
  | KInf s1, KInf s2 => Bool.eqb s1 s2
  | KStr s1, KStr s2 => String.eqb s1 s2
  | KDate y1 m1 d1, KDate y2 m2 d2 => Z.eqb y1 y2 && Z.eqb m1 m2 && Z.eqb d1 d2
  | KTimestamp y1 m1 d1 n1, KTimestamp y2 m2 d2 n2 =>
      Z.eqb y1 y2 && Z.eqb m1 m2 && Z.eqb d1 d2 && Z.eqb n1 n2
  | _, _ => false
  end.

(** Python's [a == b] on cell values. *)
Definition py_eq (a b : value) : bool :=
  match canon a, canon b with
  | Some x, Some y => ckey_eqb x y
  | _, _ => false
  end.

(** ** Exceptions and the error monad *)

Inductive exn : Type :=
| KeyError (name : string)
| TypeError
| OverflowError
| AttributeError
| ValueError.

Inductive result (A : Type) : Type :=
| Ok (a : A)
| Raise (e : exn).
Arguments Ok {A} a.
Arguments Raise {A} e.

Definition bind {A B} (m : result A) (k : A -> result B) : result B :=
  match m with
  | Ok a => k a
  | Raise e => Raise e
  end.

Notation "x <- m ;; k" := (bind m (fun x => k))
  (at level 61, m at next level, right associativity).

Fixpoint mapM {A B} (f : A -> result B) (l : list A) : result (list B) :=
  match l with
  | [] => Ok []
  | a :: l' => b <- f a ;; bs <- mapM f l' ;; Ok (b :: bs)
  end.

(** ** Python arithmetic on cell values *)

(** [float(z)] for an int operand of a float operation. *)
Definition float_of_int (z : Z) : result float :=
  let f := F64.of_Z z in
  if F64.is_inf f then Raise OverflowError else Ok f.

(** The float operand that a numeric value contributes to [acc + v]. *)
Definition as_float (v : value) : result float :=
  match v with
  | VFloat f => Ok f
  | VInt z => float_of_int z
  | _ => Raise TypeError
  end.

(** [acc + v] where [acc] is a float accumulator. *)
Definition py_add (acc : float) (v : value) : result float :=
  x <- as_float v ;; Ok (F64.add acc x).

(** [a * b]: exact on two ints, binary64 otherwise.  A product with a
    non-numeric operand either raises [TypeError] at once or (string
    repetition) yields a string that the enclosing [+=] on a float rejects
    with [TypeError]; both end the statement with [TypeError]. *)
Definition py_mul (a b : value) : result value :=
  match a, b with
  | VInt x, VInt y => Ok (VInt (x * y))
  | VFloat _, VFloat _ | VFloat _, VInt _ | VInt _, VFloat _ =>
      x <- as_float a ;; y <- as_float b ;; Ok (VFloat (F64.mul x y))
  | _, _ => Raise TypeError
  end.

(** The total reading of the same operations, for stating sums: the
    binary64 value of a numeric cell and of a product of two cells. *)
Definition num (v : value) : float :=
  match v with
  | VFloat f => f
  | VInt z => F64.of_Z z
  | _ => F64.nan
  end.

Definition prod (a b : value) : float :=
  match a, b with
  | VInt x, VInt y => F64.of_Z (x * y)
  | _, _ => F64.mul (num a) (num b)
  end.

(** ** Dictionaries

    A Python [dict] keeps its entries in insertion order and finds a key by
    [==]; an assignment to a key already present keeps the stored key
    object and replaces the value. *)

Definition dict (V : Type) : Type := list (value * V).

Fixpoint dict_get {V} (d : dict V) (k : value) : option V :=
  match d with
  | [] => None
  | (k0, v) :: d' => if py_eq k0 k then Some v else dict_get d' k
  end.

Fixpoint dict_set {V} (d : dict V) (k : value) (v : V) : dict V :=
  match d with
  | [] => [(k, v)]
  | (k0, v0) :: d' =>
      if py_eq k0 k then (k0, v) :: d' else (k0, v0) :: dict_set d' k v
  end.

Definition keys {V} (d : dict V) : list value := map fst d.

(** [d[k]] on a [defaultdict(lambda: dflt)]. *)
Definition dd_get {V} (dflt : V) (d : dict V) (k : value) : V :=
  match dict_get d k with
  | Some v => v
  | None => dflt
  end.

(** ** Series and tables *)

(** A row handed out by [iterrows]: the column labels with the cells. *)
Definition Series : Type := list (string * value).

(** [row[name]]. *)
Fixpoint series_get (row : Series) (name : string) : result value :=
  match row with
  | [] => Raise (KeyError name)
  | (c, v) :: row' => if String.eqb c name then Ok v else series_get row' name
  end.

(** A table, column by column, as pandas stores it. *)
Record DataFrame : Type := mkDataFrame {
  nrows : nat;
  columns : list (string * list value)
}.

Definition iterrows (df : DataFrame) : list Series :=
  map (fun i => map (fun c => (fst c, nth i (snd c) VNaT)) (columns df))
      (seq 0 (nrows df)).

(** ** The aggregation engine: [Aggregation.__init__] *)

Inductive acc_name : Type :=
| Time | Distance | Output | OutputMinutes | Calories | CaloriesMinutes
| Hr | HrMinutes | Speed | SpeedMinutes | Cadence | CadenceMinutes.

(** The thirteen accumulators of the constructor. *)
Record accumulators : Type := mkAcc {
  total_workouts : dict Z;
  total_time : dict float;
  total_distance : dict float;
  total_output : dict float;
  total_output_minutes : dict float;
  total_calories : dict float;
  total_calories_minutes : dict float;
  total_hr : dict float;
  total_hr_minutes : dict float;
  total_speed : dict float;
  total_speed_minutes : dict float;
  total_cadence : dict float;
  total_cadence_minutes : dict float
}.

Definition empty_accumulators : accumulators :=
  mkAcc [] [] [] [] [] [] [] [] [] [] [] [] [].

Definition get_acc (a : acc_name) (st : accumulators) : dict float :=
  match a with
  | Time => total_time st
  | Distance => total_distance st
  | Output => total_output st
  | OutputMinutes => total_output_minutes st
  | Calories => total_calories st
  | CaloriesMinutes => total_calories_minutes st
  | Hr => total_hr st
  | HrMinutes => total_hr_minutes st
  | Speed => total_speed st
  | SpeedMinutes => total_speed_minutes st
  | Cadence => total_cadence st
  | CadenceMinutes => total_cadence_minutes st
  end.

Definition set_acc (a : acc_name) (d : dict float) (st : accumulators)
  : accumulators :=
  let '(mkAcc w t di o om c cm h hm s sm ca cam) := st in
  match a with
  | Time => mkAcc w d di o om c cm h hm s sm ca cam
  | Distance => mkAcc w t d o om c cm h hm s sm ca cam
  | Output => mkAcc w t di d om c cm h hm s sm ca cam
  | OutputMinutes => mkAcc w t di o d c cm h hm s sm ca cam
  | Calories => mkAcc w t di o om d cm h hm s sm ca cam
  | CaloriesMinutes => mkAcc w t di o om c d h hm s sm ca cam
  | Hr => mkAcc w t di o om c cm d hm s sm ca cam
  | HrMinutes => mkAcc w t di o om c cm h d s sm ca cam
  | Speed => mkAcc w t di o om c cm h hm d sm ca cam
  | SpeedMinutes => mkAcc w t di o om c cm h hm s d ca cam
  | Cadence => mkAcc w t di o om c cm h hm s sm d cam
  | CadenceMinutes => mkAcc w t di o om c cm h hm s sm ca d
  end.

(** [total_workouts[key] += 1]. *)
Definition count_workout (key : value) (st : accumulators) : accumulators :=
  let '(mkAcc w t di o om c cm h hm s sm ca cam) := st in
  mkAcc (dict_set w key (dd_get 0 w key + 1)) t di o om c cm h hm s sm ca cam.

(** [total_a[key] += v] on the float accumulator [a]. *)
Definition bump (a : acc_name) (key v : value) (st : accumulators)
  : result accumulators :=
  x <- py_add (dd_get F64.zero (get_acc a st) key) v ;;
  Ok (set_acc a (dict_set (get_acc a st) key x) st).

(** [if group_by:] holds for a non-empty string. *)
Definition truthy (group_by : option string) : option string :=
  match group_by with
  | Some g => if String.eqb g "" then None else Some g
  | None => None
  end.

(** The key of a row; [None] stands for [continue]. *)
Definition row_key (group_by : option string) (row : Series)
  : result (option value) :=
  match truthy group_by with
  | Some g =>
      key <- series_get row g ;;
      Ok (if isna key then None else Some key)
  | None => Ok (Some (VStr "All Time"))
  end.

(** The two statements guarded by a metric's presence: the sum (of the
    metric, or of length times the metric) and the minutes next to it. *)
Definition add_metric (weighted : bool) (a am : acc_name) (col : string)
    (key length : value) (row : Series) (st : accumulators)
  : result accumulators :=
  m <- series_get row col ;;
  if isna m then Ok st
  else
    x <- (if weighted then py_mul length m else Ok m) ;;
    st <- bump a key x st ;;
    bump am key length st.

(** The body of the loop over the rows. *)
Definition accumulate_row (group_by : option string) (row : Series)
    (st : accumulators) : result accumulators :=
  k <- row_key group_by row ;;
  match k with
  | None => Ok st
  | Some key =>
      let st := count_workout key st in
      distance <- series_get row "Distance (mi)" ;;
      st <- (if isna distance then Ok st else bump Distance key distance st) ;;
      length <- series_get row "Length (minutes)" ;;
      if isna length then Ok st
      else
        st <- bump Time key length st ;;
        st <- add_metric false Output OutputMinutes "Total Output" key length row st ;;
        st <- add_metric false Calories CaloriesMinutes "Calories Burned" key length row st ;;
        st <- add_metric true Hr HrMinutes "Avg. Heartrate" key length row st ;;
        st <- add_metric true Speed SpeedMinutes "Avg. Speed (mph)" key length row st ;;
        add_metric true Cadence CadenceMinutes "Avg. Cadence (RPM)" key length row st
  end.

Fixpoint accumulate (group_by : option string) (rows : list Series)
    (st : accumulators) : result accumulators :=
  match rows with
  | [] => Ok st
  | row :: rows' =>
      st' <- accumulate_row group_by row st ;;
      accumulate group_by rows' st'
  end.

(** One row of [aggregated_df]. *)
Record GroupSummary : Type := mkSummary {
  Total_Workouts : option Z;      (* [None]: NaN in the integer column *)
  Total_Minutes : float;
  Total_Distance : float;
  Total_Output : float;
  Total_Calories : float;
  Output_per_Minute : float;
  Calories_per_Minute : float;
  Avg_Heartrate : float;
  Avg_Speed : float;
  Avg_Cadence : float
}.

(** Building the frame from the ten series aligns them on the union of
    their indexes; a label missing from a series gets NaN there. *)
Definition at_label (d : dict float) (k : value) : float :=
  match dict_get d k with
  | Some x => x
  | None => F64.nan
  end.

(** [pd.Series(a) / pd.Series(b)] at a label. *)
Definition series_div (a b : dict float) (k : value) : float :=
  match dict_get a k, dict_get b k with
  | Some x, Some y => F64.div x y
  | _, _ => F64.nan
  end.

Definition has_label (l : list value) (k : value) : bool :=
  existsb (fun k0 => py_eq k0 k) l.

Definition union_index (acc new : list value) : list value :=
  fold_left (fun l k => if has_label l k then l else l ++ [k]) new acc.

(** The index of [aggregated_df]: the labels of the series of the dict
    literal, in order of first appearance (pandas may sort the union; the
    order of the rows is not used below). *)
Definition index (st : accumulators) : list value :=
  fold_left union_index
    [ keys (total_time st); keys (total_distance st); keys (total_output st);
      keys (total_calories st);
      keys (total_output st); keys (total_output_minutes st);
      keys (total_calories st); keys (total_calories_minutes st);
      keys (total_hr st); keys (total_hr_minutes st);
      keys (total_speed st); keys (total_speed_minutes st);
      keys (total_cadence st); keys (total_cadence_minutes st) ]
    (keys (total_workouts st)).

Definition summary (st : accumulators) (k : value) : GroupSummary :=
  {| Total_Workouts := dict_get (total_workouts st) k;
     Total_Minutes := at_label (total_time st) k;
     Total_Distance := at_label (total_distance st) k;
     Total_Output := at_label (total_output st) k;
     Total_Calories := at_label (total_calories st) k;
     Output_per_Minute := series_div (total_output st) (total_output_minutes st) k;
     Calories_per_Minute := series_div (total_calories st) (total_calories_minutes st) k;
     Avg_Heartrate := series_div (total_hr st) (total_hr_minutes st) k;
     Avg_Speed := series_div (total_speed st) (total_speed_minutes st) k;
     Avg_Cadence := series_div (total_cadence st) (total_cadence_minutes st) k |}.

Definition AggregatedDF : Type := list (value * GroupSummary).

Definition aggregated_df (st : accumulators) : AggregatedDF :=
  map (fun k => (k, summary st k)) (index st).

(** The loop over the rows followed by the construction of the frame. *)
Definition aggregate (group_by : option string) (rows : list Series)
  : result AggregatedDF :=
  st <- accumulate group_by rows empty_accumulators ;;
  Ok (aggregated_df st).

(** [Aggregation(workouts_df, group_by).aggregated_df]. *)
Definition Aggregation (workouts_df : DataFrame) (group_by : option string)
  : result AggregatedDF :=
  aggregate group_by (iterrows workouts_df).

(** [aggregated_df.loc[k]]. *)
Definition loc (r : AggregatedDF) (k : value) : option GroupSummary :=
  dict_get r k.

(** ** The records of a group and what each contributes

    The reading of the summary formulas: the records keyed to a group, the
    cell of a record, and the value a record adds to each accumulator. *)

(** The cell of a row under a column label. *)
Definition cell (row : Series) (name : string) : value :=
  match series_get row name with
  | Ok v => v
  | Raise _ => VNaT
  end.

Definition present (row : Series) (name : string) : bool :=
  negb (isna (cell row name)).

(** The row is keyed to the group labelled [k]. *)
Definition in_group (group_by : option string) (k : value) (row : Series)
  : bool :=
  match row_key group_by row with
  | Ok (Some key) => py_eq key k
  | _ => false
  end.

Definition group (group_by : option string) (k : value) (rows : list Series)
  : list Series :=
  filter (in_group group_by k) rows.

(** The row has a present group key. *)
Definition keyed (group_by : option string) (row : Series) : bool :=
  match row_key group_by row with
  | Ok (Some _) => true
  | _ => false
  end.

Definition length_of (row : Series) : value := cell row "Length (minutes)".

(** The column a metric accumulator reads, and whether it is weighted by
    the length. *)
Definition metric_column (a : acc_name) : string :=
  match a with
  | Time => "Length (minutes)"
  | Distance => "Distance (mi)"
  | Output | OutputMinutes => "Total Output"
  | Calories | CaloriesMinutes => "Calories Burned"
  | Hr | HrMinutes => "Avg. Heartrate"
  | Speed | SpeedMinutes => "Avg. Speed (mph)"
  | Cadence | CadenceMinutes => "Avg. Cadence (RPM)"
  end.

(** The record qualifies for the accumulator: the fields it needs are
    present. *)
Definition qualifies (a : acc_name) (row : Series) : bool :=
  match a with
  | Distance => present row "Distance (mi)"
  | _ => present row "Length (minutes)" && present row (metric_column a)
  end.

(** What a qualifying record adds to the accumulator. *)
Definition amount (a : acc_name) (row : Series) : float :=
  match a with
  | Distance => num (cell row "Distance (mi)")
  | Time | OutputMinutes | CaloriesMinutes | HrMinutes | SpeedMinutes
  | CadenceMinutes => num (length_of row)
  | Output | Calories => num (cell row (metric_column a))
  | Hr | Speed | Cadence => prod (length_of row) (cell row (metric_column a))
  end.

Definition contrib (a : acc_name) (row : Series) : option float :=
  if qualifies a row then Some (amount a row) else None.

(** An accumulator entry after one more contribution. *)
Definition upd (c : option float) (old : option float) : option float :=
  match c with
  | Some x =>
      Some (F64.add (match old with Some o => o | None => F64.zero end) x)
  | None => old
  end.

(** The entry of an accumulator: missing without a qualifying record,
    otherwise the running sum of the amounts in row order. *)
Definition entry (a : acc_name) (rows : list Series) : option float :=
  match filter (qualifies a) rows with
  | [] => None
  | q => Some (F64.sum (map (amount a) q))
  end.

Definition acc_eqb (a b : acc_name) : bool :=
  match a, b with
  | Time, Time | Distance, Distance | Output, Output
  | OutputMinutes, OutputMinutes | Calories, Calories
  | CaloriesMinutes, CaloriesMinutes | Hr, Hr | HrMinutes, HrMinutes
  | Speed, Speed | SpeedMinutes, SpeedMinutes | Cadence, Cadence
  | CadenceMinutes, CadenceMinutes => true
  | _, _ => false
  end.

(** The entry of [total_workouts]: missing for no record, else the count. *)
Definition count_entry (rows : list Series) : option Z :=
  match rows with
  | [] => None
  | _ => Some (Z.of_nat (List.length rows))
  end.

(** ** Auxiliary notions for the proofs *)

(** A dictionary as Python keeps it: every stored key is equal to itself
    and no two stored keys are equal. *)
Fixpoint dict_wf {V} (d : dict V) : Prop :=
  match d with
  | [] => True
  | (k, _) :: d' =>
      py_eq k k = true /\ has_label (keys d') k = false /\ dict_wf d'
  end.

(** The effect of a statement on the entries of the float accumulators:
    at the labels equal to [key], accumulator [a] receives [F a]; the
    dictionaries stay well formed. *)
Definition adds (key : value) (F : acc_name -> option float)
    (st st' : accumulators) : Prop :=
  total_workouts st' = total_workouts st /\
  (forall a k,
    dict_get (get_acc a st') k =
      if py_eq key k then upd (F a) (dict_get (get_acc a st) k)
      else dict_get (get_acc a st) k) /\
  (py_eq key key = true ->
   forall a, dict_wf (get_acc a st) -> dict_wf (get_acc a st')).

Definition state_wf (st : accumulators) : Prop :=
  dict_wf (total_workouts st) /\ forall a, dict_wf (get_acc a st).

(** The two guarded statements of a metric. *)
Definition metric_adds (weighted : bool) (a am : acc_name) (col : string)
    (length : value) (row : Series) (a' : acc_name) : option float :=
  if isna (cell row col) then None
  else if acc_eqb a a'
       then Some (if weighted then prod length (cell row col)
                  else num (cell row col))
       else if acc_eqb am a' then Some (num length) else None.

Definition step_entry (group_by : option string) (k : value) (a : acc_name)
    (o : option float) (row : Series) : option float :=
  if in_group group_by k row then upd (contrib a row) o else o.

Definition step_count (group_by : option string) (k : value)
    (o : option Z) (row : Series) : option Z :=
  if in_group group_by k row
  then Some (match o with Some n => n | None => 0 end + 1)
  else o.


(** ** Vocabulary of the summary formulas *)

(** The binary64 value of a metric cell of a record. *)
Definition metric (col : string) (row : Series) : float := num (cell row col).

(** Length times the metric, as the loop computes it. *)
Definition weighted (col : string) (row : Series) : float :=
  prod (length_of row) (cell row col).

(** Both the length and the metric of the record are present. *)
Definition both_present (col : string) (row : Series) : bool :=
  present row "Length (minutes)" && present row col.

(** The sum of the [total_workouts] column of a result ([Series.sum]
    skips NaN). *)
Definition sum_workouts (r : AggregatedDF) : Z :=
  fold_right (fun kg s =>
    match Total_Workouts (snd kg) with Some n => n + s | None => s end) 0 r.

(** The row has the grouping field, and its value is absent. *)
Definition absent_key (group_by : option string) (row : Series) : bool :=
  match row_key group_by row with
  | Ok None => true
  | _ => false
  end.

(** The sum of the values of an integer dictionary. *)
Definition dict_total (d : dict Z) : Z :=
  fold_right (fun kv s => snd kv + s) 0 d.

(** The length-weighted average of a metric over a group: the running sum
    of length times metric over the records where both are present,
    divided by the running sum of their lengths. *)
Definition weighted_average (col : string) (G : list Series) : float :=
  let Q := filter (both_present col) G in
  F64.div (F64.sum (map (weighted col) Q))
          (F64.sum (map (metric "Length (minutes)") Q)).

(** The ratio columns, named by the accumulator of their numerator, and
    the accumulator of the minutes each is divided by. *)
Definition is_ratio (a : acc_name) : bool :=
  match a with
  | Output | Calories | Hr | Speed | Cadence => true
  | _ => false
  end.

Definition minutes_of (a : acc_name) : acc_name :=
  match a with
  | Output => OutputMinutes
  | Calories => CaloriesMinutes
  | Hr => HrMinutes
  | Speed => SpeedMinutes
  | Cadence => CadenceMinutes
  | _ => a
  end.

Definition ratio_field (a : acc_name) (g : GroupSummary) : float :=
  match a with
  | Output => Output_per_Minute g
  | Calories => Calories_per_Minute g
  | Hr => Avg_Heartrate g
  | Speed => Avg_Speed g
  | Cadence => Avg_Cadence g
  | _ => F64.nan
  end.

(** The numerator and the qualifying minutes accumulated for a ratio. *)
Definition numerator (a : acc_name) (G : list Series) : float :=
  F64.sum (map (amount a) (filter (qualifies a) G)).

Definition qualifying_minutes (a : acc_name) (G : list Series) : float :=
  F64.sum (map (amount (minutes_of a)) (filter (qualifies a) G)).

(** ** Calendar routines of Python's [datetime] and [_strptime]

    The library functions that [process_workouts_df] calls on a timestamp:
    proleptic Gregorian ordinals (1 January of year 1 is day 1),
    [isocalendar], and [strptime] with the directives [%Y-%W-%w]. *)

Module Calendar.

Definition is_leap (year : Z) : bool :=
  (year mod 4 =? 0) && (negb (year mod 100 =? 0) || (year mod 400 =? 0)).

Definition days_before_year (year : Z) : Z :=
  let y := year - 1 in y * 365 + y / 4 - y / 100 + y / 400.

Definition DAYS_IN_MONTH : list Z :=
  [-1; 31; 28; 31; 30; 31; 30; 31; 31; 30; 31; 30; 31].

Definition DAYS_BEFORE_MONTH : list Z :=
  [-1; 0; 31; 59; 90; 120; 151; 181; 212; 243; 273; 304; 334].

Definition days_before_month (year month : Z) : Z :=
  nth (Z.to_nat month) DAYS_BEFORE_MONTH 0
  + (if (2 <? month) && is_leap year then 1 else 0).

Definition ymd2ord (year month day : Z) : Z :=
  days_before_year year + days_before_month year month + day.

Definition DI400Y : Z := 146097.
Definition DI100Y : Z := 36524.
Definition DI4Y : Z := 1461.

Definition ord2ymd (n : Z) : Z * Z * Z :=
  let n := n - 1 in
  let n400 := n / DI400Y in
  let n := n mod DI400Y in
  let year := n400 * 400 + 1 in
  let n100 := n / DI100Y in
  let n := n mod DI100Y in
  let n4 := n / DI4Y in
  let n := n mod DI4Y in
  let n1 := n / 365 in
  let n := n mod 365 in
  let year := year + n100 * 100 + n4 * 4 + n1 in
  if (n1 =? 4) || (n100 =? 4) then (year - 1, 12, 31)
  else
    let leapyear := (n1 =? 3) && (negb (n4 =? 24) || (n100 =? 3)) in
    let month := Z.shiftr (n + 50) 5 in
    let preceding :=
      nth (Z.to_nat month) DAYS_BEFORE_MONTH 0
      + (if (2 <? month) && leapyear then 1 else 0) in
    if n <? preceding then
      let month := month - 1 in
      let preceding :=
        preceding
        - (nth (Z.to_nat month) DAYS_IN_MONTH 0
           + (if (month =? 2) && leapyear then 1 else 0)) in
      (year, month, n - preceding + 1)
    else (year, month, n - preceding + 1).

(** [date.weekday()]: Monday is 0. *)
Definition weekday (year month day : Z) : Z :=
  (ymd2ord year month day + 6) mod 7.

Definition isoweek1monday (year : Z) : Z :=
  let firstday := ymd2ord year 1 1 in
  let firstweekday := (firstday + 6) mod 7 in
  let week1monday := firstday - firstweekday in
  if 3 <? firstweekday then week1monday + 7 else week1monday.

(** [date.isocalendar()]: ISO year, week number, weekday. *)
Definition isocalendar (y m d : Z) : Z * Z * Z :=
  let year := y in
  let week1monday := isoweek1monday year in
  let today := ymd2ord y m d in
  let week := (today - week1monday) / 7 in
  let day := (today - week1monday) mod 7 in
  if week <? 0 then
    let year := year - 1 in
    let week1monday := isoweek1monday year in
    (year, (today - week1monday) / 7 + 1, (today - week1monday) mod 7 + 1)
  else if (52 <=? week) && (isoweek1monday (year + 1) <=? today) then
    (year + 1, 1, day + 1)
  else (year, week + 1, day + 1).

(** [_strptime._calc_julian_from_U_or_W]. *)
Definition calc_julian_from_U_or_W (year week_of_year day_of_week : Z)
    (week_starts_Mon : bool) : Z :=
  let first_weekday := weekday year 1 1 in
  let first_weekday :=
    if week_starts_Mon then first_weekday else (first_weekday + 1) mod 7 in
  let day_of_week :=
    if week_starts_Mon then day_of_week else (day_of_week + 1) mod 7 in
  let week_0_length := (7 - first_weekday) mod 7 in
  if week_of_year =? 0 then 1 + day_of_week - first_weekday
  else
    let days_to_week := week_0_length + 7 * (week_of_year - 1) in
    1 + days_to_week + day_of_week.

(** [datetime.strptime("{}-{}-1".format(year, week), "%Y-%W-%w").date()]:
    [%Y] wants four digits, [%W] a week of the year counted from the first
    Monday (the days before it are week 0), [%w] = 1 a Monday. *)
Definition strptime_Y_W_w1 (year week : Z) : result (Z * Z * Z) :=
  if negb ((1000 <=? year) && (year <=? 9999) && (0 <=? week) && (week <=? 53))
  then Raise ValueError
  else
    let weekday := 0 in
    let julian := calc_julian_from_U_or_W year week weekday true in
    let year' := if julian <=? 0 then year - 1 else year in
    let julian :=
      if julian <=? 0
      then julian + (if is_leap year' then 366 else 365) else julian in
    Ok (ord2ymd (julian - 1 + ymd2ord year' 1 1)).

(** The Monday that begins the ISO-8601 week of a date. *)
Definition iso_week_monday (y m d : Z) : Z * Z * Z :=
  let today := ymd2ord y m d in
  ord2ymd (today - weekday y m d).

End Calendar.

(** ** Strings *)

Definition digit (n : Z) : ascii :=
  ascii_of_nat (48 + Z.to_nat (n mod 10)).

(** Two and four decimal digits, zero padded. *)
Definition pad2 (n : Z) : string :=
  String (digit (n / 10)) (String (digit n) EmptyString).

Definition pad4 (n : Z) : string :=
  String (digit (n / 1000)) (String (digit (n / 100)) (pad2 n)).

Fixpoint starts_with (p s : string) : bool :=
  match p, s with
  | EmptyString, _ => true
  | String a p', String b s' => Ascii.eqb a b && starts_with p' s'
  | String _ _, EmptyString => false
  end.

(** [s.replace(old, new)] for a non-empty [old]: the occurrences are found
    from the left and do not overlap.  [skip] counts the characters of a
    matched occurrence that remain to be dropped. *)
Fixpoint replace_from (old new : string) (skip : nat) (s : string) : string :=
  match s with
  | EmptyString => EmptyString
  | String c s' =>
      match skip with
      | S n => replace_from old new n s'
      | O =>
          if starts_with old s
          then new ++ replace_from old new (String.length old - 1) s'
          else String c (replace_from old new O s')
      end
  end.

Definition str_replace (s old new : string) : string :=
  replace_from old new O s.

(** ** The record normalizer: [process_workouts_df] *)

(** What [dateparser.parse] returns on success: a [datetime], naive
    ([utcoffset = None]) or aware. *)
Record pydatetime : Type := mkDatetime {
  dt_year : Z;
  dt_month : Z;
  dt_day : Z;
  dt_us : Z;                   (* microseconds since midnight *)
  dt_utcoffset : option Z      (* seconds east of UTC *)
}.

Definition US_PER_DAY : Z := 86400000000.
Definition INT64_MAX : Z := 9223372036854775807.

(** [pd.to_datetime(..., utc=True)] on one element: the instant in UTC (a
    naive datetime is taken as UTC), [None] becomes NaT; an instant that
    does not fit the nanosecond range raises OutOfBoundsDatetime, a
    [ValueError]. *)
Definition to_datetime_utc (x : option pydatetime) : result value :=
  match x with
  | None => Ok VNaT
  | Some dt =>
      let off := match dt_utcoffset dt with Some o => o | None => 0 end in
      let us :=
        Calendar.ymd2ord (dt_year dt) (dt_month dt) (dt_day dt) * US_PER_DAY
        + dt_us dt - off * 1000000 in
      let ns_epoch := (us - Calendar.ymd2ord 1970 1 1 * US_PER_DAY) * 1000 in
      if (- INT64_MAX <=? ns_epoch) && (ns_epoch <=? INT64_MAX) then
        let '(y, m, d) := Calendar.ord2ymd (us / US_PER_DAY) in
        Ok (VTimestamp y m d ((us mod US_PER_DAY) * 1000))
      else Raise ValueError
  end.

(** [df[name]]. *)
Fixpoint column_get (cols : list (string * list value)) (name : string)
  : result (list value) :=
  match cols with
  | [] => Raise (KeyError name)
  | (c, col) :: cols' =>
      if String.eqb c name then Ok col else column_get cols' name
  end.

(** [df[name] = col]: an existing column is replaced where it stands, a
    new one is added last. *)
Fixpoint column_set (cols : list (string * list value)) (name : string)
    (col : list value) : list (string * list value) :=
  match cols with
  | [] => [(name, col)]
  | (c, old) :: cols' =>
      if String.eqb c name then (c, col) :: cols'
      else (c, old) :: column_set cols' name col
  end.

Definition df_get (df : DataFrame) (name : string) : result (list value) :=
  column_get (columns df) name.

Definition df_set (df : DataFrame) (name : string) (col : list value)
  : DataFrame :=
  {| nrows := nrows df; columns := column_set (columns df) name col |}.

(** Division of two numeric columns, element by element, with numpy's
    rules: binary64 division, where a zero divisor gives an infinity or
    NaN and no error; an integer column is converted first. *)
Definition np_div (a b : value) : result value :=
  match a, b with
  | VFloat _, VFloat _ | VFloat _, VInt _ | VInt _, VFloat _ | VInt _, VInt _ =>
      Ok (VFloat (F64.div (num a) (num b)))
  | _, _ => Raise TypeError
  end.

Fixpoint column_div (a b : list value) : result (list value) :=
  match a, b with
  | x :: a', y :: b' =>
      q <- np_div x y ;; qs <- column_div a' b' ;; Ok (q :: qs)
  | _, _ => Ok []
  end.

(** The session: tables are objects on a heap and [st.session_state]
    refers to them, so that the table the caller stored and the table the
    normalizer works on are one object; aggregations are stored as they
    are. *)
Inductive session_value : Type :=
| SDataFrame (l : nat)
| SAggregation (group_by : option string) (aggregated : AggregatedDF).

Record store : Type := mkStore {
  heap : list DataFrame;
  session_state : list (string * session_value)
}.

Fixpoint session_get (ss : list (string * session_value)) (name : string)
  : option session_value :=
  match ss with
  | [] => None
  | (n, v) :: ss' => if String.eqb n name then Some v else session_get ss' name
  end.

Fixpoint session_set (ss : list (string * session_value)) (name : string)
    (v : session_value) : list (string * session_value) :=
  match ss with
  | [] => [(name, v)]
  | (n, old) :: ss' =>
      if String.eqb n name then (n, v) :: ss'
      else (n, old) :: session_set ss' name v
  end.

Fixpoint heap_set (h : list DataFrame) (l : nat) (df : DataFrame)
  : list DataFrame :=
  match h, l with
  | [], _ => []
  | _ :: h', O => df :: h'
  | d :: h', S l' => d :: heap_set h' l' df
  end.

(** State and exceptions: a statement returns or raises, and leaves a
    store either way. *)
Definition M (A : Type) : Type := store -> result A * store.

Definition mbind {A B} (m : M A) (k : A -> M B) : M B :=
  fun s =>
    match m s with
    | (Ok a, s') => k a s'
    | (Raise e, s') => (Raise e, s')
    end.

Notation "x <-- m ;;; k" := (mbind m (fun x => k))
  (at level 61, m at next level, right associativity).

(** Evaluate an expression over the table at [l]. *)
Definition eval {A} (l : nat) (f : DataFrame -> result A) : M A :=
  fun s =>
    match nth_error (heap s) l with
    | Some df => (f df, s)
    | None => (Raise TypeError, s)
    end.

(** [workouts_df[name] = col], in place. *)
Definition assign (l : nat) (name : string) (col : list value) : M unit :=
  fun s =>
    match nth_error (heap s) l with
    | Some df =>
        (Ok tt, {| heap := heap_set (heap s) l (df_set df name col);
                   session_state := session_state s |})
    | None => (Raise TypeError, s)
    end.

(** [st.session_state[name] = v]. *)
Definition store_session (name : string) (v : session_value) : M unit :=
  fun s =>
    (Ok tt, {| heap := heap s;
               session_state := session_set (session_state s) name v |}).

(** [st.session_state[name] = Aggregation(workouts_df, group_by)]. *)
Definition store_aggregation (l : nat) (name : string)
    (group_by : option string) : M unit :=
  a <-- eval l (fun df => Aggregation df group_by) ;;;
  store_session name (SAggregation group_by a).

Section Normalizer.

(** [dateparser.parse], a third-party parser that is not part of the
    repository: [None] for a string it cannot read. *)
Variable dateparser_parse : string -> option pydatetime.

Definition parse_datetime (date_str : value) : result (option pydatetime) :=
  match date_str with
  | VStr s =>
      Ok (dateparser_parse
            (str_replace (str_replace s "(-" "(GMT-") "(+" "(GMT+"))
  | _ => Raise AttributeError
  end.

(** The element of [c_datetime]: the parse, then the conversion to UTC
    (the two assignments to the column, taken together). *)
Definition c_datetime (x : value) : result value :=
  d <- parse_datetime x ;; to_datetime_utc d.

Definition c_day (x : value) : result value :=
  match x with
  | VTimestamp y m d _ => Ok (VDate y m d)
  | VNaT => Ok VNaT
  | _ => Raise AttributeError
  end.

Definition c_week (x : value) : result value :=
  match x with
  | VTimestamp y m d _ =>
      let '(_, week, _) := Calendar.isocalendar y m d in
      ymd <- Calendar.strptime_Y_W_w1 y week ;;
      let '(y', m', d') := ymd in Ok (VDate y' m' d')
  | VNaT => Raise ValueError
  | _ => Raise AttributeError
  end.

Definition c_month (x : value) : result value :=
  match x with
  | VTimestamp y m d _ => Ok (VStr (pad4 y ++ "-" ++ pad2 m))
  | VNaT => Raise ValueError
  | _ => Raise AttributeError
  end.

Definition c_year (x : value) : result value :=
  match x with
  | VTimestamp y m d _ => Ok (VInt y)
  | VNaT => Raise ValueError
  | _ => Raise AttributeError
  end.

(** [workouts_df[target] = workouts_df[source].apply(f)]. *)
Definition assign_apply (l : nat) (target source : string)
    (f : value -> result value) : M unit :=
  col <-- eval l (fun df => c <- df_get df source ;; mapM f c) ;;;
  assign l target col.

(** [workouts_df[target] = workouts_df[a] / workouts_df[b]]. *)
Definition assign_ratio (l : nat) (target a b : string) : M unit :=
  col <-- eval l (fun df =>
            x <- df_get df a ;; y <- df_get df b ;; column_div x y) ;;;
  assign l target col.

Definition process_workouts_df : M unit :=
  fun s =>
    match session_get (session_state s) "workouts_df" with
    | None => (Ok tt, s)
    | Some (SAggregation _ _) => (Raise TypeError, s)
    | Some (SDataFrame l) =>
        (_ <-- assign_apply l "c_datetime" "Workout Timestamp" c_datetime ;;;
         _ <-- assign_apply l "c_day" "c_datetime" c_day ;;;
         _ <-- assign_apply l "c_week" "c_datetime" c_week ;;;
         _ <-- assign_apply l "c_month" "c_datetime" c_month ;;;
         _ <-- assign_apply l "c_year" "c_datetime" c_year ;;;
         _ <-- assign_ratio l "c_calories_per_minute"
                 "Calories Burned" "Length (minutes)" ;;;
         _ <-- assign_ratio l "c_output_per_minute"
                 "Total Output" "Length (minutes)" ;;;
         _ <-- store_session "workouts_df" (SDataFrame l) ;;;
         _ <-- store_aggregation l "workouts_aggregation_all_time" None ;;;
         _ <-- store_aggregation l "workouts_aggregation_by_year" (Some "c_year") ;;;
         _ <-- store_aggregation l "workouts_aggregation_by_month" (Some "c_month") ;;;
         _ <-- store_aggregation l "workouts_aggregation_by_week" (Some "c_week") ;;;
         _ <-- store_aggregation l "workouts_aggregation_by_day" (Some "c_day") ;;;
         _ <-- store_aggregation l "workouts_aggregation_by_instructor"
                 (Some "Instructor Name") ;;;
         store_aggregation l "workouts_aggregation_by_class_length"
           (Some "Length (minutes)")) s
    end.

End Normalizer.

(** The names of the columns the normalizer writes. *)
Definition derived_columns : list string :=
  [ "c_datetime"; "c_day"; "c_week"; "c_month"; "c_year";
    "c_calories_per_minute"; "c_output_per_minute" ].

(** ** Well-formed input tables *)

Definition metric_names : list string :=
  [ "Distance (mi)"; "Length (minutes)"; "Total Output"; "Calories Burned";
    "Avg. Heartrate"; "Avg. Speed (mph)"; "Avg. Cadence (RPM)" ].

(** A cell of a float64 column (NaN when missing), or NaT. *)
Definition float_or_missing (v : value) : bool :=
  match v with
  | VFloat _ | VNaT => true
  | _ => false
  end.

(** The table has the seven metric columns, with numbers or missing
    values in them. *)
Definition metrics_ok (df : DataFrame) : Prop :=
  forall col, In col metric_names ->
    exists c, df_get df col = Ok c
              /\ forall v, In v c -> float_or_missing v = true.

(** The field to group by, if one is asked for, is a column of the table. *)
Definition group_field_ok (df : DataFrame) (group_by : option string) : Prop :=
  forall g, truthy group_by = Some g -> exists c, df_get df g = Ok c.

Definition row_ok (group_by : option string) (row : Series) : Prop :=
  (forall col, In col metric_names ->
     exists v, series_get row col = Ok v /\ float_or_missing v = true)
  /\ (forall g, truthy group_by = Some g -> exists v, series_get row g = Ok v).

(** ** Effects of the normalizer on the store *)

(** The table at [l], which was [df], has kept its rows and every column
    that is not a derived one; the other objects of the heap are as in
    [s0]; the session still refers to the table at [l]. *)
Definition frame (l : nat) (df : DataFrame) (s0 s : store) : Prop :=
  (exists df',
     nth_error (heap s) l = Some df'
     /\ nrows df' = nrows df
     /\ forall c, ~ In c derived_columns -> df_get df' c = df_get df c)
  /\ (forall l', l' <> l -> nth_error (heap s) l' = nth_error (heap s0) l')
  /\ session_get (session_state s) "workouts_df" = Some (SDataFrame l).

(** The table at [l] has the columns [names]. *)
Definition has_columns (l : nat) (names : list string) (s : store) : Prop :=
  exists df',
    nth_error (heap s) l = Some df'
    /\ forall c, In c names -> exists col, df_get df' c = Ok col.

(** A statement keeps [P], however it ends. *)
Definition preserves {A} (P : store -> Prop) (m : M A) : Prop :=
  forall s r s', P s -> m s = (r, s') -> P s'.

(** A statement that returns takes [P] to [Q]. *)
Definition on_success {A} (P : store -> Prop) (m : M A) (Q : store -> Prop)
  : Prop :=
  forall s a s', P s -> m s = (Ok a, s') -> Q s'.
(** ** Examples *)

Definition f64 (m : positive) (e : Z) : float := S754_finite false m e.

Module Examples.

Definition nanv : value := VFloat F64.nan.
Definition fl (z : Z) : value := VFloat (F64.of_Z z).

(** Three workouts: lengths 30, 60 and missing; calories 300, 900, 500. *)
Definition three_workouts : DataFrame :=
  {| nrows := 3;
     columns :=
       [ ("Distance (mi)", [nanv; nanv; nanv]);
         ("Length (minutes)", [fl 30; fl 60; nanv]);
         ("Total Output", [nanv; nanv; nanv]);
         ("Calories Burned", [fl 300; fl 900; fl 500]);
         ("Avg. Heartrate", [nanv; nanv; nanv]);
         ("Avg. Speed (mph)", [nanv; nanv; nanv]);
         ("Avg. Cadence (RPM)", [nanv; nanv; nanv]) ] |}.

(** Its all-time summary. *)
Definition three_summary : GroupSummary :=
  {| Total_Workouts := Some 3;
     Total_Minutes := F64.of_Z 90;
     Total_Distance := F64.nan;
     Total_Output := F64.nan;
     Total_Calories := F64.of_Z 1200;
     Output_per_Minute := F64.nan;
     Calories_per_Minute := F64.div (F64.of_Z 1200) (F64.of_Z 90);
     Avg_Heartrate := F64.nan;
     Avg_Speed := F64.nan;
     Avg_Cadence := F64.nan |}.

(** The binary64 numbers written 45.0, 17.1 and 17.100000000000005. *)
Definition f45 : float := f64 6333186975989760 (-47).
Definition f17_1 : float := f64 4813222101752218 (-48).
Definition f17_1_up : float := f64 4813222101752219 (-48).

(** Three rides of 45 minutes at 17.1 mph each. *)
Definition uniform_rides : DataFrame :=
  {| nrows := 3;
     columns :=
       [ ("Distance (mi)", [nanv; nanv; nanv]);
         ("Length (minutes)", [VFloat f45; VFloat f45; VFloat f45]);
         ("Total Output", [nanv; nanv; nanv]);
         ("Calories Burned", [nanv; nanv; nanv]);
         ("Avg. Heartrate", [nanv; nanv; nanv]);
         ("Avg. Speed (mph)", [VFloat f17_1; VFloat f17_1; VFloat f17_1]);
         ("Avg. Cadence (RPM)", [nanv; nanv; nanv]) ] |}.

Definition uniform_summary : GroupSummary :=
  {| Total_Workouts := Some 3;
     Total_Minutes := F64.of_Z 135;
     Total_Distance := F64.nan;
     Total_Output := F64.nan;
     Total_Calories := F64.nan;
     Output_per_Minute := F64.nan;
     Calories_per_Minute := F64.nan;
     Avg_Heartrate := F64.nan;
     Avg_Speed := f17_1_up;
     Avg_Cadence := F64.nan |}.

(** Two rides of 30 minutes at a heart rate of 150. *)
Definition steady_rides : DataFrame :=
  {| nrows := 2;
     columns :=
       [ ("Distance (mi)", [nanv; nanv]);
         ("Length (minutes)", [fl 30; fl 30]);
         ("Total Output", [nanv; nanv]);
         ("Calories Burned", [nanv; nanv]);
         ("Avg. Heartrate", [fl 150; fl 150]);
         ("Avg. Speed (mph)", [nanv; nanv]);
         ("Avg. Cadence (RPM)", [nanv; nanv]) ] |}.

(** A table with the workout columns and no row. *)
Definition no_workouts : DataFrame :=
  {| nrows := 0;
     columns :=
       [ ("Workout Timestamp", []);
         ("Distance (mi)", []);
         ("Length (minutes)", []);
         ("Total Output", []);
         ("Calories Burned", []);
         ("Avg. Heartrate", []);
         ("Avg. Speed (mph)", []);
         ("Avg. Cadence (RPM)", []) ] |}.

(** A stand-in for the parser in the examples: it knows one rewritten
    timestamp, 18:30 on 5 March 2021 at five hours west of UTC. *)
Definition known_timestamps (s : string) : option pydatetime :=
  if String.eqb s "2021-03-05 18:30 (GMT-05)"
  then Some {| dt_year := 2021; dt_month := 3; dt_day := 5;
               dt_us := (18 * 3600 + 30 * 60) * 1000000;
               dt_utcoffset := Some (-18000) |}
  else None.

(** One uploaded ride, as the caller stored it in the session. *)
Definition one_ride : DataFrame :=
  {| nrows := 1;
     columns :=
       [ ("Workout Timestamp", [VStr "2021-03-05 18:30 (-05)"]);
         ("Instructor Name", [VStr "Robin"]);
         ("Length (minutes)", [fl 30]);
         ("Distance (mi)", [nanv]);
         ("Total Output", [fl 240]);
         ("Calories Burned", [fl 300]);
         ("Avg. Heartrate", [fl 150]);
         ("Avg. Speed (mph)", [nanv]);
         ("Avg. Cadence (RPM)", [nanv]) ] |}.

Definition uploaded : store :=
  {| heap := [one_ride];
     session_state := [("workouts_df", SDataFrame 0)] |}.

(** The same ride in a table that already has a column named [c_year]. *)
Definition annotated_ride : DataFrame :=
  df_set one_ride "c_year" [VStr "draft"].

Definition uploaded_annotated : store :=
  {| heap := [annotated_ride];
     session_state := [("workouts_df", SDataFrame 0)] |}.

(** A ride of zero minutes that burned 100 calories. *)
Definition zero_length_ride : DataFrame :=
  {| nrows := 1;
     columns :=
       [ ("Distance (mi)", [nanv]);
         ("Length (minutes)", [VFloat F64.zero]);
         ("Total Output", [nanv]);
         ("Calories Burned", [fl 100]);
         ("Avg. Heartrate", [nanv]);
         ("Avg. Speed (mph)", [nanv]);
         ("Avg. Cadence (RPM)", [nanv]) ] |}.

End Examples.


(** * Definitions for the further properties *)

(** ** Vocabulary for the total columns *)

(** A total column at a label: NaN when no record contributed, otherwise
    the running sum. *)
Definition sum_or_nan (l : list float) : float :=
  match l with
  | [] => F64.nan
  | _ => F64.sum l
  end.

(** ** Vocabulary for malformed tables *)

(** A cell that is a float64, missing, or text. *)
Definition number_or_text (v : value) : bool :=
  match v with
  | VFloat _ | VNaT | VStr _ => true
  | _ => false
  end.

Definition is_text (v : value) : bool :=
  match v with
  | VStr _ => true
  | _ => false
  end.

(** The table has the seven metric columns, some cells of which may hold
    text. *)
Definition metrics_or_text (df : DataFrame) : Prop :=
  forall col, In col metric_names ->
    exists c, df_get df col = Ok c
              /\ forall v, In v c -> number_or_text v = true.

(** The column whose text cell a keyed row trips over: the distance and
    the length are always read, the other metrics only next to a present
    length. *)
Definition trips (col : string) (row : Series) : bool :=
  is_text (cell row col)
  && (String.eqb col "Distance (mi)" || String.eqb col "Length (minutes)"
      || present row "Length (minutes)").

(** A row of such a table: the seven cells are there, and so is the key. *)
Definition row_or_text (group_by : option string) (row : Series) : Prop :=
  (forall col, In col metric_names ->
     exists v, series_get row col = Ok v /\ number_or_text v = true)
  /\ (exists k, row_key group_by row = Ok k).

(** The row has a present key and trips over a text cell. *)
Definition row_trips (group_by : option string) (row : Series) : bool :=
  keyed group_by row && existsb (fun col => trips col row) metric_names.

(** A result that is a value or a [TypeError]. *)
Definition ok_or_type_error {A} (r : result A) : Prop :=
  (exists a, r = Ok a) \/ r = Raise TypeError.

Module MoreExamples.

Definition nanv : value := VFloat F64.nan.
Definition fl (z : Z) : value := VFloat (F64.of_Z z).

(** A ride whose distance was exported as text. *)
Definition text_distance : DataFrame :=
  {| nrows := 1;
     columns :=
       [ ("Distance (mi)", [VStr "n/a"]);
         ("Length (minutes)", [fl 30]);
         ("Total Output", [nanv]);
         ("Calories Burned", [fl 300]);
         ("Avg. Heartrate", [nanv]);
         ("Avg. Speed (mph)", [nanv]);
         ("Avg. Cadence (RPM)", [nanv]) ] |}.

(** A table without the distance column. *)
Definition no_distance : DataFrame :=
  {| nrows := 1;
     columns :=
       [ ("Length (minutes)", [fl 30]);
         ("Total Output", [nanv]);
         ("Calories Burned", [fl 300]);
         ("Avg. Heartrate", [nanv]);
         ("Avg. Speed (mph)", [nanv]);
         ("Avg. Cadence (RPM)", [nanv]) ] |}.

(** One ride whose timestamp the stand-in parser of the examples does not
    read, as stored in the session. *)
Definition unreadable_ride : DataFrame :=
  {| nrows := 1;
     columns :=
       [ ("Workout Timestamp", [VStr "some day in March"]);
         ("Instructor Name", [VStr "Robin"]);
         ("Length (minutes)", [fl 30]);
         ("Distance (mi)", [nanv]);
         ("Total Output", [fl 240]);
         ("Calories Burned", [fl 300]);
         ("Avg. Heartrate", [fl 150]);
         ("Avg. Speed (mph)", [nanv]);
         ("Avg. Cadence (RPM)", [nanv]) ] |}.

Definition uploaded_unreadable : store :=
  {| heap := [unreadable_ride];
     session_state := [("workouts_df", SDataFrame 0)] |}.

End MoreExamples.

(** ** The normalizer as a function of the table

    The seven column assignments of [process_workouts_df], in the order of
    the source, on a table value: what the table at the session's
    reference has become when the assignments have all returned. *)

Definition apply_column (df : DataFrame) (target source : string)
    (f : value -> result value) : result DataFrame :=
  c <- df_get df source ;;
  col <- mapM f c ;;
  Ok (df_set df target col).

Definition ratio_column (df : DataFrame) (target a b : string)
  : result DataFrame :=
  x <- df_get df a ;;
  y <- df_get df b ;;
  col <- column_div x y ;;
  Ok (df_set df target col).

Definition normalize (parse : string -> option pydatetime) (df : DataFrame)
  : result DataFrame :=
  df <- apply_column df "c_datetime" "Workout Timestamp" (c_datetime parse) ;;
  df <- apply_column df "c_day" "c_datetime" c_day ;;
  df <- apply_column df "c_week" "c_datetime" c_week ;;
  df <- apply_column df "c_month" "c_datetime" c_month ;;
  df <- apply_column df "c_year" "c_datetime" c_year ;;
  df <- ratio_column df "c_calories_per_minute"
          "Calories Burned" "Length (minutes)" ;;
  ratio_column df "c_output_per_minute" "Total Output" "Length (minutes)".

(** The names under which the aggregations are stored, with their
    grouping fields, in the order of the source. *)
Definition stored_aggregations : list (string * option string) :=
  [ ("workouts_aggregation_all_time", None);
    ("workouts_aggregation_by_year", Some "c_year");
    ("workouts_aggregation_by_month", Some "c_month");
    ("workouts_aggregation_by_week", Some "c_week");
    ("workouts_aggregation_by_day", Some "c_day");
    ("workouts_aggregation_by_instructor", Some "Instructor Name");
    ("workouts_aggregation_by_class_length", Some "Length (minutes)") ].

Definition is_timestamp (v : value) : bool :=
  match v with
  | VTimestamp _ _ _ _ => true
  | _ => false
  end.

(** The aggregations by a period of time. *)
Definition time_aggregations : list (string * option string) :=
  [ ("workouts_aggregation_by_year", Some "c_year");
    ("workouts_aggregation_by_month", Some "c_month");
    ("workouts_aggregation_by_week", Some "c_week");
    ("workouts_aggregation_by_day", Some "c_day") ].

(** ** Week labels

    The reading of [c_week]: the Monday that begins the week of a date,
    moved to the next Monday in a year whose 1 January is a Tuesday, a
    Wednesday or a Thursday (in such a year the ISO weeks are numbered
    from the Monday before 1 January, and [%W] counts from the first
    Monday of January). *)

Definition late_weeks (year : Z) : bool :=
  let first := Calendar.weekday year 1 1 in (1 <=? first) && (first <=? 3).

Definition week_label (y m d : Z) : Z * Z * Z :=
  Calendar.ord2ymd
    (Calendar.ymd2ord y m d - Calendar.weekday y m d
     + (if late_weeks y then 7 else 0)).

(** ** The upload page: [render_upload_workouts]

    The calls to Streamlit are recorded in the order they are made; the
    file of the uploader and the table that [pd.read_csv] reads from it
    are inputs of the page. *)

From Stdlib Require Import DecimalString.

Inductive ui_event : Type :=
| Title (text : string)
| Markdown (text : string)
| Subheader (text : string)
| File_uploader (label : string) (types : list string) (help : string)
| Show_dataframe (data : DataFrame).

(** [str(n)] of a natural number. *)
Definition decimal (n : nat) : string :=
  NilEmpty.string_of_uint (Nat.to_uint n).

(** The row of a table at a position. *)
Definition row_at (df : DataFrame) (i : nat) : Series :=
  map (fun c => (fst c, nth i (snd c) VNaT)) (columns df).

(** [df[mask]] for a mask given by the positions it selects: a new table
    with the rows at these positions. *)
Definition take_rows (df : DataFrame) (positions : list nat) : DataFrame :=
  {| nrows := List.length positions;
     columns :=
       map (fun c => (fst c, map (fun i => nth i (snd c) VNaT) positions))
           (columns df) |}.

(** [df[df[col] == x]]. *)
Definition filter_eq (df : DataFrame) (col : string) (x : value)
  : result DataFrame :=
  c <- df_get df col ;;
  Ok (take_rows df
        (filter (fun i => py_eq (nth i c VNaT) x) (seq 0 (nrows df)))).

Definition workouts_guide : string :=
  "
    1. Go to https://members.onepeloton.com/profile/workouts
    2. Click 'DOWNLOAD WORKOUTS' and save your file
    3. Upload your saved workouts.csv file below
    ".

Definition workouts_help : string :=
  "
    We do not log or save any of your personal data. To learn more, or
    to see the source code, go to https://github.com/jfkirk/pelotonnes.
    ".

(** The last statement of the page: the table of the session, if there is
    one, is shown. *)
Definition show_workouts (s : store) (log : list ui_event)
  : result unit * store * list ui_event :=
  match session_get (session_state s) "workouts_df" with
  | None => (Ok tt, s, log)
  | Some (SDataFrame l) =>
      match nth_error (heap s) l with
      | Some df =>
          (Ok tt, s, log ++ [Subheader "Cycling Workouts"; Show_dataframe df])
      | None => (Raise TypeError, s, log ++ [Subheader "Cycling Workouts"])
      end
  | Some (SAggregation _ _) =>
      (Raise TypeError, s, log ++ [Subheader "Cycling Workouts"])
  end.

(** [raw_workouts] is [None] when no file is in the uploader, and
    otherwise the table read from the file.  The filtered table is a new
    object; the session is made to refer to it before it is processed, and
    its length is taken after.  (The first conditional of the source only
    binds a local name.) *)
Definition render_upload_workouts (parse : string -> option pydatetime)
    (raw_workouts : option DataFrame) (s : store)
  : result unit * store * list ui_event :=
  let log :=
    [ Title "Upload Workouts"; Markdown workouts_guide;
      File_uploader "Upload your workouts" ["csv"] workouts_help ] in
  match raw_workouts with
  | None => show_workouts s log
  | Some raw =>
      match filter_eq raw "Fitness Discipline" (VStr "Cycling") with
      | Raise e => (Raise e, s, log)
      | Ok workouts_df =>
          let l := List.length (heap s) in
          let s :=
            {| heap := heap s ++ [workouts_df];
               session_state :=
                 session_set (session_state s) "workouts_df" (SDataFrame l) |} in
          let log := log ++ [Markdown "Processing your workouts..."] in
          match process_workouts_df parse s with
          | (Raise e, s) => (Raise e, s, log)
          | (Ok _, s) =>
              match nth_error (heap s) l with
              | None => (Raise TypeError, s, log)
              | Some workouts_df =>
                  let log :=
                    log ++
                    [ Markdown (decimal (nrows workouts_df)
                                ++ " workouts processed!");
                      Markdown "Use the sidebar to analyze your workouts." ] in
                  show_workouts s log
              end
          end
      end
  end.

(** The record is a cycling workout. *)
Definition is_cycling (row : Series) : bool :=
  py_eq (cell row "Fitness Discipline") (VStr "Cycling").

Module UploadExamples.

Definition fl (z : Z) : value := VFloat (F64.of_Z z).

(** A file with two rides and a yoga class between them. *)
Definition mixed_file : DataFrame :=
  {| nrows := 3;
     columns :=
       [ ("Workout Timestamp",
          [ VStr "2021-03-05 18:30 (-05)"; VStr "2021-03-05 18:30 (-05)";
            VStr "2021-03-05 18:30 (-05)" ]);
         ("Fitness Discipline", [VStr "Cycling"; VStr "Yoga"; VStr "Cycling"]);
         ("Instructor Name", [VStr "Robin"; VStr "Kim"; VStr "Alex"]);
         ("Length (minutes)", [fl 30; fl 20; fl 45]);
         ("Distance (mi)", [fl 9; VFloat F64.nan; fl 14]);
         ("Total Output", [fl 240; VFloat F64.nan; fl 400]);
         ("Calories Burned", [fl 300; fl 80; fl 500]);
         ("Avg. Heartrate", [fl 150; fl 90; fl 155]);
         ("Avg. Speed (mph)", [fl 18; VFloat F64.nan; fl 19]);
         ("Avg. Cadence (RPM)", [fl 80; VFloat F64.nan; fl 85]) ] |}.

(** The same file with a timestamp that the stand-in parser of the
    examples does not read. *)
Definition unreadable_file : DataFrame :=
  df_set mixed_file "Workout Timestamp"
    [ VStr "2021-03-05 18:30 (-05)"; VStr "2021-03-05 18:30 (-05)";
      VStr "some day in March" ].

(** A file without the discipline column. *)
Definition no_discipline_file : DataFrame := Examples.one_ride.

Definition new_session : store := {| heap := []; session_state := [] |}.

(** The session after [mixed_file] has been uploaded. *)
Definition after_upload : store :=
  snd (fst (render_upload_workouts Examples.known_timestamps
              (Some mixed_file) new_session)).

End UploadExamples.

(** ** Occurrences in a string *)

(** [p in s]. *)
Fixpoint occurs (p s : string) : bool :=
  starts_with p s
  || match s with
     | EmptyString => false
     | String _ s' => occurs p s'
     end.

Definition first_char (s : string) : option ascii :=
  match s with
  | EmptyString => None
  | String c _ => Some c
  end.

(** The compact zone annotation with the sign [x], as it begins, and what
    [parse_datetime] puts in its place. *)
Definition compact (x : ascii) : string :=
  String "(" (String x EmptyString).

Definition expanded (x : ascii) : string :=
  String "(" (String "G" (String "M" (String "T" (String x EmptyString)))).

(** ** Tables that are processed without error *)

(** A timestamp with a date: a year of four digits, a month, a day. *)
Definition valid_timestamp (t : value) : bool :=
  match t with
  | VTimestamp y m d _ =>
      (1000 <=? y) && (y <=? 9999) && (1 <=? m) && (m <=? 12) && (1 <=? d)
  | _ => false
  end.

Definition is_float (v : value) : bool :=
  match v with
  | VFloat _ => true
  | _ => false
  end.

(** The seven metric columns are float64 columns. *)
Definition float_metrics (df : DataFrame) : Prop :=
  forall col, In col metric_names ->
    exists c, df_get df col = Ok c /\ forall v, In v c -> is_float v = true.

(** Every workout timestamp is read by the parser and fits the
    nanosecond range. *)
Definition timestamps_read (parse : string -> option pydatetime)
    (df : DataFrame) : Prop :=
  exists c,
    df_get df "Workout Timestamp" = Ok c
    /\ forall v, In v c ->
         exists t, c_datetime parse v = Ok t /\ t <> VNaT.
(** * Properties *)

(** ** Key equality is a partial equivalence *)

Lemma ckey_eqb_eq (a b : ckey) : ckey_eqb a b = true <-> a = b.
Proof.
  destruct a, b; simpl; try (split; [discriminate | congruence]);
    repeat rewrite andb_true_iff;
    repeat rewrite Z.eqb_eq; try rewrite Pos.eqb_eq;
    try rewrite String.eqb_eq; try rewrite Bool.eqb_true_iff;
    split; intros H;
    try (inversion H; subst; tauto);
    try (f_equal; tauto).
Qed.

Lemma py_eq_iff (a b : value) :
  py_eq a b = true <-> exists x, canon a = Some x /\ canon b = Some x.
Proof.
  unfold py_eq. destruct (canon a) as [x|], (canon b) as [y|].
  - rewrite ckey_eqb_eq. split.
    + intros ->. eauto.
    + intros (z & Hx & Hy). congruence.
  - split; [discriminate | intros (z & _ & H); discriminate].
  - split; [discriminate | intros (z & H & _); discriminate].
  - split; [discriminate | intros (z & H & _); discriminate].
Qed.

Lemma py_eq_sym (a b : value) : py_eq a b = true -> py_eq b a = true.
Proof. rewrite !py_eq_iff. intros (x & Ha & Hb). eauto. Qed.

Lemma py_eq_trans (a b c : value) :
  py_eq a b = true -> py_eq b c = true -> py_eq a c = true.
Proof.
  rewrite !py_eq_iff. intros (x & Ha & Hb) (y & Hb' & Hc).
  exists x. split; congruence.
Qed.

(** A key that passed [pd.isnull] is equal to itself. *)
Lemma py_eq_refl (k : value) : isna k = false -> py_eq k k = true.
Proof.
  intros H. apply py_eq_iff.
  destruct k; simpl in *; try discriminate; eauto.
  destruct f; simpl in *; try discriminate; eauto.
Qed.

(** Equal keys are found equal by everything else. *)
Lemma py_eq_cong (a b c : value) :
  py_eq a b = true -> py_eq c a = py_eq c b.
Proof.
  intros H. destruct (py_eq c a) eqn:Ha.
  - symmetry. eapply py_eq_trans; eauto.
  - destruct (py_eq c b) eqn:Hb; [|reflexivity].
    rewrite <- Ha.
    rewrite (py_eq_trans c b a Hb (py_eq_sym _ _ H)). reflexivity.
Qed.

Lemma py_eq_cong_l (a b c : value) :
  py_eq a b = true -> py_eq a c = py_eq b c.
Proof.
  intros H. destruct (py_eq b c) eqn:Hb.
  - eapply py_eq_trans; eauto.
  - destruct (py_eq a c) eqn:Ha; [|reflexivity].
    rewrite <- Hb.
    rewrite (py_eq_trans b a c (py_eq_sym _ _ H) Ha). reflexivity.
Qed.

(** ** Dictionaries *)

Section Dict.
Context {V : Type}.
Implicit Types (d : dict V) (k : value) (v : V).

Lemma dict_get_cong d k k' :
  py_eq k k' = true -> dict_get d k = dict_get d k'.
Proof.
  intros H. induction d as [|[k0 v0] d IH]; simpl; [reflexivity|].
  rewrite (py_eq_cong _ _ k0 H). now rewrite IH.
Qed.

Lemma dict_get_set d key v k :
  dict_get (dict_set d key v) k =
    if py_eq key k then Some v else dict_get d k.
Proof.
  induction d as [|[k0 v0] d IH]; simpl.
  - destruct (py_eq key k); reflexivity.
  - destruct (py_eq k0 key) eqn:E0; simpl.
    + rewrite <- (py_eq_cong_l k0 key k E0).
      destruct (py_eq k0 k); reflexivity.
    + destruct (py_eq k0 k) eqn:E1.
      * destruct (py_eq key k) eqn:E2; [|reflexivity].
        rewrite (py_eq_trans _ _ _ E1 (py_eq_sym _ _ E2)) in E0. discriminate.
      * apply IH.
Qed.

Lemma dict_get_has_label d k :
  has_label (keys d) k = match dict_get d k with Some _ => true | None => false end.
Proof.
  induction d as [|[k0 v0] d IH]; simpl; [reflexivity|].
  destruct (py_eq k0 k); simpl; auto.
Qed.

Lemma keys_dict_set d key v :
  keys (dict_set d key v) =
    if has_label (keys d) key then keys d else keys d ++ [key].
Proof.
  induction d as [|[k0 v0] d IH]; simpl; [reflexivity|].
  destruct (py_eq k0 key); simpl; [reflexivity|].
  rewrite IH. destruct (has_label (keys d) key); reflexivity.
Qed.

Lemma has_label_app (l : list value) (k0 k : value) :
  has_label (l ++ [k0]) k = has_label l k || py_eq k0 k.
Proof.
  unfold has_label. rewrite existsb_app. simpl. now rewrite orb_false_r.
Qed.

Lemma dict_wf_set d key v :
  py_eq key key = true -> dict_wf d -> dict_wf (dict_set d key v).
Proof.
  intros Hk. induction d as [|[k0 v0] d IH]; simpl.
  - auto.
  - intros (R & N & W). destruct (py_eq k0 key) eqn:E; simpl.
    + auto.
    + split; [exact R|]. split; [|auto].
      rewrite keys_dict_set. destruct (has_label (keys d) key); [exact N|].
      rewrite has_label_app, N. simpl.
      destruct (py_eq key k0) eqn:E'; [|reflexivity].
      now rewrite (py_eq_sym _ _ E') in E.
Qed.

Lemma dict_get_in d k :
  dict_wf d -> In k (keys d) -> dict_get d k <> None.
Proof.
  induction d as [|[k0 v0] d IH]; simpl; [tauto|].
  intros (R & N & W) [->|Hin].
  - rewrite R. discriminate.
  - destruct (py_eq k0 k); [discriminate|auto].
Qed.

End Dict.

(** ** One statement of the loop body *)

Lemma as_float_num (v : value) (x : float) : as_float v = Ok x -> x = num v.
Proof.
  destruct v; simpl; try discriminate.
  - congruence.
  - unfold float_of_int. destruct (F64.is_inf (F64.of_Z z)); congruence.
Qed.

Lemma py_mul_prod (a b v : value) (x : float) :
  py_mul a b = Ok v -> as_float v = Ok x -> x = prod a b.
Proof.
  destruct a, b; simpl; try discriminate.
  - intros H; inversion H; subst. simpl. congruence.
  - unfold float_of_int. destruct (F64.is_inf (F64.of_Z z)); simpl; try discriminate.
    intros H; inversion H; subst. simpl. congruence.
  - unfold float_of_int. destruct (F64.is_inf (F64.of_Z z)); simpl; try discriminate.
    intros H; inversion H; subst. simpl. congruence.
  - intros H; inversion H; subst. apply as_float_num.
Qed.

Lemma acc_eqb_eq (a b : acc_name) : acc_eqb a b = true -> a = b.
Proof. destruct a, b; simpl; congruence. Qed.

Lemma get_set_acc (a b : acc_name) (d : dict float) (st : accumulators) :
  get_acc a (set_acc b d st) = if acc_eqb b a then d else get_acc a st.
Proof. destruct st, a, b; reflexivity. Qed.

Lemma workouts_set_acc (b : acc_name) (d : dict float) (st : accumulators) :
  total_workouts (set_acc b d st) = total_workouts st.
Proof. destruct st, b; reflexivity. Qed.

Lemma get_count_workout (a : acc_name) (key : value) (st : accumulators) :
  get_acc a (count_workout key st) = get_acc a st.
Proof. destruct st, a; reflexivity. Qed.

Lemma workouts_count_workout (key : value) (st : accumulators) :
  total_workouts (count_workout key st) =
    dict_set (total_workouts st) key (dd_get 0 (total_workouts st) key + 1).
Proof. destruct st; reflexivity. Qed.

Lemma bump_adds (a : acc_name) (key v : value) (st st' : accumulators) :
  bump a key v st = Ok st' ->
  adds key (fun a' => if acc_eqb a a' then Some (num v) else None) st st'.
Proof.
  unfold bump, py_add. destruct (as_float v) as [x|] eqn:Hx; simpl; [|discriminate].
  intros H; inversion H; subst; clear H. split; [|split].
  - apply workouts_set_acc.
  - intros a' k. rewrite get_set_acc.
    destruct (acc_eqb a a') eqn:E.
    + apply acc_eqb_eq in E. subst a'. rewrite dict_get_set.
      destruct (py_eq key k) eqn:Ek; [|reflexivity].
      simpl. unfold dd_get. rewrite (dict_get_cong _ _ _ Ek).
      rewrite (as_float_num _ _ Hx). reflexivity.
    + destruct (py_eq key k); reflexivity.
  - intros Hk a'. rewrite get_set_acc.
    destruct (acc_eqb a a') eqn:E; [|auto].
    apply acc_eqb_eq in E. subst a'. now apply dict_wf_set.
Qed.

Lemma adds_refl (key : value) (st : accumulators) :
  adds key (fun _ => None) st st.
Proof.
  split; [reflexivity|]. split; [|auto].
  intros a k. destruct (py_eq key k); reflexivity.
Qed.

Lemma adds_seq (key : value) (F G : acc_name -> option float)
    (st st1 st2 : accumulators) :
  adds key F st st1 -> adds key G st1 st2 ->
  (forall a, F a = None \/ G a = None) ->
  adds key (fun a => match F a with Some x => Some x | None => G a end) st st2.
Proof.
  intros (W1 & H1 & K1) (W2 & H2 & K2) Hd.
  split; [congruence|]. split; [|auto].
  intros a k. rewrite H2, H1.
  destruct (py_eq key k); [|reflexivity].
  destruct (Hd a) as [E|E]; rewrite E; simpl.
  - destruct (G a); reflexivity.
  - destruct (F a); reflexivity.
Qed.

Lemma adds_ext (key : value) (F G : acc_name -> option float)
    (st st' : accumulators) :
  (forall a, F a = G a) -> adds key F st st' -> adds key G st st'.
Proof.
  intros E (W & H & K). split; [exact W|]. split; [|exact K].
  intros a k. rewrite H, E. reflexivity.
Qed.

Lemma series_get_cell (row : Series) (name : string) (v : value) :
  series_get row name = Ok v -> cell row name = v.
Proof. unfold cell. now intros ->. Qed.

Lemma add_metric_adds (weighted : bool) (a am : acc_name) (col : string)
    (key length : value) (row : Series) (st st' : accumulators) :
  acc_eqb a am = false ->
  add_metric weighted a am col key length row st = Ok st' ->
  adds key (metric_adds weighted a am col length row) st st'.
Proof.
  intros Hne. unfold add_metric, metric_adds.
  destruct (series_get row col) as [m|] eqn:Hm; simpl; [|discriminate].
  rewrite (series_get_cell _ _ _ Hm).
  destruct (isna m) eqn:Hna.
  - intros H; inversion H; subst. apply adds_refl.
  - destruct (if weighted then py_mul length m else Ok m) as [x|] eqn:Hx;
      simpl; [|discriminate].
    destruct (bump a key x st) as [st1|] eqn:B1; simpl; [|discriminate].
    intros B2.
    pose proof (adds_seq _ _ _ _ _ _ (bump_adds _ _ _ _ _ B1) (bump_adds _ _ _ _ _ B2)) as HH.
    eapply adds_ext; [|apply HH].
    + intros a'. cbv beta. destruct (acc_eqb a a') eqn:E; [|reflexivity].
      f_equal. destruct weighted.
      * unfold bump, py_add in B1.
        destruct (as_float x) as [y|] eqn:Hy; simpl in B1; [|discriminate].
        rewrite <- (as_float_num _ _ Hy). eapply py_mul_prod; eauto.
      * congruence.
    + intros a'. cbv beta. destruct (acc_eqb a a') eqn:E; [|now left].
      right. apply acc_eqb_eq in E. subst a'.
      destruct (acc_eqb am a) eqn:E2; [|reflexivity].
      apply acc_eqb_eq in E2. subst am. destruct a; discriminate.
Qed.

(** ** One row *)

Lemma accumulate_row_skipped (group_by : option string) (row : Series)
    (st : accumulators) :
  row_key group_by row = Ok None -> accumulate_row group_by row st = Ok st.
Proof. unfold accumulate_row. now intros ->. Qed.

Tactic Notation "bind_ok" hyp(H) ident(x) ident(E) :=
  match type of H with
  | bind ?m _ = Ok _ =>
      destruct m as [x|] eqn:E; simpl in H; [|discriminate H]
  end.

Lemma row_key_refl (group_by : option string) (row : Series) (key : value) :
  row_key group_by row = Ok (Some key) -> py_eq key key = true.
Proof.
  unfold row_key. destruct (truthy group_by).
  - destruct (series_get row s) as [v|]; simpl; [|discriminate].
    destruct (isna v) eqn:E; intros H; inversion H; subst.
    now apply py_eq_refl.
  - intros H; inversion H; subst. reflexivity.
Qed.

Lemma accumulate_row_keyed (group_by : option string) (row : Series)
    (st st' : accumulators) (key : value) :
  row_key group_by row = Ok (Some key) ->
  accumulate_row group_by row st = Ok st' ->
  total_workouts st' =
    dict_set (total_workouts st) key (dd_get 0 (total_workouts st) key + 1) /\
  (forall a k,
    dict_get (get_acc a st') k =
      if py_eq key k then upd (contrib a row) (dict_get (get_acc a st) k)
      else dict_get (get_acc a st) k) /\
  (state_wf st -> state_wf st').
Proof.
  intros Hkey H. pose proof (row_key_refl _ _ _ Hkey) as Hrefl.
  unfold accumulate_row in H. rewrite Hkey in H. simpl in H.
  bind_ok H distance Hd. bind_ok H st1 H1. bind_ok H len Hl.
  assert (A1 : adds key (fun a => if acc_eqb Distance a
                                  then contrib Distance row else None)
                 (count_workout key st) st1).
  { unfold contrib, qualifies, present, amount.
    rewrite (series_get_cell _ _ _ Hd).
    destruct (isna distance).
    - inversion H1; subst. eapply adds_ext; [|apply adds_refl].
      intros a. destruct a; reflexivity.
    - eapply adds_ext; [|apply (bump_adds _ _ _ _ _ H1)].
      intros a. destruct a; reflexivity. }
  pose proof (series_get_cell _ _ _ Hl) as Cl.
  assert (Hwf : forall stf, total_workouts stf = total_workouts (count_workout key st) ->
            (forall a, dict_wf (get_acc a (count_workout key st)) -> dict_wf (get_acc a stf)) ->
            state_wf st -> state_wf stf).
  { intros stf W K [Ww Wa]. split.
    - rewrite W, workouts_count_workout. now apply dict_wf_set.
    - intros a. apply K. rewrite get_count_workout. apply Wa. }
  destruct (isna len) eqn:Nl.
  - inversion H; subst st'. destruct A1 as (W1 & G1 & K1). split; [|split].
    + rewrite W1. apply workouts_count_workout.
    + intros a k. rewrite G1, get_count_workout.
      destruct (py_eq key k); [|reflexivity]. f_equal.
      unfold contrib, qualifies, present. rewrite Cl, Nl.
      destruct a; reflexivity.
    + apply Hwf; auto.
  - bind_ok H st2 H2. bind_ok H st3 H3. bind_ok H st4 H4.
    bind_ok H st5 H5. bind_ok H st6 H6.
    apply bump_adds in H2.
    apply add_metric_adds in H3; [|reflexivity].
    apply add_metric_adds in H4; [|reflexivity].
    apply add_metric_adds in H5; [|reflexivity].
    apply add_metric_adds in H6; [|reflexivity].
    apply add_metric_adds in H; [|reflexivity].
    destruct A1 as (W1 & G1 & K1), H2 as (W2 & G2 & K2), H3 as (W3 & G3 & K3),
      H4 as (W4 & G4 & K4), H5 as (W5 & G5 & K5), H6 as (W6 & G6 & K6),
      H as (W7 & G7 & K7).
    split; [|split].
    + rewrite W7, W6, W5, W4, W3, W2, W1. apply workouts_count_workout.
    + intros a k. rewrite G7, G6, G5, G4, G3, G2, G1, get_count_workout.
      destruct (py_eq key k); [|reflexivity].
      unfold contrib, qualifies, present, metric_adds, amount, length_of.
      destruct a; cbn [metric_column acc_eqb];
        rewrite ?Cl, ?Nl;
        repeat match goal with
        | |- context [isna (cell row ?c)] => destruct (isna (cell row c))
        end; reflexivity.
    + apply Hwf; [congruence|]. intros a Ha.
      apply K7, K6, K5, K4, K3, K2, K1; auto.
Qed.

(** ** The whole loop: every accumulator entry is a sum over the group *)

Lemma accumulate_fold (group_by : option string) (rows : list Series) :
  forall st st', accumulate group_by rows st = Ok st' ->
  forall k,
    dict_get (total_workouts st') k =
      fold_left (step_count group_by k) rows (dict_get (total_workouts st) k)
    /\ forall a,
      dict_get (get_acc a st') k =
        fold_left (step_entry group_by k a) rows (dict_get (get_acc a st) k).
Proof.
  induction rows as [|row rows IH]; cbn [accumulate fold_left]; intros st st' H k.
  - inversion H; subst. auto.
  - bind_ok H st1 H1.
    destruct (IH _ _ H k) as [IW IG].
    assert (E1 : dict_get (total_workouts st1) k
                 = step_count group_by k (dict_get (total_workouts st) k) row
               /\ forall a, dict_get (get_acc a st1) k
                 = step_entry group_by k a (dict_get (get_acc a st) k) row).
    { unfold step_count, step_entry, in_group.
      destruct (row_key group_by row) as [[key|]|e] eqn:Hk.
      + destruct (accumulate_row_keyed _ _ _ _ _ Hk H1) as (W & G & _).
        split; [|exact (fun a => G a k)].
        rewrite W, dict_get_set. unfold dd_get.
        destruct (py_eq key k) eqn:E; [|reflexivity].
        now rewrite (dict_get_cong _ _ _ E).
      + rewrite (accumulate_row_skipped _ _ _ Hk) in H1.
        inversion H1; subst. auto.
      + unfold accumulate_row in H1. rewrite Hk in H1. discriminate. }
    destruct E1 as [EW EG]. split.
    + now rewrite IW, EW.
    + intros a. now rewrite IG, EG.
Qed.

Lemma fold_step_entry (group_by : option string) (k : value) (a : acc_name)
    (rows : list Series) :
  forall o,
    fold_left (step_entry group_by k a) rows o =
      match filter (qualifies a) (group group_by k rows) with
      | [] => o
      | q => Some (fold_left F64.add (map (amount a) q)
                     (match o with Some x => x | None => F64.zero end))
      end.
Proof.
  induction rows as [|row rows IH]; cbn [fold_left]; intros o; [reflexivity|].
  rewrite IH. unfold step_entry, group. cbn [filter].
  destruct (in_group group_by k row); cbn [filter]; [|reflexivity].
  unfold contrib. destruct (qualifies a row); simpl; [|reflexivity].
  destruct (filter (qualifies a) (filter (in_group group_by k) rows));
    reflexivity.
Qed.

Lemma fold_step_count (group_by : option string) (k : value)
    (rows : list Series) :
  forall o,
    fold_left (step_count group_by k) rows o =
      match group group_by k rows with
      | [] => o
      | g => Some (match o with Some n => n | None => 0 end
                   + Z.of_nat (List.length g))
      end.
Proof.
  induction rows as [|row rows IH]; cbn [fold_left]; intros o; [reflexivity|].
  rewrite IH. unfold step_count, group. cbn [filter].
  destruct (in_group group_by k row); cbn [filter]; [|reflexivity].
  destruct (filter (in_group group_by k) rows); simpl; f_equal; lia.
Qed.

Lemma get_empty (a : acc_name) : get_acc a empty_accumulators = [].
Proof. destruct a; reflexivity. Qed.

(** After the loop, at every label: the count of the group's records, and
    for each accumulator the sum over the group's qualifying records. *)
Lemma accumulate_entries (group_by : option string) (rows : list Series)
    (st : accumulators) :
  accumulate group_by rows empty_accumulators = Ok st ->
  forall k,
    dict_get (total_workouts st) k = count_entry (group group_by k rows)
    /\ forall a,
      dict_get (get_acc a st) k = entry a (group group_by k rows).
Proof.
  intros H k. destruct (accumulate_fold _ _ _ _ H k) as [W G]. split.
  - rewrite W, fold_step_count. simpl. unfold count_entry.
    destruct (group group_by k rows); reflexivity.
  - intros a. rewrite G, fold_step_entry, get_empty. reflexivity.
Qed.

(** ** The frame that is built from the accumulators *)

Lemma accumulate_wf (group_by : option string) (rows : list Series) :
  forall st st', accumulate group_by rows st = Ok st' ->
  state_wf st -> state_wf st'.
Proof.
  induction rows as [|row rows IH]; cbn [accumulate]; intros st st' H Hwf.
  - inversion H; subst; exact Hwf.
  - bind_ok H st1 H1. apply (IH _ _ H).
    destruct (row_key group_by row) as [[key|]|e] eqn:Hk.
    + now apply (accumulate_row_keyed _ _ _ _ _ Hk H1).
    + rewrite (accumulate_row_skipped _ _ _ Hk) in H1. now inversion H1; subst.
    + unfold accumulate_row in H1. rewrite Hk in H1. discriminate.
Qed.

Lemma empty_wf : state_wf empty_accumulators.
Proof. split; [exact I|]. intros a. rewrite get_empty. exact I. Qed.

Lemma union_index_absorb (acc new : list value) :
  (forall k, In k new -> has_label acc k = true) ->
  union_index acc new = acc.
Proof.
  unfold union_index. induction new as [|k new IH]; simpl; intros H.
  - reflexivity.
  - rewrite (H k (or_introl eq_refl)). apply IH. auto.
Qed.

Lemma entry_some_group (a : acc_name) (rows : list Series) :
  entry a rows <> None -> rows <> [].
Proof. intros H ->. apply H. reflexivity. Qed.

(** Every label of a float accumulator is a label of [total_workouts],
    so the index of the frame is the key list of [total_workouts]. *)
Lemma index_workouts (group_by : option string) (rows : list Series)
    (st : accumulators) :
  accumulate group_by rows empty_accumulators = Ok st ->
  index st = keys (total_workouts st).
Proof.
  intros H.
  pose proof (accumulate_wf _ _ _ _ H empty_wf) as [Ww Wa].
  assert (A : forall a k, In k (keys (get_acc a st)) ->
                has_label (keys (total_workouts st)) k = true).
  { intros a k Hin. rewrite dict_get_has_label.
    destruct (accumulate_entries _ _ _ H k) as [W G].
    pose proof (dict_get_in _ _ (Wa a) Hin) as Hne.
    rewrite G in Hne. apply entry_some_group in Hne.
    rewrite W. destruct (group group_by k rows); [congruence|reflexivity]. }
  unfold index. cbn [fold_left].
  rewrite (union_index_absorb _ (keys (total_time st)) (A Time)).
  rewrite (union_index_absorb _ (keys (total_distance st)) (A Distance)).
  rewrite (union_index_absorb _ (keys (total_output st)) (A Output)).
  rewrite (union_index_absorb _ (keys (total_calories st)) (A Calories)).
  rewrite (union_index_absorb _ (keys (total_output st)) (A Output)).
  rewrite (union_index_absorb _ (keys (total_output_minutes st)) (A OutputMinutes)).
  rewrite (union_index_absorb _ (keys (total_calories st)) (A Calories)).
  rewrite (union_index_absorb _ (keys (total_calories_minutes st)) (A CaloriesMinutes)).
  rewrite (union_index_absorb _ (keys (total_hr st)) (A Hr)).
  rewrite (union_index_absorb _ (keys (total_hr_minutes st)) (A HrMinutes)).
  rewrite (union_index_absorb _ (keys (total_speed st)) (A Speed)).
  rewrite (union_index_absorb _ (keys (total_speed_minutes st)) (A SpeedMinutes)).
  rewrite (union_index_absorb _ (keys (total_cadence st)) (A Cadence)).
  rewrite (union_index_absorb _ (keys (total_cadence_minutes st)) (A CadenceMinutes)).
  reflexivity.
Qed.

(** What [Aggregation] returns, in terms of the loop's final state. *)
Lemma Aggregation_inv (df : DataFrame) (group_by : option string)
    (r : AggregatedDF) :
  Aggregation df group_by = Ok r ->
  exists st,
    accumulate group_by (iterrows df) empty_accumulators = Ok st
    /\ state_wf st
    /\ r = map (fun k => (k, summary st k)) (keys (total_workouts st)).
Proof.
  unfold Aggregation, aggregate. intros H. bind_ok H st Hst. inversion H; subst.
  exists st. split; [reflexivity|]. split.
  - exact (accumulate_wf _ _ _ _ Hst empty_wf).
  - unfold aggregated_df. now rewrite (index_workouts _ _ _ Hst).
Qed.

Lemma in_result (st : accumulators) (k : value) (g : GroupSummary) :
  In (k, g) (map (fun k => (k, summary st k)) (keys (total_workouts st))) ->
  In k (keys (total_workouts st)) /\ g = summary st k.
Proof.
  rewrite in_map_iff. intros (k' & E & Hin). inversion E; subst. auto.
Qed.

(** A ratio column at a label: the quotient of the two sums over the
    records of the group that qualify (NaN, as 0.0/0.0, when none does). *)
Lemma series_div_entry (a am : acc_name) (rows : list Series)
    (da dm : dict float) (k : value) :
  (forall row, qualifies am row = qualifies a row) ->
  dict_get da k = entry a rows ->
  dict_get dm k = entry am rows ->
  series_div da dm k =
    F64.div (F64.sum (map (amount a) (filter (qualifies a) rows)))
            (F64.sum (map (amount am) (filter (qualifies a) rows))).
Proof.
  intros Hq Ha Hm. unfold series_div. rewrite Ha, Hm. unfold entry.
  rewrite (filter_ext _ _ Hq).
  destruct (filter (qualifies a) rows); reflexivity.
Qed.

(** ** Well-formed tables are aggregated without error *)

Lemma series_get_row (cols : list (string * list value)) (i : nat)
    (name : string) :
  series_get (map (fun c => (fst c, nth i (snd c) VNaT)) cols) name =
    (c <- column_get cols name ;; Ok (nth i c VNaT)).
Proof.
  induction cols as [|[c col] cols IH]; simpl; [reflexivity|].
  destruct (String.eqb c name); [reflexivity|exact IH].
Qed.

Lemma column_get_error (cols : list (string * list value)) (name : string)
    (e : exn) :
  column_get cols name = Raise e -> e = KeyError name.
Proof.
  induction cols as [|[c col] cols IH]; simpl.
  - congruence.
  - destruct (String.eqb c name); [discriminate|exact IH].
Qed.

Lemma iterrows_in (df : DataFrame) (row : Series) :
  In row (iterrows df) ->
  exists i, row = map (fun c => (fst c, nth i (snd c) VNaT)) (columns df).
Proof.
  unfold iterrows. rewrite in_map_iff. intros (i & <- & _). now exists i.
Qed.

Lemma row_ok_iterrows (df : DataFrame) (group_by : option string) :
  metrics_ok df -> group_field_ok df group_by ->
  forall row, In row (iterrows df) -> row_ok group_by row.
Proof.
  intros Hm Hg row Hin. destruct (iterrows_in _ _ Hin) as [i ->]. split.
  - intros col Hc. destruct (Hm col Hc) as (c & Hget & Hall).
    rewrite series_get_row. unfold df_get in Hget. rewrite Hget. simpl.
    eexists. split; [reflexivity|].
    destruct (nth_in_or_default i c VNaT) as [Hi| ->]; [auto|reflexivity].
  - intros g Hg'. destruct (Hg g Hg') as (c & Hget).
    rewrite series_get_row. unfold df_get in Hget. rewrite Hget. simpl. eauto.
Qed.

Lemma present_float (v : value) :
  float_or_missing v = true -> isna v = false -> exists f, v = VFloat f.
Proof. destruct v; simpl; try discriminate; eauto. Qed.

Lemma bump_ok (a : acc_name) (key : value) (f : float) (st : accumulators) :
  exists st', bump a key (VFloat f) st = Ok st'.
Proof. unfold bump, py_add. simpl. eauto. Qed.

Lemma add_metric_ok (w : bool) (a am : acc_name) (col : string)
    (key : value) (len : float) (row : Series) (st : accumulators) :
  (exists v, series_get row col = Ok v /\ float_or_missing v = true) ->
  exists st', add_metric w a am col key (VFloat len) row st = Ok st'.
Proof.
  intros (m & Hm & Fm). unfold add_metric. rewrite Hm. cbn [bind].
  destruct (isna m) eqn:Nm; [eauto|].
  destruct (present_float _ Fm Nm) as [x ->].
  assert (exists y, (if w then py_mul (VFloat len) (VFloat x)
                     else Ok (VFloat x)) = Ok (VFloat y)) as (y & ->).
  { destruct w; simpl; eauto. }
  cbn [bind]. destruct (bump_ok a key y st) as (st1 & ->). cbn [bind].
  apply bump_ok.
Qed.

Lemma accumulate_row_ok (group_by : option string) (row : Series)
    (st : accumulators) :
  row_ok group_by row -> exists st', accumulate_row group_by row st = Ok st'.
Proof.
  intros [Hm Hg]. unfold accumulate_row.
  assert (exists k, row_key group_by row = Ok k) as (k & ->).
  { unfold row_key. destruct (truthy group_by) as [g|] eqn:T; [|eauto].
    destruct (Hg g eq_refl) as (v & ->). simpl. eauto. }
  cbn [bind]. destruct k as [key|]; [|eauto].
  assert (D : In "Distance (mi)" metric_names) by (simpl; tauto).
  assert (L : In "Length (minutes)" metric_names) by (simpl; tauto).
  destruct (Hm _ D) as (d & -> & Fd). destruct (Hm _ L) as (l & Hl & Fl).
  cbn [bind].
  assert (exists st1,
            (if isna d then Ok (count_workout key st)
             else bump Distance key d (count_workout key st)) = Ok st1)
    as (st1 & ->).
  { destruct (isna d) eqn:Nd; [eauto|].
    destruct (present_float _ Fd Nd) as [x ->]. apply bump_ok. }
  cbn [bind]. rewrite Hl. cbn [bind].
  destruct (isna l) eqn:Nl; [eauto|].
  destruct (present_float _ Fl Nl) as [len ->].
  destruct (bump_ok Time key len st1) as (st2 & ->). cbn [bind].
  destruct (add_metric_ok false Output OutputMinutes "Total Output"
              key len row st2) as (st3 & ->); [apply Hm; simpl; tauto|].
  cbn [bind].
  destruct (add_metric_ok false Calories CaloriesMinutes "Calories Burned"
              key len row st3) as (st4 & ->); [apply Hm; simpl; tauto|].
  cbn [bind].
  destruct (add_metric_ok true Hr HrMinutes "Avg. Heartrate"
              key len row st4) as (st5 & ->); [apply Hm; simpl; tauto|].
  cbn [bind].
  destruct (add_metric_ok true Speed SpeedMinutes "Avg. Speed (mph)"
              key len row st5) as (st6 & ->); [apply Hm; simpl; tauto|].
  cbn [bind].
  apply add_metric_ok. apply Hm. simpl. tauto.
Qed.

Lemma accumulate_ok (group_by : option string) (rows : list Series) :
  (forall row, In row rows -> row_ok group_by row) ->
  forall st, exists st', accumulate group_by rows st = Ok st'.
Proof.
  induction rows as [|row rows IH]; cbn [accumulate]; intros H st; [eauto|].
  destruct (accumulate_row_ok group_by row st) as (st1 & ->).
  - apply H. now left.
  - cbn [bind]. apply IH. intros r Hr. apply H. now right.
Qed.

Lemma Aggregation_returns (df : DataFrame) (group_by : option string) :
  metrics_ok df -> group_field_ok df group_by ->
  exists r, Aggregation df group_by = Ok r.
Proof.
  intros Hm Hg. unfold Aggregation, aggregate.
  destruct (accumulate_ok group_by (iterrows df)
              (row_ok_iterrows _ _ Hm Hg) empty_accumulators) as (st & ->).
  simpl. eauto.
Qed.

(** * The claims of the specification *)

(** ** Per-minute ratios *)

(** C1. For every group produced by the aggregation, Calories per Minute
    is the sum of the calories over the group's records that have both
    calories and length, divided by the sum of the lengths over the same
    records, and Output per Minute is the same ratio for the total output.
    For the three workouts with lengths 30, 60, missing and calories 300,
    900, 500 the all-time summary has 3 workouts, 90 minutes, 1200
    calories and 1200/90 calories per minute. *)
Theorem C1_per_minute_ratios (df : DataFrame) (group_by : option string) :
  (metrics_ok df -> group_field_ok df group_by ->
     exists r, Aggregation df group_by = Ok r)
  /\ (forall r k g,
        Aggregation df group_by = Ok r ->
        In (k, g) r ->
        let G := group group_by k (iterrows df) in
        let Qc := filter (both_present "Calories Burned") G in
        let Qo := filter (both_present "Total Output") G in
        Calories_per_Minute g =
          F64.div (F64.sum (map (metric "Calories Burned") Qc))
                  (F64.sum (map (metric "Length (minutes)") Qc))
        /\ Output_per_Minute g =
          F64.div (F64.sum (map (metric "Total Output") Qo))
                  (F64.sum (map (metric "Length (minutes)") Qo)))
  /\ (Aggregation Examples.three_workouts None =
        Ok [(VStr "All Time", Examples.three_summary)]
      /\ Total_Workouts Examples.three_summary = Some 3
      /\ Total_Minutes Examples.three_summary = F64.of_Z 90
      /\ Total_Calories Examples.three_summary = F64.of_Z 1200
      /\ Calories_per_Minute Examples.three_summary =
           F64.div (F64.of_Z 1200) (F64.of_Z 90)).
Proof.
  split; [apply Aggregation_returns|]. split.
  - intros r k g H Hin G Qc Qo.
    destruct (Aggregation_inv _ _ _ H) as (st & Hst & _ & ->).
    apply in_result in Hin. destruct Hin as [_ ->].
    destruct (accumulate_entries _ _ _ Hst k) as [_ E].
    split.
    + exact (series_div_entry Calories CaloriesMinutes G _ _ k
               (fun _ => eq_refl) (E Calories) (E CaloriesMinutes)).
    + exact (series_div_entry Output OutputMinutes G _ _ k
               (fun _ => eq_refl) (E Output) (E OutputMinutes)).
  - split; [vm_compute; reflexivity | repeat split].
Qed.

Lemma C1_witness :
  Calories_per_Minute Examples.three_summary =
    F64.div
      (F64.sum (map (metric "Calories Burned")
         (filter (both_present "Calories Burned")
            (group None (VStr "All Time") (iterrows Examples.three_workouts)))))
      (F64.sum (map (metric "Length (minutes)")
         (filter (both_present "Calories Burned")
            (group None (VStr "All Time") (iterrows Examples.three_workouts))))).
Proof.
  exact (proj1 (proj1 (proj2
    (C1_per_minute_ratios Examples.three_workouts None))
       [(VStr "All Time", Examples.three_summary)]
       (VStr "All Time") Examples.three_summary
       ltac:(vm_compute; reflexivity) (or_introl eq_refl))).
Defined.

(** ** Counting workouts *)

Lemma filter_true {A} (f : A -> bool) (l : list A) :
  (forall x, In x l -> f x = true) -> filter f l = l.
Proof.
  induction l as [|x l IH]; simpl; intros H; [reflexivity|].
  rewrite (H x (or_introl eq_refl)), IH; auto.
Qed.

Lemma dict_total_incr (d : dict Z) (key : value) :
  dict_total (dict_set d key (dd_get 0 d key + 1)) = dict_total d + 1.
Proof.
  induction d as [|[k0 v0] d IH]; simpl; [reflexivity|].
  unfold dd_get. simpl. destruct (py_eq k0 key); simpl.
  - lia.
  - unfold dd_get in IH. rewrite IH. lia.
Qed.

Lemma accumulate_total (group_by : option string) (rows : list Series) :
  forall st st', accumulate group_by rows st = Ok st' ->
  dict_total (total_workouts st') =
    dict_total (total_workouts st)
    + Z.of_nat (List.length (filter (keyed group_by) rows)).
Proof.
  induction rows as [|row rows IH]; cbn [accumulate filter]; intros st st' H.
  - inversion H; subst. simpl. lia.
  - bind_ok H st1 H1. rewrite (IH _ _ H). unfold keyed at 2.
    destruct (row_key group_by row) as [[key|]|e] eqn:Hk.
    + destruct (accumulate_row_keyed _ _ _ _ _ Hk H1) as (W & _ & _).
      rewrite W, dict_total_incr. cbn [List.length]. lia.
    + rewrite (accumulate_row_skipped _ _ _ Hk) in H1.
      inversion H1; subst. reflexivity.
    + unfold accumulate_row in H1. rewrite Hk in H1. discriminate.
Qed.

Lemma dict_get_fresh {V} (k0 : value) (v0 : V) (d : dict V) (l : list value) :
  has_label l k0 = false ->
  map (dict_get ((k0, v0) :: d)) l = map (dict_get d) l.
Proof.
  induction l as [|k l IH]; cbn [map]; [reflexivity|].
  unfold has_label. cbn [existsb].
  intros H. apply orb_false_iff in H. destruct H as [H1 H2].
  rewrite (IH H2). f_equal. cbn [dict_get].
  destruct (py_eq k0 k) eqn:E; [|reflexivity].
  now rewrite (py_eq_sym _ _ E) in H1.
Qed.

Lemma sum_over_keys (d : dict Z) :
  dict_wf d ->
  fold_right (fun o s => match o with Some n => n + s | None => s end) 0
    (map (dict_get d) (keys d)) = dict_total d.
Proof.
  induction d as [|[k0 v0] d IH]; [reflexivity|].
  intros (R & N & W).
  cbn [keys map fst fold_right dict_total snd]. fold (keys d).
  rewrite (dict_get_fresh _ _ _ _ N), (IH W).
  cbn [dict_get]. rewrite R. reflexivity.
Qed.

Lemma sum_workouts_frame (st : accumulators) (l : list value) :
  sum_workouts (map (fun k => (k, summary st k)) l) =
    fold_right (fun o s => match o with Some n => n + s | None => s end) 0
      (map (dict_get (total_workouts st)) l).
Proof.
  induction l as [|k l IH]; [reflexivity|].
  unfold sum_workouts in *. cbn [map fold_right snd].
  rewrite IH. reflexivity.
Qed.

(** Rows whose group key is absent leave the accumulators alone. *)
Lemma accumulate_skips (group_by : option string) (rows : list Series) :
  forall st,
    accumulate group_by rows st =
      accumulate group_by
        (filter (fun row => negb (absent_key group_by row)) rows) st.
Proof.
  induction rows as [|row rows IH]; cbn [accumulate filter]; intros st.
  - reflexivity.
  - unfold absent_key at 1.
    destruct (row_key group_by row) as [[key|]|e] eqn:Hk; cbn [negb accumulate].
    + destruct (accumulate_row group_by row st); simpl; auto.
    + rewrite (accumulate_row_skipped _ _ _ Hk). simpl. apply IH.
    + destruct (accumulate_row group_by row st); simpl; auto.
Qed.

(** Every stored label is the key of one of the rows. *)
Lemma keys_from_rows (group_by : option string) (rows : list Series) :
  forall st st', accumulate group_by rows st = Ok st' ->
  forall k, In k (keys (total_workouts st')) ->
    In k (keys (total_workouts st))
    \/ exists row, In row rows /\ row_key group_by row = Ok (Some k).
Proof.
  induction rows as [|row rows IH]; cbn [accumulate]; intros st st' H k Hin.
  - inversion H; subst. auto.
  - bind_ok H st1 H1. destruct (IH _ _ H k Hin) as [Hin1|(r' & Hr & Hk')].
    + destruct (row_key group_by row) as [[key|]|e] eqn:Hk.
      * destruct (accumulate_row_keyed _ _ _ _ _ Hk H1) as (W & _ & _).
        rewrite W, keys_dict_set in Hin1.
        destruct (has_label (keys (total_workouts st)) key); [auto|].
        apply in_app_or in Hin1. destruct Hin1 as [?|[<-|[]]]; [auto|].
        right. exists row. split; [now left|exact Hk].
      * rewrite (accumulate_row_skipped _ _ _ Hk) in H1.
        inversion H1; subst. auto.
      * unfold accumulate_row in H1. rewrite Hk in H1. discriminate.
    + right. exists r'. split; [now right|exact Hk'].
Qed.

Lemma wf_single_key {V} (d : dict V) (k0 : value) :
  dict_wf d -> (forall k, In k (keys d) -> k = k0) ->
  d = [] \/ exists v, d = [(k0, v)].
Proof.
  destruct d as [|[k v] [|[k' v'] d]]; simpl; intros Hwf Hk.
  - now left.
  - right. exists v. now rewrite (Hk k (or_introl eq_refl)).
  - exfalso. destruct Hwf as (R & N & _).
    rewrite (Hk k (or_introl eq_refl)) in R, N.
    rewrite (Hk k' (or_intror (or_introl eq_refl))) in N.
    rewrite R in N. discriminate.
Qed.

Lemma iterrows_length (df : DataFrame) :
  List.length (iterrows df) = nrows df.
Proof. unfold iterrows. now rewrite length_map, length_seq. Qed.

Lemma sum_workouts_count (df : DataFrame) (group_by : option string)
    (r : AggregatedDF) :
  Aggregation df group_by = Ok r ->
  sum_workouts r =
    Z.of_nat (List.length (filter (keyed group_by) (iterrows df))).
Proof.
  intros H. destruct (Aggregation_inv _ _ _ H) as (st & Hst & [Ww _] & ->).
  rewrite sum_workouts_frame, (sum_over_keys _ Ww).
  rewrite (accumulate_total _ _ _ _ Hst). reflexivity.
Qed.

Lemma all_time_frame (df : DataFrame) (r : AggregatedDF) :
  Aggregation df None = Ok r ->
  nrows df <> O ->
  exists g,
    r = [(VStr "All Time", g)]
    /\ Total_Workouts g = Some (Z.of_nat (nrows df)).
Proof.
  intros H Hn. destruct (Aggregation_inv _ _ _ H) as (st & Hst & [Ww _] & ->).
  destruct (accumulate_entries _ _ _ Hst (VStr "All Time")) as [W _].
  assert (G : group None (VStr "All Time") (iterrows df) = iterrows df).
  { apply filter_true. intros row _. reflexivity. }
  rewrite G in W. unfold count_entry in W. rewrite iterrows_length in W.
  assert (K : forall k, In k (keys (total_workouts st)) -> k = VStr "All Time").
  { intros k Hin.
    destruct (keys_from_rows _ _ _ _ Hst k Hin) as [[]|(row & _ & Hk)].
    unfold row_key in Hk. simpl in Hk. now inversion Hk. }
  destruct (wf_single_key _ _ Ww K) as [E|[n E]].
  - rewrite E in W. simpl in W.
    destruct (iterrows df) eqn:Ei; [|discriminate].
    apply (f_equal (@List.length Series)) in Ei.
    rewrite iterrows_length in Ei. simpl in Ei. contradiction.
  - exists (summary st (VStr "All Time")). split; [now rewrite E|].
    unfold summary. cbn [Total_Workouts]. rewrite W.
    destruct (iterrows df) eqn:Ei; [|reflexivity].
    apply (f_equal (@List.length Series)) in Ei.
    rewrite iterrows_length in Ei. simpl in Ei. contradiction.
Qed.

(** C2. The total_workouts of the groups add up to the number of records
    whose grouping field is present; a record whose grouping field is
    absent belongs to no group, and the aggregation is the one of the table
    without such records; with no grouping field every record is keyed and
    counted under the single group "All Time". *)
Theorem C2_workout_counts (df : DataFrame) (group_by : option string) :
  (metrics_ok df -> group_field_ok df group_by ->
     exists r, Aggregation df group_by = Ok r)
  /\ forall r,
    Aggregation df group_by = Ok r ->
    sum_workouts r =
      Z.of_nat (List.length (filter (keyed group_by) (iterrows df)))
    /\ (forall row k, absent_key group_by row = true ->
          in_group group_by k row = false)
    /\ aggregate group_by
         (filter (fun row => negb (absent_key group_by row)) (iterrows df))
       = Ok r
    /\ (group_by = None ->
        sum_workouts r = Z.of_nat (nrows df)
        /\ (nrows df <> O ->
            exists g, r = [(VStr "All Time", g)]
                      /\ Total_Workouts g = Some (Z.of_nat (nrows df)))).
Proof.
  split; [apply Aggregation_returns|].
  intros r H. split; [|split; [|split]].
  - now apply sum_workouts_count.
  - intros row k. unfold absent_key, in_group.
    destruct (row_key group_by row) as [[key|]|e]; congruence.
  - unfold aggregate. rewrite <- accumulate_skips. exact H.
  - intros ->. split.
    + rewrite (sum_workouts_count _ _ _ H), filter_true, iterrows_length;
        [reflexivity|]. intros row _. reflexivity.
    + now apply all_time_frame.
Qed.

Lemma C2_witness :
  sum_workouts [(VStr "All Time", Examples.three_summary)] =
    Z.of_nat (List.length (filter (keyed None) (iterrows Examples.three_workouts))).
Proof.
  exact (proj1 (proj2 (C2_workout_counts Examples.three_workouts None)
    [(VStr "All Time", Examples.three_summary)]
    ltac:(vm_compute; reflexivity))).
Defined.

(** ** Groups exist only for records *)

Lemma keys_frame {V} (f : value -> V) (l : list value) :
  keys (map (fun k => (k, f k)) l) = l.
Proof.
  unfold keys. rewrite map_map. simpl. apply map_id.
Qed.

Lemma group_nonempty (group_by : option string) (k : value)
    (rows : list Series) :
  group group_by k rows <> [] <->
  exists row, In row rows /\ in_group group_by k row = true.
Proof.
  unfold group. split.
  - destruct (filter (in_group group_by k) rows) as [|row l] eqn:E; [congruence|].
    intros _. exists row. apply filter_In. rewrite E. now left.
  - intros (row & Hin & Hg) E.
    assert (In row (filter (in_group group_by k) rows)) by (apply filter_In; auto).
    rewrite E in H. contradiction.
Qed.

Lemma loc_frame (group_by : option string) (rows : list Series)
    (st : accumulators) (k : value) :
  accumulate group_by rows empty_accumulators = Ok st ->
  loc (map (fun k => (k, summary st k)) (keys (total_workouts st))) k <> None
  <-> group group_by k rows <> [].
Proof.
  intros Hst. destruct (accumulate_entries _ _ _ Hst k) as [W _].
  unfold loc.
  pose proof (dict_get_has_label
    (map (fun k => (k, summary st k)) (keys (total_workouts st))) k) as L1.
  rewrite keys_frame in L1.
  pose proof (dict_get_has_label (total_workouts st) k) as L2.
  rewrite L1 in L2. rewrite W in L2. unfold count_entry in L2.
  destruct (dict_get (map (fun k0 => (k0, summary st k0))
                        (keys (total_workouts st))) k);
    destruct (group group_by k rows); try discriminate; split; congruence.
Qed.

Lemma length_pos {A} (l : list A) : l <> [] -> 1 <= Z.of_nat (List.length l).
Proof. destruct l; [congruence|]. intros _. cbn [List.length]. lia. Qed.

(** C10. A label has a row in the result exactly when a record is keyed to
    it, and every emitted summary counts at least one workout (the records
    of its group); a table without rows, or in which every record's
    grouping field is absent, gives an empty result, the all-time
    aggregation of the empty table included. *)
Theorem C10_groups_have_records (df : DataFrame) (group_by : option string) :
  (metrics_ok df -> group_field_ok df group_by ->
     exists r, Aggregation df group_by = Ok r)
  /\ forall r,
    Aggregation df group_by = Ok r ->
    (forall k, loc r k <> None <->
       exists row, In row (iterrows df) /\ in_group group_by k row = true)
    /\ (forall k g, In (k, g) r ->
          Total_Workouts g =
            Some (Z.of_nat (List.length (group group_by k (iterrows df))))
          /\ 1 <= Z.of_nat (List.length (group group_by k (iterrows df))))
    /\ ((forall row, In row (iterrows df) -> keyed group_by row = false) ->
        r = [])
    /\ (nrows df = O -> r = [])
    /\ Aggregation Examples.no_workouts None = Ok [].
Proof.
  split; [apply Aggregation_returns|]. intros r H.
  destruct (Aggregation_inv _ _ _ H) as (st & Hst & [Ww _] & ->).
  assert (NoKey : (forall row, In row (iterrows df) -> keyed group_by row = false) ->
                  map (fun k => (k, summary st k)) (keys (total_workouts st)) = []).
  { intros Hno. destruct (keys (total_workouts st)) as [|k l] eqn:E; [reflexivity|].
    destruct (keys_from_rows _ _ _ _ Hst k) as [[]|(row & Hin & Hk)].
    - rewrite E. now left.
    - specialize (Hno row Hin). unfold keyed in Hno. rewrite Hk in Hno.
      discriminate. }
  split; [|split; [|split; [|split]]].
  - intros k. rewrite (loc_frame _ _ _ k Hst). apply group_nonempty.
  - intros k g Hin. apply in_result in Hin. destruct Hin as [Hin ->].
    destruct (accumulate_entries _ _ _ Hst k) as [W _].
    pose proof (dict_get_in _ _ Ww Hin) as Hne.
    unfold summary. cbn [Total_Workouts]. rewrite W in *.
    unfold count_entry in *.
    destruct (group group_by k (iterrows df)) as [|row l] eqn:E; [congruence|].
    split; [reflexivity|]. apply length_pos. congruence.
  - exact NoKey.
  - intros Hn. apply NoKey. intros row Hin.
    pose proof (iterrows_length df) as L. rewrite Hn in L.
    destruct (iterrows df); [contradiction|discriminate].
  - reflexivity.
Qed.

Lemma C10_witness :
  Total_Workouts Examples.three_summary =
    Some (Z.of_nat (List.length
      (group None (VStr "All Time") (iterrows Examples.three_workouts))))
  /\ 1 <= Z.of_nat (List.length
      (group None (VStr "All Time") (iterrows Examples.three_workouts))).
Proof.
  exact (proj1 (proj2 (proj2
    (C10_groups_have_records Examples.three_workouts None)
    [(VStr "All Time", Examples.three_summary)]
    ltac:(vm_compute; reflexivity)))
    (VStr "All Time") Examples.three_summary (or_introl eq_refl)).
Defined.

(** ** A record without length *)



(** ** Weighted averages *)

Lemma map_const {A B} (f : A -> B) (c : B) (l : list A) :
  (forall x, In x l -> f x = c) -> map f l = repeat c (List.length l).
Proof.
  induction l as [|x l IH]; simpl; intros H; [reflexivity|].
  rewrite (H x (or_introl eq_refl)), IH; auto.
Qed.

(** A group whose records all carry the same length and metric. *)
Lemma weighted_average_uniform (col : string) (G : list Series) (m v : value) :
  (forall row, In row G ->
     cell row "Length (minutes)" = m /\ cell row col = v) ->
  isna m = false -> isna v = false ->
  weighted_average col G =
    F64.div (F64.sum (repeat (prod m v) (List.length G)))
            (F64.sum (repeat (num m) (List.length G))).
Proof.
  intros H Hm Hv. unfold weighted_average.
  rewrite (filter_true (both_present col) G).
  - rewrite (map_const (weighted col) (prod m v)),
            (map_const (metric "Length (minutes)") (num m)); [reflexivity| |].
    + intros row Hin. unfold metric. now rewrite (proj1 (H row Hin)).
    + intros row Hin. unfold weighted, length_of.
      destruct (H row Hin) as [-> ->]. reflexivity.
  - intros row Hin. unfold both_present, present.
    destruct (H row Hin) as [-> ->]. now rewrite Hm, Hv.
Qed.

(** C4 as the specification states it does not hold: three rides of 45
    minutes at 17.1 mph average to 17.100000000000005, not to 17.1. *)
Lemma C4_counterexample :
  Aggregation Examples.uniform_rides None =
    Ok [(VStr "All Time", Examples.uniform_summary)]
  /\ map (fun row => (cell row "Length (minutes)", cell row "Avg. Speed (mph)"))
       (iterrows Examples.uniform_rides)
     = [ (VFloat Examples.f45, VFloat Examples.f17_1);
         (VFloat Examples.f45, VFloat Examples.f17_1);
         (VFloat Examples.f45, VFloat Examples.f17_1) ]
  /\ SFltb F64.zero Examples.f45 = true
  /\ Avg_Speed Examples.uniform_summary <> Examples.f17_1.
Proof.
  split; [vm_compute; reflexivity|]. split; [reflexivity|].
  split; [reflexivity|discriminate].
Qed.

(** C4 (amended). For every group the three averages are the running sum
    of length times metric over the records where both are present,
    divided by the running sum of the lengths of the same records.  In a
    group whose records all have the same length m and the same metric
    value v the average is the binary64 quotient of the n-fold running sum
    of m*v by the n-fold running sum of m: it is v for two rides of 30
    minutes at heart rate 150, and a neighbour of v in other cases. *)
Theorem C4_weighted_averages (df : DataFrame) (group_by : option string) :
  (metrics_ok df -> group_field_ok df group_by ->
     exists r, Aggregation df group_by = Ok r)
  /\ (forall r k g,
        Aggregation df group_by = Ok r ->
        In (k, g) r ->
        let G := group group_by k (iterrows df) in
        (Avg_Heartrate g = weighted_average "Avg. Heartrate" G
         /\ Avg_Speed g = weighted_average "Avg. Speed (mph)" G
         /\ Avg_Cadence g = weighted_average "Avg. Cadence (RPM)" G)
        /\ (forall col m v,
              (forall row, In row G ->
                 cell row "Length (minutes)" = m /\ cell row col = v) ->
              isna m = false -> isna v = false ->
              weighted_average col G =
                F64.div (F64.sum (repeat (prod m v) (List.length G)))
                        (F64.sum (repeat (num m) (List.length G)))))
  /\ (exists g2,
        Aggregation Examples.steady_rides None = Ok [(VStr "All Time", g2)]
        /\ Avg_Heartrate g2 = F64.of_Z 150).
Proof.
  split; [apply Aggregation_returns|]. split.
  - intros r k g H Hin G. split.
    + destruct (Aggregation_inv _ _ _ H) as (st & Hst & _ & ->).
      apply in_result in Hin. destruct Hin as [_ ->].
      destruct (accumulate_entries _ _ _ Hst k) as [_ E].
      split; [|split].
      * exact (series_div_entry Hr HrMinutes G _ _ k
                 (fun _ => eq_refl) (E Hr) (E HrMinutes)).
      * exact (series_div_entry Speed SpeedMinutes G _ _ k
                 (fun _ => eq_refl) (E Speed) (E SpeedMinutes)).
      * exact (series_div_entry Cadence CadenceMinutes G _ _ k
                 (fun _ => eq_refl) (E Cadence) (E CadenceMinutes)).
    + intros col m v. apply weighted_average_uniform.
  - eexists. split; vm_compute; reflexivity.
Qed.

Lemma C4_witness :
  Avg_Speed Examples.uniform_summary =
    weighted_average "Avg. Speed (mph)"
      (group None (VStr "All Time") (iterrows Examples.uniform_rides)).
Proof.
  exact (proj1 (proj2 (proj1 (proj1 (proj2
    (C4_weighted_averages Examples.uniform_rides None))
       [(VStr "All Time", Examples.uniform_summary)]
       (VStr "All Time") Examples.uniform_summary
       ltac:(vm_compute; reflexivity) (or_introl eq_refl))))).
Defined.

(** ** Division by zero *)

Lemma div_nan_r (x : float) : F64.div x F64.nan = F64.nan.
Proof. destruct x; reflexivity. Qed.

Lemma div_zero_r_nan (x : float) (s : bool) :
  F64.is_nan (F64.div x (S754_zero s)) = F64.is_zero x || F64.is_nan x.
Proof. destruct x; reflexivity. Qed.

Lemma div_zero_r_inf (x : float) (s : bool) :
  F64.is_zero x = false -> F64.is_nan x = false ->
  F64.is_inf (F64.div x (S754_zero s)) = true.
Proof. destruct x; simpl; intros; try discriminate; reflexivity. Qed.

Lemma ratio_field_quotient (df : DataFrame) (group_by : option string)
    (r : AggregatedDF) (k : value) (g : GroupSummary) (a : acc_name) :
  Aggregation df group_by = Ok r ->
  In (k, g) r ->
  is_ratio a = true ->
  ratio_field a g =
    F64.div (numerator a (group group_by k (iterrows df)))
            (qualifying_minutes a (group group_by k (iterrows df))).
Proof.
  intros H Hin Ha.
  destruct (Aggregation_inv _ _ _ H) as (st & Hst & _ & ->).
  apply in_result in Hin. destruct Hin as [_ ->].
  destruct (accumulate_entries _ _ _ Hst k) as [_ E].
  unfold numerator, qualifying_minutes.
  destruct a; try discriminate; cbn [ratio_field minutes_of summary
    Output_per_Minute Calories_per_Minute Avg_Heartrate Avg_Speed Avg_Cadence].
  - exact (series_div_entry Output OutputMinutes _ _ _ k
             (fun _ => eq_refl) (E Output) (E OutputMinutes)).
  - exact (series_div_entry Calories CaloriesMinutes _ _ _ k
             (fun _ => eq_refl) (E Calories) (E CaloriesMinutes)).
  - exact (series_div_entry Hr HrMinutes _ _ _ k
             (fun _ => eq_refl) (E Hr) (E HrMinutes)).
  - exact (series_div_entry Speed SpeedMinutes _ _ _ k
             (fun _ => eq_refl) (E Speed) (E SpeedMinutes)).
  - exact (series_div_entry Cadence CadenceMinutes _ _ _ k
             (fun _ => eq_refl) (E Cadence) (E CadenceMinutes)).
Qed.

(** C3 as the specification states it does not hold: for a ride of zero
    minutes that burned 100 calories the qualifying minutes are zero and
    Calories per Minute is +infinity, which [pd.isna] does not take for
    absent; so is the normalizer's calories per minute of that record. *)
Lemma C3_counterexample :
  (exists g,
     Aggregation Examples.zero_length_ride None = Ok [(VStr "All Time", g)]
     /\ F64.is_zero
          (qualifying_minutes Calories
             (group None (VStr "All Time") (iterrows Examples.zero_length_ride)))
        = true
     /\ Calories_per_Minute g = F64.pinf
     /\ isna (VFloat (Calories_per_Minute g)) = false)
  /\ np_div (Examples.fl 100) (VFloat F64.zero) = Ok (VFloat F64.pinf)
  /\ isna (VFloat F64.pinf) = false.
Proof.
  split; [|split; reflexivity].
  eexists. split; [vm_compute; reflexivity|]. repeat split.
Qed.

(** C3 (amended). No division of the core raises on a zero or absent
    denominator.  The normalizer's per-record ratio is absent when the
    length is absent; for a length of exactly zero it is absent when the
    numerator is zero or absent and an infinity otherwise.  Each ratio
    field of a summary is the quotient of its numerator by its qualifying
    minutes: absent when no record of the group qualifies, and, when the
    qualifying minutes are zero, absent exactly when the numerator is zero
    or NaN, an infinity otherwise. *)
Theorem C3_zero_denominator (df : DataFrame) (group_by : option string) :
  (* the normalizer, record by record *)
  (forall x y, np_div (VFloat x) (VFloat y) = Ok (VFloat (F64.div x y)))
  /\ (forall x, F64.div x F64.nan = F64.nan)
  /\ (forall x s,
        F64.is_nan (F64.div x (S754_zero s)) = F64.is_zero x || F64.is_nan x)
  /\ (forall x s, F64.is_zero x = false -> F64.is_nan x = false ->
        F64.is_inf (F64.div x (S754_zero s)) = true)
  (* the summary of a group *)
  /\ (metrics_ok df -> group_field_ok df group_by ->
      exists r, Aggregation df group_by = Ok r)
  /\ (forall r k g a,
        Aggregation df group_by = Ok r ->
        In (k, g) r ->
        is_ratio a = true ->
        let G := group group_by k (iterrows df) in
        ratio_field a g = F64.div (numerator a G) (qualifying_minutes a G)
        /\ (filter (qualifies a) G = [] -> ratio_field a g = F64.nan)
        /\ (F64.is_zero (qualifying_minutes a G) = true ->
              F64.is_nan (ratio_field a g)
              = F64.is_zero (numerator a G) || F64.is_nan (numerator a G))
        /\ (F64.is_zero (qualifying_minutes a G) = true ->
              F64.is_zero (numerator a G) = false ->
              F64.is_nan (numerator a G) = false ->
              F64.is_inf (ratio_field a g) = true)).
Proof.
  split; [reflexivity|]. split; [exact div_nan_r|].
  split; [exact div_zero_r_nan|]. split; [exact div_zero_r_inf|].
  split; [apply Aggregation_returns|].
  intros r k g a H Hin Ha G.
  pose proof (ratio_field_quotient _ _ _ _ _ _ H Hin Ha) as Q. fold G in Q.
  split; [exact Q|]. rewrite Q. split; [|split].
  - unfold numerator, qualifying_minutes. intros ->. reflexivity.
  - destruct (qualifying_minutes a G); try discriminate.
    intros _. apply div_zero_r_nan.
  - destruct (qualifying_minutes a G); try discriminate.
    intros _. apply div_zero_r_inf.
Qed.

Lemma C3_witness :
  F64.is_inf (ratio_field Calories
    {| Total_Workouts := Some 1;
       Total_Minutes := F64.zero;
       Total_Distance := F64.nan;
       Total_Output := F64.nan;
       Total_Calories := F64.of_Z 100;
       Output_per_Minute := F64.nan;
       Calories_per_Minute := F64.pinf;
       Avg_Heartrate := F64.nan;
       Avg_Speed := F64.nan;
       Avg_Cadence := F64.nan |}) = true.
Proof.
  refine (proj2 (proj2 (proj2
    (proj2 (proj2 (proj2 (proj2 (proj2
       (C3_zero_denominator Examples.zero_length_ride None)))))
       _ (VStr "All Time") _ Calories
       ltac:(vm_compute; reflexivity) (or_introl eq_refl) eq_refl)))
    eq_refl eq_refl eq_refl).
Defined.

(** ** Week starts *)

(** C6, evaluated on the code.  A workout on Monday 30 December 2024
    belongs to ISO week 1 of 2025, which begins on that very day; the
    derived week start is 1 January 2024.  A workout on 2 January 2019
    (ISO week 1 of 2019, beginning on 31 December 2018) gets 7 January
    2019, and one on 1 January 2021 (ISO week 53 of 2020) gets 3 January
    2022.  In the middle of a year that begins on a Sunday the two agree:
    7 June 2023 gets 5 June 2023. *)
Theorem C6_week_start_at_year_end :
  Calendar.isocalendar 2024 12 30 = (2025, 1, 1)
  /\ Calendar.iso_week_monday 2024 12 30 = (2024, 12, 30)
  /\ c_week (VTimestamp 2024 12 30 0) = Ok (VDate 2024 1 1)
  /\ Calendar.iso_week_monday 2019 1 2 = (2018, 12, 31)
  /\ c_week (VTimestamp 2019 1 2 0) = Ok (VDate 2019 1 7)
  /\ Calendar.iso_week_monday 2021 1 1 = (2020, 12, 28)
  /\ c_week (VTimestamp 2021 1 1 0) = Ok (VDate 2022 1 3)
  /\ Calendar.iso_week_monday 2023 6 7 = (2023, 6, 5)
  /\ c_week (VTimestamp 2023 6 7 0) = Ok (VDate 2023 6 5).
Proof. repeat split; vm_compute; reflexivity. Qed.

(** ** Errors of the aggregation *)

(** The first row already fails when the grouping field is unknown. *)
Lemma accumulate_unknown_field (group_by : option string) (g : string)
    (row : Series) (rows : list Series) (st : accumulators) :
  truthy group_by = Some g ->
  series_get row g = Raise (KeyError g) ->
  accumulate group_by (row :: rows) st = Raise (KeyError g).
Proof.
  intros T Hg. cbn [accumulate]. unfold accumulate_row, row_key.
  rewrite T, Hg. reflexivity.
Qed.

(** C8 as the specification states it does not hold: asked to group a
    table without rows by a field it does not have, the aggregation raises
    nothing and returns the empty result. *)
Lemma C8_counterexample :
  df_get Examples.no_workouts "Studio" = Raise (KeyError "Studio")
  /\ Aggregation Examples.no_workouts (Some "Studio") = Ok [].
Proof. split; reflexivity. Qed.

(** C8 (amended). The aggregation returns a result, and raises nothing,
    for every table that has the seven metric columns, whatever cells of
    them are missing, grouped by nothing or by one of its columns.  Asked
    to group by a non-empty field name that is not a column, it raises
    [KeyError] with that name at the first row of a table that has rows;
    for a table without rows it raises nothing and the result is empty. *)
Theorem C8_errors (df : DataFrame) (group_by : option string) :
  (metrics_ok df -> group_field_ok df group_by ->
     exists r, Aggregation df group_by = Ok r)
  /\ (forall g, truthy group_by = Some g ->
        (forall c, df_get df g <> Ok c) ->
        nrows df <> O ->
        Aggregation df group_by = Raise (KeyError g))
  /\ (nrows df = O -> Aggregation df group_by = Ok []).
Proof.
  split; [|split].
  - apply Aggregation_returns.
  - intros g T Hno Hn. unfold Aggregation, aggregate, iterrows.
    destruct (nrows df) as [|n]; [contradiction|].
    cbn [seq map]. rewrite (accumulate_unknown_field _ g); [reflexivity|exact T|].
    rewrite series_get_row. unfold df_get in Hno.
    destruct (column_get (columns df) g) as [c|e] eqn:E.
    + now destruct (Hno c).
    + now rewrite (column_get_error _ _ _ E).
  - intros Hn. unfold Aggregation, aggregate, iterrows. rewrite Hn. reflexivity.
Qed.

Lemma C8_witness :
  (exists r, Aggregation Examples.three_workouts None = Ok r)
  /\ Aggregation Examples.three_workouts (Some "Studio")
     = Raise (KeyError "Studio").
Proof.
  split.
  - refine (proj1 (C8_errors Examples.three_workouts None) _ _).
    + intros col Hin. simpl in Hin.
      repeat (destruct Hin as [<-|Hin]; [eexists; split; [reflexivity|];
        intros v Hv; simpl in Hv;
        repeat (destruct Hv as [<-|Hv]; [reflexivity|]); contradiction|]).
      contradiction.
    + intros g Hg. discriminate.
  - refine (proj1 (proj2 (C8_errors Examples.three_workouts (Some "Studio")))
              "Studio" eq_refl _ _).
    + intros c. discriminate.
    + discriminate.
Defined.

(** ** Timestamps *)

(** The part of the timestamp parsing that is in the code: both compact
    annotations are rewritten before the string reaches the parser. *)
Lemma parse_datetime_rewrites (parse : string -> option pydatetime)
    (s : string) :
  parse_datetime parse (VStr s) =
    Ok (parse (str_replace (str_replace s "(-" "(GMT-") "(+" "(GMT+"))
  /\ str_replace (str_replace "2021-03-05 18:30 (-05)" "(-" "(GMT-")
        "(+" "(GMT+" = "2021-03-05 18:30 (GMT-05)"
  /\ str_replace (str_replace "2021-03-05 18:30 (+02)" "(-" "(GMT-")
        "(+" "(GMT+" = "2021-03-05 18:30 (GMT+02)".
Proof. repeat split. Qed.

(** ** The normalizer works in place *)

Lemma preserves_bind {A B} (P : store -> Prop) (m : M A) (k : A -> M B) :
  preserves P m -> (forall a, preserves P (k a)) -> preserves P (mbind m k).
Proof.
  intros Hm Hk s r s' HP. unfold mbind.
  destruct (m s) as [[a|e] s1] eqn:E.
  - intros H. exact (Hk a s1 r s' (Hm _ _ _ HP E) H).
  - intros H. inversion H; subst. exact (Hm _ _ _ HP E).
Qed.

Lemma on_success_bind {A B} (P Q R : store -> Prop) (m : M A) (k : A -> M B) :
  on_success P m Q -> (forall a, on_success Q (k a) R) ->
  on_success P (mbind m k) R.
Proof.
  intros Hm Hk s b s' HP. unfold mbind.
  destruct (m s) as [[a|e] s1] eqn:E; [|discriminate].
  intros H. exact (Hk a s1 b s' (Hm _ _ _ HP E) H).
Qed.

Lemma preserves_eval {A} (P : store -> Prop) (l : nat)
    (f : DataFrame -> result A) :
  preserves P (eval l f).
Proof.
  intros s r s' HP. unfold eval.
  destruct (nth_error (heap s) l); intros H; inversion H; subst; exact HP.
Qed.

Lemma column_get_set (cols : list (string * list value)) (name c : string)
    (col : list value) :
  column_get (column_set cols name col) c =
    if String.eqb name c then Ok col else column_get cols c.
Proof.
  induction cols as [|[n old] cols IH]; simpl.
  - reflexivity.
  - destruct (String.eqb n name) eqn:E; simpl.
    + apply String.eqb_eq in E. subst n.
      destruct (String.eqb name c); reflexivity.
    + destruct (String.eqb n c) eqn:E'; [|exact IH].
      apply String.eqb_eq in E'. subst n.
      rewrite String.eqb_sym in E. now rewrite E.
Qed.

Lemma nth_error_heap_set (h : list DataFrame) (l l' : nat) (df : DataFrame) :
  nth_error (heap_set h l df) l' =
    if Nat.eqb l l'
    then match nth_error h l with Some _ => Some df | None => None end
    else nth_error h l'.
Proof.
  revert l l'. induction h as [|d h IH]; intros l l'.
  - simpl. destruct (Nat.eqb l l'); destruct l, l'; reflexivity.
  - destruct l, l'; simpl; try reflexivity. apply IH.
Qed.

Lemma session_get_set (ss : list (string * session_value)) (name n : string)
    (v : session_value) :
  session_get (session_set ss name v) n =
    if String.eqb name n then Some v else session_get ss n.
Proof.
  induction ss as [|[n0 old] ss IH]; simpl.
  - reflexivity.
  - destruct (String.eqb n0 name) eqn:E; simpl.
    + apply String.eqb_eq in E. subst n0.
      destruct (String.eqb name n); reflexivity.
    + destruct (String.eqb n0 n) eqn:E'; [|exact IH].
      apply String.eqb_eq in E'. subst n0.
      rewrite String.eqb_sym in E. now rewrite E.
Qed.

Lemma preserves_assign (l : nat) (df : DataFrame) (s0 : store)
    (name : string) (col : list value) :
  In name derived_columns ->
  preserves (frame l df s0) (assign l name col).
Proof.
  intros Hn s r s' ((df' & Hl & Hr & Hc) & Ho & Hs). unfold assign.
  rewrite Hl. intros H. inversion H; subst; clear H.
  split; [|split]; cbn [heap session_state].
  - exists (df_set df' name col). rewrite nth_error_heap_set, Nat.eqb_refl, Hl.
    split; [reflexivity|]. split; [exact Hr|].
    intros c Hnc. rewrite <- (Hc c Hnc). unfold df_get, df_set.
    cbn [columns]. rewrite column_get_set.
    destruct (String.eqb name c) eqn:E; [|reflexivity].
    apply String.eqb_eq in E. subst c. contradiction.
  - intros l' Hl'. rewrite nth_error_heap_set.
    destruct (Nat.eqb l l') eqn:E; [|auto].
    apply Nat.eqb_eq in E. congruence.
  - exact Hs.
Qed.

Lemma preserves_store_session (l : nat) (df : DataFrame) (s0 : store)
    (name : string) (v : session_value) :
  String.eqb name "workouts_df" = false \/ v = SDataFrame l ->
  preserves (frame l df s0) (store_session name v).
Proof.
  intros Hv s r s' (Hd & Ho & Hs). unfold store_session.
  intros H. inversion H; subst; clear H.
  split; [|split]; cbn [heap session_state]; [exact Hd|exact Ho|].
  rewrite session_get_set. destruct Hv as [-> | ->]; [exact Hs|].
  destruct (String.eqb name "workouts_df"); [reflexivity|exact Hs].
Qed.

Lemma preserves_store_aggregation (l : nat) (df : DataFrame) (s0 : store)
    (name : string) (group_by : option string) :
  String.eqb name "workouts_df" = false ->
  preserves (frame l df s0) (store_aggregation l name group_by).
Proof.
  intros Hn. unfold store_aggregation. apply preserves_bind.
  - apply preserves_eval.
  - intros a. apply preserves_store_session. now left.
Qed.

Lemma preserves_assign_apply (l : nat) (df : DataFrame) (s0 : store)
    (target source : string) (f : value -> result value) :
  In target derived_columns ->
  preserves (frame l df s0) (assign_apply l target source f).
Proof.
  intros Ht. unfold assign_apply. apply preserves_bind.
  - apply preserves_eval.
  - intros col. now apply preserves_assign.
Qed.

Lemma preserves_assign_ratio (l : nat) (df : DataFrame) (s0 : store)
    (target a b : string) :
  In target derived_columns ->
  preserves (frame l df s0) (assign_ratio l target a b).
Proof.
  intros Ht. unfold assign_ratio. apply preserves_bind.
  - apply preserves_eval.
  - intros col. now apply preserves_assign.
Qed.

Lemma process_frame (parse : string -> option pydatetime) (s : store)
    (l : nat) (df : DataFrame) (res : result unit) (s' : store) :
  session_get (session_state s) "workouts_df" = Some (SDataFrame l) ->
  nth_error (heap s) l = Some df ->
  process_workouts_df parse s = (res, s') ->
  frame l df s s'.
Proof.
  intros Hs Hl. unfold process_workouts_df. rewrite Hs.
  assert (F0 : frame l df s s).
  { split; [|split]; [|auto|exact Hs]. exists df. auto. }
  revert F0. generalize s at 2 3 as s1. intros s1 F0 H. revert s1 res s' F0 H.
  change (preserves (frame l df s)
    (_ <-- assign_apply l "c_datetime" "Workout Timestamp" (c_datetime parse) ;;;
     _ <-- assign_apply l "c_day" "c_datetime" c_day ;;;
     _ <-- assign_apply l "c_week" "c_datetime" c_week ;;;
     _ <-- assign_apply l "c_month" "c_datetime" c_month ;;;
     _ <-- assign_apply l "c_year" "c_datetime" c_year ;;;
     _ <-- assign_ratio l "c_calories_per_minute"
             "Calories Burned" "Length (minutes)" ;;;
     _ <-- assign_ratio l "c_output_per_minute"
             "Total Output" "Length (minutes)" ;;;
     _ <-- store_session "workouts_df" (SDataFrame l) ;;;
     _ <-- store_aggregation l "workouts_aggregation_all_time" None ;;;
     _ <-- store_aggregation l "workouts_aggregation_by_year" (Some "c_year") ;;;
     _ <-- store_aggregation l "workouts_aggregation_by_month" (Some "c_month") ;;;
     _ <-- store_aggregation l "workouts_aggregation_by_week" (Some "c_week") ;;;
     _ <-- store_aggregation l "workouts_aggregation_by_day" (Some "c_day") ;;;
     _ <-- store_aggregation l "workouts_aggregation_by_instructor"
             (Some "Instructor Name") ;;;
     store_aggregation l "workouts_aggregation_by_class_length"
       (Some "Length (minutes)"))).
  repeat (apply preserves_bind; [|intros _]);
    first [ apply preserves_assign_apply; simpl; tauto
          | apply preserves_assign_ratio; simpl; tauto
          | apply preserves_store_session; now right
          | apply preserves_store_aggregation; reflexivity ].
Qed.

Lemma preserves_on_success {A} (P : store -> Prop) (m : M A) :
  preserves P m -> on_success P m P.
Proof. intros H s a s' HP E. exact (H _ _ _ HP E). Qed.

Lemma assign_has_columns (l : nat) (names : list string) (name : string)
    (col : list value) :
  on_success (has_columns l names) (assign l name col)
    (has_columns l (name :: names)).
Proof.
  intros s a s' (df' & Hl & Hc). unfold assign. rewrite Hl.
  intros H. inversion H; subst; clear H.
  exists (df_set df' name col). cbn [heap].
  rewrite nth_error_heap_set, Nat.eqb_refl, Hl. split; [reflexivity|].
  intros c Hin. unfold df_get, df_set. cbn [columns].
  rewrite column_get_set. destruct (String.eqb name c) eqn:E; [eauto|].
  destruct Hin as [->|Hin]; [|exact (Hc c Hin)].
  now rewrite String.eqb_refl in E.
Qed.

Lemma assign_apply_has_columns (l : nat) (names : list string)
    (target source : string) (f : value -> result value) :
  on_success (has_columns l names) (assign_apply l target source f)
    (has_columns l (target :: names)).
Proof.
  unfold assign_apply. eapply on_success_bind.
  - apply preserves_on_success, preserves_eval.
  - intros col. apply assign_has_columns.
Qed.

Lemma assign_ratio_has_columns (l : nat) (names : list string)
    (target a b : string) :
  on_success (has_columns l names) (assign_ratio l target a b)
    (has_columns l (target :: names)).
Proof.
  unfold assign_ratio. eapply on_success_bind.
  - apply preserves_on_success, preserves_eval.
  - intros col. apply assign_has_columns.
Qed.

Lemma store_session_has_columns (l : nat) (names : list string)
    (name : string) (v : session_value) :
  preserves (has_columns l names) (store_session name v).
Proof.
  intros s r s' HP. unfold store_session.
  intros H. inversion H; subst. exact HP.
Qed.

Lemma store_aggregation_has_columns (l : nat) (names : list string)
    (name : string) (group_by : option string) :
  preserves (has_columns l names) (store_aggregation l name group_by).
Proof.
  unfold store_aggregation. apply preserves_bind.
  - apply preserves_eval.
  - intros a. apply store_session_has_columns.
Qed.

Lemma process_adds_columns (parse : string -> option pydatetime) (s : store)
    (l : nat) (df : DataFrame) (s' : store) :
  session_get (session_state s) "workouts_df" = Some (SDataFrame l) ->
  nth_error (heap s) l = Some df ->
  process_workouts_df parse s = (Ok tt, s') ->
  has_columns l derived_columns s'.
Proof.
  intros Hs Hl. unfold process_workouts_df. rewrite Hs. intros H.
  assert (H0 : has_columns l [] s).
  { exists df. split; [exact Hl|]. intros c []. }
  assert (R : has_columns l
                [ "c_output_per_minute"; "c_calories_per_minute"; "c_year";
                  "c_month"; "c_week"; "c_day"; "c_datetime" ] s').
  { match type of H with
    | ?m s = _ =>
        assert (OS : on_success (has_columns l []) m
                  (has_columns l
                     [ "c_output_per_minute"; "c_calories_per_minute";
                       "c_year"; "c_month"; "c_week"; "c_day"; "c_datetime" ]));
          [|exact (OS s tt s' H0 H)]
    end.
    eapply on_success_bind; [apply assign_apply_has_columns|intros _].
    eapply on_success_bind; [apply assign_apply_has_columns|intros _].
    eapply on_success_bind; [apply assign_apply_has_columns|intros _].
    eapply on_success_bind; [apply assign_apply_has_columns|intros _].
    eapply on_success_bind; [apply assign_apply_has_columns|intros _].
    eapply on_success_bind; [apply assign_ratio_has_columns|intros _].
    eapply on_success_bind; [apply assign_ratio_has_columns|intros _].
    apply preserves_on_success.
    repeat (apply preserves_bind; [|intros _]);
      first [ apply store_session_has_columns
            | apply store_aggregation_has_columns ]. }
  destruct R as (df' & Hl' & Hc). exists df'. split; [exact Hl'|].
  intros c Hin. apply Hc. simpl in *. tauto.
Qed.

(** C9 as the specification states it does not hold.  The table the
    caller stored is the object the normalizer writes to: after the call
    the session refers to the same object, and that object is no longer
    the table that was supplied (its rows carry seven more fields).  A
    column of the input named like a derived one is overwritten: [c_year]
    held "draft" and holds 2021. *)
Lemma C9_counterexample :
  (exists s',
     process_workouts_df Examples.known_timestamps Examples.uploaded = (Ok tt, s')
     /\ nth_error (heap Examples.uploaded) 0 = Some Examples.one_ride
     /\ session_get (session_state s') "workouts_df" = Some (SDataFrame 0)
     /\ nth_error (heap s') 0 <> Some Examples.one_ride
     /\ (exists df', nth_error (heap s') 0 = Some df'
                     /\ df_get Examples.one_ride "c_year" = Raise (KeyError "c_year")
                     /\ df_get df' "c_year" = Ok [VInt 2021]))
  /\ (exists s' df',
        process_workouts_df Examples.known_timestamps Examples.uploaded_annotated
          = (Ok tt, s')
        /\ nth_error (heap s') 0 = Some df'
        /\ df_get Examples.annotated_ride "c_year" = Ok [VStr "draft"]
        /\ df_get df' "c_year" = Ok [VInt 2021]).
Proof.
  split.
  - eexists. split; [vm_compute; reflexivity|].
    split; [reflexivity|]. split; [reflexivity|]. split; [discriminate|].
    eexists. split; [reflexivity|]. split; reflexivity.
  - eexists. eexists. split; [vm_compute; reflexivity|].
    split; [reflexivity|]. split; reflexivity.
Qed.

(** C9 (amended). The normalizer updates the caller's table in place: the
    session refers to the same table object before and after; of that
    table it writes only the seven derived columns (adding them, or
    overwriting columns of these names), so every other column keeps its
    content and the number of rows is unchanged, whether the call returns
    or raises; no other table is touched.  When it returns, the table has
    the seven derived columns. *)
Theorem C9_normalizer_in_place (parse : string -> option pydatetime)
    (s : store) (l : nat) (df : DataFrame) (res : result unit) (s' : store) :
  session_get (session_state s) "workouts_df" = Some (SDataFrame l) ->
  nth_error (heap s) l = Some df ->
  process_workouts_df parse s = (res, s') ->
  session_get (session_state s') "workouts_df" = Some (SDataFrame l)
  /\ (exists df',
        nth_error (heap s') l = Some df'
        /\ nrows df' = nrows df
        /\ (forall c, ~ In c derived_columns -> df_get df' c = df_get df c)
        /\ (res = Ok tt ->
            forall c, In c derived_columns -> exists col, df_get df' c = Ok col))
  /\ (forall l', l' <> l -> nth_error (heap s') l' = nth_error (heap s) l').
Proof.
  intros Hs Hl H.
  destruct (process_frame _ _ _ _ _ _ Hs Hl H) as ((df' & Hl' & Hr & Hc) & Ho & Hs').
  split; [exact Hs'|]. split; [|exact Ho].
  exists df'. split; [exact Hl'|]. split; [exact Hr|]. split; [exact Hc|].
  intros ->. destruct (process_adds_columns _ _ _ _ _ Hs Hl H) as (d & Hd & Hcols).
  rewrite Hl' in Hd. inversion Hd; subst. exact Hcols.
Qed.

Lemma C9_witness :
  session_get
    (session_state
       (snd (process_workouts_df Examples.known_timestamps Examples.uploaded)))
    "workouts_df" = Some (SDataFrame 0).
Proof.
  exact (proj1 (C9_normalizer_in_place Examples.known_timestamps
    Examples.uploaded 0 Examples.one_ride
    (fst (process_workouts_df Examples.known_timestamps Examples.uploaded))
    (snd (process_workouts_df Examples.known_timestamps Examples.uploaded))
    eq_refl eq_refl
    ltac:(destruct (process_workouts_df Examples.known_timestamps
                      Examples.uploaded); reflexivity))).
Defined.

(** * Further properties of the code *)

(** ** The total columns of a summary *)

Lemma at_label_entry (a : acc_name) (G : list Series) (d : dict float)
    (k : value) :
  dict_get d k = entry a G ->
  at_label d k = sum_or_nan (map (amount a) (filter (qualifies a) G)).
Proof.
  intros H. unfold at_label. rewrite H. unfold entry, sum_or_nan.
  destruct (filter (qualifies a) G); reflexivity.
Qed.

Lemma qualifies_time (row : Series) :
  qualifies Time row = present row "Length (minutes)".
Proof. unfold qualifies. simpl. apply andb_diag. Qed.

(** X1. Total Minutes and Total Distance add up the lengths and the
    distances that are present in the group; Total Output and Total
    Calories add up only the records that also have a length.  A total
    without any contributing record is NaN, not zero. *)
Theorem X1_total_columns (df : DataFrame) (group_by : option string)
    (r : AggregatedDF) (k : value) (g : GroupSummary) :
  Aggregation df group_by = Ok r ->
  In (k, g) r ->
  let G := group group_by k (iterrows df) in
  Total_Minutes g =
    sum_or_nan (map (metric "Length (minutes)")
                  (filter (fun row => present row "Length (minutes)") G))
  /\ Total_Distance g =
    sum_or_nan (map (metric "Distance (mi)")
                  (filter (fun row => present row "Distance (mi)") G))
  /\ Total_Output g =
    sum_or_nan (map (metric "Total Output")
                  (filter (both_present "Total Output") G))
  /\ Total_Calories g =
    sum_or_nan (map (metric "Calories Burned")
                  (filter (both_present "Calories Burned") G)).
Proof.
  intros H Hin G.
  destruct (Aggregation_inv _ _ _ H) as (st & Hst & _ & ->).
  apply in_result in Hin. destruct Hin as [_ ->].
  destruct (accumulate_entries _ _ _ Hst k) as [_ E]. fold G in E.
  unfold summary. cbn [Total_Minutes Total_Distance Total_Output Total_Calories].
  split; [|split; [|split]].
  - etransitivity; [exact (at_label_entry Time G _ _ (E Time))|].
    rewrite (filter_ext _ _ qualifies_time). reflexivity.
  - exact (at_label_entry Distance G _ _ (E Distance)).
  - exact (at_label_entry Output G _ _ (E Output)).
  - exact (at_label_entry Calories G _ _ (E Calories)).
Qed.

Lemma X1_witness :
  Total_Minutes Examples.three_summary =
    sum_or_nan (map (metric "Length (minutes)")
      (filter (fun row => present row "Length (minutes)")
         (group None (VStr "All Time") (iterrows Examples.three_workouts)))).
Proof.
  exact (proj1 (X1_total_columns Examples.three_workouts None
    [(VStr "All Time", Examples.three_summary)]
    (VStr "All Time") Examples.three_summary
    ltac:(vm_compute; reflexivity) (or_introl eq_refl))).
Defined.

(** ** The index of the result *)

Lemma dict_wf_keys {V W} (d1 : dict V) :
  forall d2 : dict W, keys d1 = keys d2 -> dict_wf d1 -> dict_wf d2.
Proof.
  induction d1 as [|[k v] d1 IH]; intros [|[k' w] d2]; simpl; try discriminate.
  - auto.
  - intros E (R & N & W0). inversion E; subst.
    fold (keys d1) in *. fold (keys d2) in *.
    split; [exact R|]. split; [congruence|]. now apply IH.
Qed.

Lemma has_label_false_in (l : list value) (k k0 : value) :
  has_label l k = false -> In k0 l -> py_eq k0 k = false.
Proof.
  unfold has_label. intros H Hin.
  destruct (py_eq k0 k) eqn:E; [|reflexivity].
  rewrite <- H. symmetry. apply existsb_exists. eauto.
Qed.

(** In a well-formed dictionary every value equal to a stored key finds
    the entry of that key. *)
Lemma dict_get_wf {V} (d : dict V) (k k' : value) (v : V) :
  dict_wf d -> In (k, v) d -> py_eq k k' = true -> dict_get d k' = Some v.
Proof.
  induction d as [|[k0 v0] d IH]; simpl; [tauto|].
  intros (R & N & W) [E|Hin] Hk.
  - inversion E; subst. now rewrite Hk.
  - assert (Hk0 : py_eq k k0 = false).
    { eapply has_label_false_in; [exact N|].
      unfold keys. apply in_map_iff. exists (k, v). auto. }
    destruct (py_eq k0 k') eqn:E0; [|auto].
    rewrite (py_eq_trans _ _ _ Hk (py_eq_sym _ _ E0)) in Hk0. discriminate.
Qed.



(** ** Grouping by the empty field name *)

Lemma accumulate_empty_name (rows : list Series) :
  forall st, accumulate (Some "") rows st = accumulate None rows st.
Proof.
  induction rows as [|row rows IH]; intros st; [reflexivity|].
  cbn [accumulate].
  change (accumulate_row (Some "") row st) with (accumulate_row None row st).
  destruct (accumulate_row None row st); simpl; auto.
Qed.

(** X3. [if group_by:] takes the empty field name for no grouping: the
    aggregation by [""] is the all-time aggregation, and raises no
    [KeyError] although the table has no column of that name. *)
Theorem X3_empty_group_name (df : DataFrame) :
  Aggregation df (Some "") = Aggregation df None.
Proof.
  unfold Aggregation, aggregate. now rewrite accumulate_empty_name.
Qed.

(** ** The first failing row decides *)

Lemma accumulate_first_error (group_by : option string) (e : exn)
    (rows : list Series) :
  (forall row, In row rows -> forall st,
     (exists st', accumulate_row group_by row st = Ok st')
     \/ accumulate_row group_by row st = Raise e) ->
  (exists row, In row rows /\
     forall st, accumulate_row group_by row st = Raise e) ->
  forall st, accumulate group_by rows st = Raise e.
Proof.
  induction rows as [|row rows IH]; intros Hall (bad & Hin & Hbad) st.
  - destruct Hin.
  - cbn [accumulate].
    destruct (Hall row (or_introl eq_refl) st) as [(st' & E)|E];
      rewrite E; [|reflexivity].
    cbn [bind]. destruct Hin as [->|Hin].
    + rewrite Hbad in E. discriminate.
    + apply IH; [|eauto]. intros r Hr. apply Hall. now right.
Qed.

Lemma accumulate_none_keyed (group_by : option string) (rows : list Series) :
  (forall row, In row rows -> row_key group_by row = Ok None) ->
  forall st, accumulate group_by rows st = Ok st.
Proof.
  induction rows as [|row rows IH]; intros H st; [reflexivity|].
  cbn [accumulate].
  rewrite (accumulate_row_skipped _ _ _ (H row (or_introl eq_refl))).
  cbn [bind]. apply IH. intros r Hr. apply H. now right.
Qed.

Lemma row_key_iterrows (df : DataFrame) (group_by : option string) :
  group_field_ok df group_by ->
  forall row, In row (iterrows df) -> exists k, row_key group_by row = Ok k.
Proof.
  intros Hg row Hin. destruct (iterrows_in _ _ Hin) as [i ->].
  unfold row_key. destruct (truthy group_by) as [g|] eqn:T; [|eauto].
  destruct (Hg g T) as (c & Hc). rewrite series_get_row.
  unfold df_get in Hc. rewrite Hc. simpl. eauto.
Qed.

Lemma keyed_false_skipped (df : DataFrame) (group_by : option string) :
  group_field_ok df group_by ->
  existsb (keyed group_by) (iterrows df) = false ->
  forall row, In row (iterrows df) -> row_key group_by row = Ok None.
Proof.
  intros Hg Hno row Hin.
  destruct (row_key_iterrows _ _ Hg row Hin) as ([key|] & E); [|exact E].
  assert (existsb (keyed group_by) (iterrows df) = true).
  { apply existsb_exists. exists row. split; [exact Hin|].
    unfold keyed. now rewrite E. }
  congruence.
Qed.

Lemma column_missing_row (df : DataFrame) (col : string) (row : Series) :
  (forall c, df_get df col <> Ok c) ->
  In row (iterrows df) ->
  series_get row col = Raise (KeyError col).
Proof.
  intros Hno Hin. destruct (iterrows_in _ _ Hin) as [i ->].
  rewrite series_get_row. unfold df_get in Hno.
  destruct (column_get (columns df) col) as [c|e] eqn:E.
  - now destruct (Hno c).
  - now rewrite (column_get_error _ _ _ E).
Qed.

(** X4. A table without the column Distance (mi), which every keyed row
    reads first, makes the aggregation raise [KeyError] with that name as
    soon as one record has a present key; when no record has one, nothing
    is read and the result is empty. *)
Theorem X4_missing_distance_column (df : DataFrame)
    (group_by : option string) :
  group_field_ok df group_by ->
  (forall c, df_get df "Distance (mi)" <> Ok c) ->
  (existsb (keyed group_by) (iterrows df) = true ->
     Aggregation df group_by = Raise (KeyError "Distance (mi)"))
  /\ (existsb (keyed group_by) (iterrows df) = false ->
        Aggregation df group_by = Ok []).
Proof.
  intros Hg Hno. unfold Aggregation, aggregate. split.
  - intros Hk. rewrite (accumulate_first_error _ (KeyError "Distance (mi)"));
      [reflexivity| |].
    + intros row Hin st.
      destruct (row_key_iterrows _ _ Hg row Hin) as ([key|] & E).
      * right. unfold accumulate_row. rewrite E. cbn [bind].
        now rewrite (column_missing_row _ _ _ Hno Hin).
      * left. exists st. now apply accumulate_row_skipped.
    + apply existsb_exists in Hk. destruct Hk as (row & Hin & Hk).
      exists row. split; [exact Hin|]. intros st.
      unfold keyed in Hk. unfold accumulate_row.
      destruct (row_key group_by row) as [[key|]|]; try discriminate.
      cbn [bind]. now rewrite (column_missing_row _ _ _ Hno Hin).
  - intros Hk.
    rewrite (accumulate_none_keyed _ _ (keyed_false_skipped _ _ Hg Hk)).
    reflexivity.
Qed.

(** ** Text in a metric column *)

Lemma okT_bind {A B} (m : result A) (k : A -> result B) :
  ok_or_type_error m -> (forall a, ok_or_type_error (k a)) ->
  ok_or_type_error (bind m k).
Proof.
  intros [(a & ->)| ->] Hk; simpl; [apply Hk|now right].
Qed.

Lemma raise_bind {A B} (m : result A) (k : A -> result B) :
  ok_or_type_error m -> (forall a, k a = Raise TypeError) ->
  bind m k = Raise TypeError.
Proof. intros [(a & ->)| ->] Hk; simpl; auto. Qed.

Lemma bump_okT (a : acc_name) (key v : value) (st : accumulators) :
  number_or_text v = true -> isna v = false ->
  ok_or_type_error (bump a key v st)
  /\ (is_text v = true -> bump a key v st = Raise TypeError)
  /\ (is_text v = false -> exists st', bump a key v st = Ok st').
Proof.
  destruct v; simpl; try discriminate; intros _ _.
  - split; [left; apply bump_ok|]. split; [discriminate|].
    intros _. apply bump_ok.
  - split; [now right|]. split; [reflexivity|discriminate].
Qed.

Lemma add_metric_okT (w : bool) (a am : acc_name) (col : string)
    (key : value) (len : float) (row : Series) (st : accumulators) :
  (exists v, series_get row col = Ok v /\ number_or_text v = true) ->
  ok_or_type_error (add_metric w a am col key (VFloat len) row st)
  /\ (is_text (cell row col) = true ->
      add_metric w a am col key (VFloat len) row st = Raise TypeError)
  /\ (is_text (cell row col) = false ->
      exists st', add_metric w a am col key (VFloat len) row st = Ok st').
Proof.
  intros (m & Hm & Fm). rewrite (series_get_cell _ _ _ Hm).
  destruct m; try discriminate.
  - assert (E : exists st', add_metric w a am col key (VFloat len) row st = Ok st').
    { apply add_metric_ok. exists (VFloat f). auto. }
    split; [now left|]. split; [discriminate|auto].
  - assert (E : add_metric w a am col key (VFloat len) row st = Raise TypeError).
    { unfold add_metric. rewrite Hm. destruct w; reflexivity. }
    split; [now right|]. split; [auto|discriminate].
  - assert (E : exists st', add_metric w a am col key (VFloat len) row st = Ok st').
    { apply add_metric_ok. exists VNaT. auto. }
    split; [now left|]. split; [discriminate|auto].
Qed.

Ltac metric_in := simpl; tauto.

(** The statements after the distance: the length and the five metrics
    next to it. *)
Lemma accumulate_tail_text (row : Series) (key l : value)
    (st1 : accumulators) :
  (forall col, In col metric_names ->
     exists v, series_get row col = Ok v /\ number_or_text v = true) ->
  number_or_text l = true ->
  let tail :=
    if isna l then Ok st1
    else
      st <- bump Time key l st1 ;;
      st <- add_metric false Output OutputMinutes "Total Output" key l row st ;;
      st <- add_metric false Calories CaloriesMinutes "Calories Burned" key l row st ;;
      st <- add_metric true Hr HrMinutes "Avg. Heartrate" key l row st ;;
      st <- add_metric true Speed SpeedMinutes "Avg. Speed (mph)" key l row st ;;
      add_metric true Cadence CadenceMinutes "Avg. Cadence (RPM)" key l row st in
  let t :=
    is_text l
    || negb (isna l)
       && (is_text (cell row "Total Output")
           || is_text (cell row "Calories Burned")
           || is_text (cell row "Avg. Heartrate")
           || is_text (cell row "Avg. Speed (mph)")
           || is_text (cell row "Avg. Cadence (RPM)")) in
  (t = true -> tail = Raise TypeError)
  /\ (t = false -> exists st', tail = Ok st').
Proof.
  intros Hm Fl tail t. subst tail t.
  destruct l as [len| |s| | |]; try discriminate.
  - cbn [is_text orb]. destruct (isna (VFloat len)); cbn [negb andb].
    { split; [discriminate|eauto]. }
    destruct (bump_ok Time key len st1) as (st2 & ->). cbn [bind].
    destruct (add_metric_okT false Output OutputMinutes "Total Output"
                key len row st2 (Hm "Total Output" ltac:(metric_in))) as (_ & T1 & O1).
    destruct (is_text (cell row "Total Output"));
      [rewrite (T1 eq_refl); split; [reflexivity|discriminate]|].
    destruct (O1 eq_refl) as (st3 & ->). cbn [bind orb].
    destruct (add_metric_okT false Calories CaloriesMinutes "Calories Burned"
                key len row st3 (Hm "Calories Burned" ltac:(metric_in))) as (_ & T2 & O2).
    destruct (is_text (cell row "Calories Burned"));
      [rewrite (T2 eq_refl); split; [reflexivity|discriminate]|].
    destruct (O2 eq_refl) as (st4 & ->). cbn [bind orb].
    destruct (add_metric_okT true Hr HrMinutes "Avg. Heartrate"
                key len row st4 (Hm "Avg. Heartrate" ltac:(metric_in))) as (_ & T3 & O3).
    destruct (is_text (cell row "Avg. Heartrate"));
      [rewrite (T3 eq_refl); split; [reflexivity|discriminate]|].
    destruct (O3 eq_refl) as (st5 & ->). cbn [bind orb].
    destruct (add_metric_okT true Speed SpeedMinutes "Avg. Speed (mph)"
                key len row st5 (Hm "Avg. Speed (mph)" ltac:(metric_in))) as (_ & T4 & O4).
    destruct (is_text (cell row "Avg. Speed (mph)"));
      [rewrite (T4 eq_refl); split; [reflexivity|discriminate]|].
    destruct (O4 eq_refl) as (st6 & ->). cbn [bind orb].
    destruct (add_metric_okT true Cadence CadenceMinutes "Avg. Cadence (RPM)"
                key len row st6 (Hm "Avg. Cadence (RPM)" ltac:(metric_in))) as (_ & T5 & O5).
    destruct (is_text (cell row "Avg. Cadence (RPM)"));
      [rewrite (T5 eq_refl); split; [reflexivity|discriminate]|].
    split; [discriminate|]. intros _. now apply O5.
  - split; [reflexivity|discriminate].
  - split; [discriminate|]. simpl. eauto.
Qed.

(** A keyed row of such a table is accumulated unless it trips, and then
    the exception is [TypeError]. *)
Lemma accumulate_row_text (group_by : option string) (row : Series)
    (st : accumulators) :
  row_or_text group_by row ->
  (row_trips group_by row = true ->
     accumulate_row group_by row st = Raise TypeError)
  /\ (row_trips group_by row = false ->
        exists st', accumulate_row group_by row st = Ok st').
Proof.
  intros [Hm (k & Hk)]. unfold row_trips, keyed, accumulate_row.
  rewrite Hk. cbn [bind]. destruct k as [key|];
    [|split; [discriminate|eauto]].
  destruct (Hm "Distance (mi)" ltac:(metric_in)) as (d & Hd & Fd).
  destruct (Hm "Length (minutes)" ltac:(metric_in)) as (l & Hl & Fl).
  rewrite Hd, Hl. cbn [bind].
  assert (T : existsb (fun col => trips col row) metric_names =
              is_text d
              || (is_text l
                  || negb (isna l)
                     && (is_text (cell row "Total Output")
                         || is_text (cell row "Calories Burned")
                         || is_text (cell row "Avg. Heartrate")
                         || is_text (cell row "Avg. Speed (mph)")
                         || is_text (cell row "Avg. Cadence (RPM)")))).
  { cbn [existsb metric_names]. unfold trips, present.
    cbn [String.eqb Ascii.eqb Bool.eqb andb orb].
    rewrite (series_get_cell _ _ _ Hd), (series_get_cell _ _ _ Hl).
    destruct (is_text d), (is_text l), (isna l),
      (is_text (cell row "Total Output")),
      (is_text (cell row "Calories Burned")),
      (is_text (cell row "Avg. Heartrate")),
      (is_text (cell row "Avg. Speed (mph)")),
      (is_text (cell row "Avg. Cadence (RPM)")); reflexivity. }
  cbn [andb]. rewrite T. clear T.
  destruct d as [fd| |s| | |]; try discriminate.
  - cbn [is_text orb].
    assert (exists st1,
              (if isna (VFloat fd) then Ok (count_workout key st)
               else bump Distance key (VFloat fd) (count_workout key st))
              = Ok st1) as (st1 & ->).
    { destruct (isna (VFloat fd)); [eauto|apply bump_ok]. }
    cbn [bind]. exact (accumulate_tail_text row key l st1 Hm Fl).
  - split; [reflexivity|discriminate].
  - cbn [is_text orb isna bind].
    exact (accumulate_tail_text row key l _ Hm Fl).
Qed.

Lemma accumulate_all_ok (group_by : option string) (rows : list Series) :
  (forall row, In row rows -> forall st,
     exists st', accumulate_row group_by row st = Ok st') ->
  forall st, exists st', accumulate group_by rows st = Ok st'.
Proof.
  induction rows as [|row rows IH]; intros H st; cbn [accumulate]; [eauto|].
  destruct (H row (or_introl eq_refl) st) as (st1 & ->). cbn [bind].
  apply IH. intros r Hr. apply H. now right.
Qed.

Lemma row_or_text_iterrows (df : DataFrame) (group_by : option string) :
  metrics_or_text df -> group_field_ok df group_by ->
  forall row, In row (iterrows df) -> row_or_text group_by row.
Proof.
  intros Hm Hg row Hin. split; [|exact (row_key_iterrows _ _ Hg row Hin)].
  destruct (iterrows_in _ _ Hin) as [i ->].
  intros col Hc. destruct (Hm col Hc) as (c & Hget & Hall).
  rewrite series_get_row. unfold df_get in Hget. rewrite Hget. simpl.
  eexists. split; [reflexivity|].
  destruct (nth_in_or_default i c VNaT) as [Hi| ->]; [auto|reflexivity].
Qed.

(** X5. A text cell is not taken for a missing value.  For a table whose
    metric cells are numbers, missing or text, the aggregation raises
    [TypeError] exactly when a record with a present key has text under
    Distance (mi) or Length (minutes), or under another metric next to a
    present length; otherwise it returns. *)
Theorem X5_text_cells (df : DataFrame) (group_by : option string) :
  metrics_or_text df -> group_field_ok df group_by ->
  (existsb (row_trips group_by) (iterrows df) = true ->
     Aggregation df group_by = Raise TypeError)
  /\ (existsb (row_trips group_by) (iterrows df) = false ->
        exists r, Aggregation df group_by = Ok r).
Proof.
  intros Hm Hg.
  pose proof (row_or_text_iterrows _ _ Hm Hg) as Hrows.
  unfold Aggregation, aggregate. split; intros Ht.
  - rewrite (accumulate_first_error _ TypeError); [reflexivity| |].
    + intros row Hin st.
      destruct (accumulate_row_text group_by row st (Hrows row Hin)) as [T O].
      destruct (row_trips group_by row); [right|left]; auto.
    + apply existsb_exists in Ht. destruct Ht as (row & Hin & Hr).
      exists row. split; [exact Hin|]. intros st.
      now apply (accumulate_row_text group_by row st (Hrows row Hin)).
  - destruct (accumulate_all_ok group_by (iterrows df)) with (st := empty_accumulators)
      as (st' & ->); [|simpl; eauto].
    intros row Hin st.
    apply (accumulate_row_text group_by row st (Hrows row Hin)).
    destruct (row_trips group_by row) eqn:E; [|reflexivity].
    assert (existsb (row_trips group_by) (iterrows df) = true).
    { apply existsb_exists. eauto. }
    congruence.
Qed.

Ltac metric_columns_ok :=
  intros col Hin; simpl in Hin;
  repeat (destruct Hin as [<-|Hin]; [eexists; split; [reflexivity|];
    intros v Hv; simpl in Hv;
    repeat (destruct Hv as [<-|Hv]; [reflexivity|]); contradiction|]);
  contradiction.

Lemma X5_witness :
  Aggregation MoreExamples.text_distance None = Raise TypeError.
Proof.
  refine (proj1 (X5_text_cells MoreExamples.text_distance None _ _) eq_refl).
  - metric_columns_ok.
  - intros g Hg. discriminate.
Defined.

Lemma X4_witness :
  Aggregation MoreExamples.no_distance None = Raise (KeyError "Distance (mi)").
Proof.
  refine (proj1 (X4_missing_distance_column MoreExamples.no_distance None _ _)
            eq_refl).
  - intros g Hg. discriminate.
  - intros c. discriminate.
Defined.

(** ** The normalizer, statement by statement *)

Lemma mbind_inv {A B} (m : M A) (k : A -> M B) (s s' : store) (r : result B) :
  mbind m k s = (r, s') ->
  (exists a s1, m s = (Ok a, s1) /\ k a s1 = (r, s'))
  \/ (exists e, m s = (Raise e, s') /\ r = Raise e).
Proof.
  unfold mbind. destruct (m s) as [[a|e] s1].
  - intros H. left. eauto.
  - intros H. inversion H; subst. right. eauto.
Qed.

Lemma heap_set_set (h : list DataFrame) (l : nat) (d1 d2 : DataFrame) :
  heap_set (heap_set h l d1) l d2 = heap_set h l d2.
Proof.
  revert l. induction h as [|d h IH]; intros [|l]; simpl; try reflexivity.
  now rewrite IH.
Qed.

Lemma nth_error_heap_set_same (h : list DataFrame) (l : nat)
    (d df : DataFrame) :
  nth_error h l = Some d -> nth_error (heap_set h l df) l = Some df.
Proof.
  intros H. now rewrite nth_error_heap_set, Nat.eqb_refl, H.
Qed.

(** An assignment of a derived column either raises, leaving the store
    alone, or replaces the table at [l] by the table with the column. *)
Lemma assign_apply_spec (l : nat) (target source : string)
    (f : value -> result value) (s : store) (df : DataFrame) :
  nth_error (heap s) l = Some df ->
  assign_apply l target source f s =
    match apply_column df target source f with
    | Ok df' => (Ok tt, {| heap := heap_set (heap s) l df';
                           session_state := session_state s |})
    | Raise e => (Raise e, s)
    end.
Proof.
  intros Hl. unfold assign_apply, apply_column, mbind, eval, assign.
  rewrite Hl. destruct (df_get df source) as [c|e]; simpl; [|reflexivity].
  destruct (mapM f c) as [col|e]; simpl; [|reflexivity].
  now rewrite Hl.
Qed.

Lemma assign_ratio_spec (l : nat) (target a b : string) (s : store)
    (df : DataFrame) :
  nth_error (heap s) l = Some df ->
  assign_ratio l target a b s =
    match ratio_column df target a b with
    | Ok df' => (Ok tt, {| heap := heap_set (heap s) l df';
                           session_state := session_state s |})
    | Raise e => (Raise e, s)
    end.
Proof.
  intros Hl. unfold assign_ratio, ratio_column, mbind, eval, assign.
  rewrite Hl. destruct (df_get df a) as [x|e]; simpl; [|reflexivity].
  destruct (df_get df b) as [y|e]; simpl; [|reflexivity].
  destruct (column_div x y) as [col|e]; simpl; [|reflexivity].
  now rewrite Hl.
Qed.

Lemma store_aggregation_spec (l : nat) (name : string)
    (group_by : option string) (s : store) (df : DataFrame) :
  nth_error (heap s) l = Some df ->
  store_aggregation l name group_by s =
    match Aggregation df group_by with
    | Ok a => (Ok tt, {| heap := heap s;
                         session_state :=
                           session_set (session_state s) name
                             (SAggregation group_by a) |})
    | Raise e => (Raise e, s)
    end.
Proof.
  intros Hl. unfold store_aggregation, mbind, eval, store_session.
  rewrite Hl. destruct (Aggregation df group_by); reflexivity.
Qed.

Lemma apply_column_nrows (df df' : DataFrame) (t src : string)
    (f : value -> result value) :
  apply_column df t src f = Ok df' -> nrows df' = nrows df.
Proof.
  unfold apply_column. destruct (df_get df src) as [c|]; simpl; [|discriminate].
  destruct (mapM f c); simpl; [|discriminate].
  intros H. inversion H. reflexivity.
Qed.

Lemma mbind_assign_apply {B} (l : nat) (target source : string)
    (f : value -> result value) (k : unit -> M B) (s : store)
    (df : DataFrame) :
  nth_error (heap s) l = Some df ->
  mbind (assign_apply l target source f) k s =
    match apply_column df target source f with
    | Ok df' => k tt {| heap := heap_set (heap s) l df';
                        session_state := session_state s |}
    | Raise e => (Raise e, s)
    end.
Proof.
  intros Hl. unfold mbind at 1. rewrite (assign_apply_spec _ _ _ _ _ _ Hl).
  destruct (apply_column df target source f); reflexivity.
Qed.

Lemma mbind_assign_ratio {B} (l : nat) (target a b : string)
    (k : unit -> M B) (s : store) (df : DataFrame) :
  nth_error (heap s) l = Some df ->
  mbind (assign_ratio l target a b) k s =
    match ratio_column df target a b with
    | Ok df' => k tt {| heap := heap_set (heap s) l df';
                        session_state := session_state s |}
    | Raise e => (Raise e, s)
    end.
Proof.
  intros Hl. unfold mbind at 1. rewrite (assign_ratio_spec _ _ _ _ _ _ Hl).
  destruct (ratio_column df target a b); reflexivity.
Qed.

Lemma mbind_store_aggregation {B} (l : nat) (name : string)
    (group_by : option string) (k : unit -> M B) (s : store)
    (df : DataFrame) :
  nth_error (heap s) l = Some df ->
  mbind (store_aggregation l name group_by) k s =
    match Aggregation df group_by with
    | Ok a => k tt {| heap := heap s;
                      session_state :=
                        session_set (session_state s) name
                          (SAggregation group_by a) |}
    | Raise e => (Raise e, s)
    end.
Proof.
  intros Hl. unfold mbind at 1. rewrite (store_aggregation_spec _ _ _ _ _ Hl).
  destruct (Aggregation df group_by); reflexivity.
Qed.

(** Running the column assignments of [process_workouts_df] on a store
    whose session refers to the table [df] at [l]: they raise what
    [normalize] raises, or leave the normalized table at [l]. *)
Lemma process_run (parse : string -> option pydatetime) (s : store)
    (l : nat) (df : DataFrame) :
  session_get (session_state s) "workouts_df" = Some (SDataFrame l) ->
  nth_error (heap s) l = Some df ->
  match normalize parse df with
  | Raise e =>
      fst (process_workouts_df parse s) = Raise e
      /\ session_state (snd (process_workouts_df parse s)) = session_state s
  | Ok df' =>
      process_workouts_df parse s =
        (_ <-- store_session "workouts_df" (SDataFrame l) ;;;
         _ <-- store_aggregation l "workouts_aggregation_all_time" None ;;;
         _ <-- store_aggregation l "workouts_aggregation_by_year" (Some "c_year") ;;;
         _ <-- store_aggregation l "workouts_aggregation_by_month" (Some "c_month") ;;;
         _ <-- store_aggregation l "workouts_aggregation_by_week" (Some "c_week") ;;;
         _ <-- store_aggregation l "workouts_aggregation_by_day" (Some "c_day") ;;;
         _ <-- store_aggregation l "workouts_aggregation_by_instructor"
                 (Some "Instructor Name") ;;;
         store_aggregation l "workouts_aggregation_by_class_length"
           (Some "Length (minutes)"))
          {| heap := heap_set (heap s) l df';
             session_state := session_state s |}
  end.
Proof.
  intros Hs Hl. unfold process_workouts_df, normalize. rewrite Hs.
  rewrite (mbind_assign_apply _ _ _ _ _ _ _ Hl).
  destruct (apply_column df "c_datetime" "Workout Timestamp" (c_datetime parse))
    as [df1|e]; cbn [bind fst snd]; [|split; reflexivity].
  pose proof (nth_error_heap_set_same _ _ _ df1 Hl) as Hl1.
  rewrite (mbind_assign_apply l _ _ _ _
             {| heap := heap_set (heap s) l df1;
                session_state := session_state s |} df1 Hl1).
  destruct (apply_column df1 "c_day" "c_datetime" c_day)
    as [df2|e]; cbn [bind fst snd heap session_state]; [|split; reflexivity].
  rewrite heap_set_set.
  pose proof (nth_error_heap_set_same _ _ _ df2 Hl) as Hl2.
  rewrite (mbind_assign_apply l _ _ _ _
             {| heap := heap_set (heap s) l df2;
                session_state := session_state s |} df2 Hl2).
  destruct (apply_column df2 "c_week" "c_datetime" c_week)
    as [df3|e]; cbn [bind fst snd heap session_state]; [|split; reflexivity].
  rewrite heap_set_set.
  pose proof (nth_error_heap_set_same _ _ _ df3 Hl) as Hl3.
  rewrite (mbind_assign_apply l _ _ _ _
             {| heap := heap_set (heap s) l df3;
                session_state := session_state s |} df3 Hl3).
  destruct (apply_column df3 "c_month" "c_datetime" c_month)
    as [df4|e]; cbn [bind fst snd heap session_state]; [|split; reflexivity].
  rewrite heap_set_set.
  pose proof (nth_error_heap_set_same _ _ _ df4 Hl) as Hl4.
  rewrite (mbind_assign_apply l _ _ _ _
             {| heap := heap_set (heap s) l df4;
                session_state := session_state s |} df4 Hl4).
  destruct (apply_column df4 "c_year" "c_datetime" c_year)
    as [df5|e]; cbn [bind fst snd heap session_state]; [|split; reflexivity].
  rewrite heap_set_set.
  pose proof (nth_error_heap_set_same _ _ _ df5 Hl) as Hl5.
  rewrite (mbind_assign_ratio l _ _ _ _
             {| heap := heap_set (heap s) l df5;
                session_state := session_state s |} df5 Hl5).
  destruct (ratio_column df5 "c_calories_per_minute" "Calories Burned"
              "Length (minutes)")
    as [df6|e]; cbn [bind fst snd heap session_state]; [|split; reflexivity].
  rewrite heap_set_set.
  pose proof (nth_error_heap_set_same _ _ _ df6 Hl) as Hl6.
  rewrite (mbind_assign_ratio l _ _ _ _
             {| heap := heap_set (heap s) l df6;
                session_state := session_state s |} df6 Hl6).
  destruct (ratio_column df6 "c_output_per_minute" "Total Output"
              "Length (minutes)")
    as [df7|e]; cbn [bind fst snd heap session_state]; [|split; reflexivity].
  rewrite heap_set_set. reflexivity.
Qed.

(** The statements after the columns: the session entries. *)
Lemma store_run (l : nat) (df' : DataFrame) (h : list DataFrame)
    (ss : list (string * session_value)) :
  nth_error h l = Some df' ->
  let tail :=
    (_ <-- store_session "workouts_df" (SDataFrame l) ;;;
     _ <-- store_aggregation l "workouts_aggregation_all_time" None ;;;
     _ <-- store_aggregation l "workouts_aggregation_by_year" (Some "c_year") ;;;
     _ <-- store_aggregation l "workouts_aggregation_by_month" (Some "c_month") ;;;
     _ <-- store_aggregation l "workouts_aggregation_by_week" (Some "c_week") ;;;
     _ <-- store_aggregation l "workouts_aggregation_by_day" (Some "c_day") ;;;
     _ <-- store_aggregation l "workouts_aggregation_by_instructor"
             (Some "Instructor Name") ;;;
     store_aggregation l "workouts_aggregation_by_class_length"
       (Some "Length (minutes)"))
      {| heap := h; session_state := ss |} in
  (forall s', tail = (Ok tt, s') ->
     heap s' = h
     /\ forall name gb, In (name, gb) stored_aggregations ->
          exists a, Aggregation df' gb = Ok a
                    /\ session_get (session_state s') name
                       = Some (SAggregation gb a))
  /\ ((forall name gb, In (name, gb) stored_aggregations ->
         exists a, Aggregation df' gb = Ok a) ->
      fst tail = Ok tt).
Proof.
  intros Hl tail.
  assert (E : exists r s', tail = (r, s') /\
            (r = Ok tt ->
               heap s' = h
               /\ forall name gb, In (name, gb) stored_aggregations ->
                    exists a, Aggregation df' gb = Ok a
                              /\ session_get (session_state s') name
                                 = Some (SAggregation gb a))
            /\ ((forall name gb, In (name, gb) stored_aggregations ->
                   exists a, Aggregation df' gb = Ok a) ->
                r = Ok tt));
    [|destruct E as (r & s1 & E & P1 & P2); rewrite E; split;
      [intros s' H; inversion H; subst; auto|exact P2]].
  subst tail.
  unfold mbind at 1. unfold store_session at 1. cbn [heap session_state].
  set (ss0 := session_set ss "workouts_df" (SDataFrame l)).
  rewrite (mbind_store_aggregation l _ _ _ {| heap := h; session_state := ss0 |} df' Hl).
  destruct (Aggregation df' None) as [a1|e1] eqn:E1; cbn [heap session_state].
  2:{ eexists; eexists; split; [reflexivity|].
      split; [discriminate|]. intros H.
      destruct (H _ None (or_introl eq_refl)) as (a & Ha). congruence. }
  set (ss1 := session_set ss0 _ _).
  rewrite (mbind_store_aggregation l _ _ _ {| heap := h; session_state := ss1 |} df' Hl).
  destruct (Aggregation df' (Some "c_year")) as [a2|e2] eqn:E2; cbn [heap session_state].
  2:{ eexists; eexists; split; [reflexivity|].
      split; [discriminate|]. intros H.
      destruct (H _ (Some "c_year") (or_intror (or_introl eq_refl))) as (a & Ha).
      congruence. }
  set (ss2 := session_set ss1 _ _).
  rewrite (mbind_store_aggregation l _ _ _ {| heap := h; session_state := ss2 |} df' Hl).
  destruct (Aggregation df' (Some "c_month")) as [a3|e3] eqn:E3; cbn [heap session_state].
  2:{ eexists; eexists; split; [reflexivity|].
      split; [discriminate|]. intros H.
      destruct (H _ (Some "c_month")
                  (or_intror (or_intror (or_introl eq_refl)))) as (a & Ha).
      congruence. }
  set (ss3 := session_set ss2 _ _).
  rewrite (mbind_store_aggregation l _ _ _ {| heap := h; session_state := ss3 |} df' Hl).
  destruct (Aggregation df' (Some "c_week")) as [a4|e4] eqn:E4; cbn [heap session_state].
  2:{ eexists; eexists; split; [reflexivity|].
      split; [discriminate|]. intros H.
      destruct (H _ (Some "c_week")
                  (or_intror (or_intror (or_intror (or_introl eq_refl)))))
        as (a & Ha). congruence. }
  set (ss4 := session_set ss3 _ _).
  rewrite (mbind_store_aggregation l _ _ _ {| heap := h; session_state := ss4 |} df' Hl).
  destruct (Aggregation df' (Some "c_day")) as [a5|e5] eqn:E5; cbn [heap session_state].
  2:{ eexists; eexists; split; [reflexivity|].
      split; [discriminate|]. intros H.
      destruct (H _ (Some "c_day")
                  (or_intror (or_intror (or_intror (or_intror
                     (or_introl eq_refl)))))) as (a & Ha). congruence. }
  set (ss5 := session_set ss4 _ _).
  rewrite (mbind_store_aggregation l _ _ _ {| heap := h; session_state := ss5 |} df' Hl).
  destruct (Aggregation df' (Some "Instructor Name")) as [a6|e6] eqn:E6;
    cbn [heap session_state].
  2:{ eexists; eexists; split; [reflexivity|].
      split; [discriminate|]. intros H.
      destruct (H _ (Some "Instructor Name")
                  (or_intror (or_intror (or_intror (or_intror (or_intror
                     (or_introl eq_refl))))))) as (a & Ha). congruence. }
  set (ss6 := session_set ss5 _ _).
  rewrite (store_aggregation_spec l _ _ {| heap := h; session_state := ss6 |} df' Hl).
  destruct (Aggregation df' (Some "Length (minutes)")) as [a7|e7] eqn:E7;
    cbn [heap session_state].
  2:{ eexists; eexists; split; [reflexivity|].
      split; [discriminate|]. intros H.
      destruct (H _ (Some "Length (minutes)")
                  (or_intror (or_intror (or_intror (or_intror (or_intror
                     (or_intror (or_introl eq_refl)))))))) as (a & Ha).
      congruence. }
  eexists; eexists; split; [reflexivity|]. split; [|reflexivity].
  intros _. cbn [heap session_state].
  split; [reflexivity|].
  intros name gb Hin. simpl in Hin.
  subst ss6 ss5 ss4 ss3 ss2 ss1.
  repeat (destruct Hin as [Hin|Hin];
    [inversion Hin; subst; eexists; split; [eassumption|];
     repeat (rewrite session_get_set; cbn [String.eqb Ascii.eqb Bool.eqb]);
     reflexivity|]).
  contradiction.
Qed.

(** The outcomes of [process_workouts_df] on a session that refers to a
    table. *)
Lemma process_outcome (parse : string -> option pydatetime)
    (s : store) (l : nat) (df : DataFrame) :
  session_get (session_state s) "workouts_df" = Some (SDataFrame l) ->
  nth_error (heap s) l = Some df ->
  (forall s', process_workouts_df parse s = (Ok tt, s') ->
     exists df',
       normalize parse df = Ok df'
       /\ nth_error (heap s') l = Some df'
       /\ forall name gb, In (name, gb) stored_aggregations ->
            exists a, Aggregation df' gb = Ok a
                      /\ session_get (session_state s') name
                         = Some (SAggregation gb a))
  /\ (forall df', normalize parse df = Ok df' ->
        (forall name gb, In (name, gb) stored_aggregations ->
           exists a, Aggregation df' gb = Ok a) ->
        fst (process_workouts_df parse s) = Ok tt)
  /\ (forall e, normalize parse df = Raise e ->
        fst (process_workouts_df parse s) = Raise e
        /\ session_state (snd (process_workouts_df parse s)) = session_state s).
Proof.
  intros Hs Hl. pose proof (process_run parse s l df Hs Hl) as R.
  destruct (normalize parse df) as [df'|e].
  - pose proof (store_run l df' (heap_set (heap s) l df') (session_state s)
                  (nth_error_heap_set_same _ _ _ df' Hl)) as [T1 T2].
    rewrite <- R in T1, T2. split; [|split].
    + intros s' H. exists df'. split; [reflexivity|].
      destruct (T1 s' H) as [Hh Hn]. split; [|exact Hn].
      rewrite Hh. exact (nth_error_heap_set_same _ _ _ df' Hl).
    + intros d E. inversion E; subst. exact T2.
    + discriminate.
  - split; [|split].
    + intros s' H. destruct R as [R _]. rewrite H in R. discriminate.
    + discriminate.
    + intros e' E. inversion E; subst. exact R.
Qed.

(** X6. The normalizer returns exactly when its seven column assignments
    and the seven aggregations all return.  Then the session holds, under
    each of the seven [workouts_aggregation_...] names, the aggregation of
    the normalized table by the field of that name; when a column
    assignment raises, the call raises the same exception and no session
    entry is written. *)
Theorem X6_stored_aggregations (parse : string -> option pydatetime)
    (s : store) (l : nat) (df : DataFrame) :
  session_get (session_state s) "workouts_df" = Some (SDataFrame l) ->
  nth_error (heap s) l = Some df ->
  (forall s', process_workouts_df parse s = (Ok tt, s') ->
     exists df',
       normalize parse df = Ok df'
       /\ nth_error (heap s') l = Some df'
       /\ forall name gb, In (name, gb) stored_aggregations ->
            exists a, Aggregation df' gb = Ok a
                      /\ session_get (session_state s') name
                         = Some (SAggregation gb a))
  /\ (forall df', normalize parse df = Ok df' ->
        (forall name gb, In (name, gb) stored_aggregations ->
           exists a, Aggregation df' gb = Ok a) ->
        fst (process_workouts_df parse s) = Ok tt)
  /\ (forall e, normalize parse df = Raise e ->
        fst (process_workouts_df parse s) = Raise e
        /\ session_state (snd (process_workouts_df parse s)) = session_state s).
Proof. exact (process_outcome parse s l df). Qed.

Lemma X6_witness :
  fst (process_workouts_df Examples.known_timestamps Examples.uploaded) = Ok tt.
Proof.
  refine (proj1 (proj2 (X6_stored_aggregations Examples.known_timestamps
    Examples.uploaded 0 Examples.one_ride eq_refl eq_refl))
    _ ltac:(vm_compute; reflexivity) _).
  intros name gb Hin. simpl in Hin.
  repeat (destruct Hin as [Hin|Hin];
    [inversion Hin; subst; eexists; vm_compute; reflexivity|]).
  contradiction.
Defined.

(** ** The columns of the normalized table *)

Lemma mapM_length {A B} (f : A -> result B) (l : list A) (l' : list B) :
  mapM f l = Ok l' -> List.length l' = List.length l.
Proof.
  revert l'. induction l as [|x l IH]; simpl; intros l' H.
  - inversion H. reflexivity.
  - destruct (f x); simpl in H; [|discriminate].
    destruct (mapM f l); simpl in H; [|discriminate].
    inversion H. simpl. now rewrite (IH _ eq_refl).
Qed.

Lemma mapM_image {A B} (f : A -> result B) (l : list A) (l' : list B) :
  mapM f l = Ok l' ->
  (forall x, In x l -> exists y, f x = Ok y)
  /\ (forall y, In y l' -> exists x, In x l /\ f x = Ok y).
Proof.
  revert l'. induction l as [|x l IH]; simpl; intros l' H.
  - inversion H. split; intros ? [].
  - destruct (f x) as [y|] eqn:E; simpl in H; [|discriminate].
    destruct (mapM f l) as [ys|]; simpl in H; [|discriminate].
    inversion H; subst. destruct (IH _ eq_refl) as [I1 I2]. split.
    + intros x' [<-|Hin]; eauto.
    + intros y' [<-|Hin]; [eauto|].
      destruct (I2 _ Hin) as (x' & Hx & Hf). eauto.
Qed.

Lemma mapM_all_ok {A B} (f : A -> result B) (l : list A) :
  (forall x, In x l -> exists y, f x = Ok y) -> exists l', mapM f l = Ok l'.
Proof.
  induction l as [|x l IH]; simpl; intros H; [eauto|].
  destruct (H x (or_introl eq_refl)) as [y ->].
  destruct IH as [l' ->]; [auto|]. simpl. eauto.
Qed.

(** One exception only can be raised, and some element raises it. *)
Lemma mapM_raises {A B} (f : A -> result B) (e : exn) (l : list A) :
  (forall x, In x l -> f x = Raise e \/ exists y, f x = Ok y) ->
  (exists x, In x l /\ f x = Raise e) ->
  mapM f l = Raise e.
Proof.
  induction l as [|x l IH]; simpl; intros Hall (x0 & Hin & Hx0); [contradiction|].
  destruct (Hall x (or_introl eq_refl)) as [->|[y Hy]]; [reflexivity|].
  rewrite Hy. simpl. rewrite IH; [reflexivity|auto|].
  destruct Hin as [<-|Hin]; [congruence|eauto].
Qed.

Ltac column_of :=
  unfold df_get, df_set; cbn [columns];
  repeat (rewrite column_get_set; simpl (String.eqb _ _); cbv iota);
  try reflexivity.

(** What [normalize] has read and written when it returns. *)
Lemma normalize_inv (parse : string -> option pydatetime)
    (df df' : DataFrame) :
  normalize parse df = Ok df' ->
  exists c ts days weeks months years cal len out cpm opm,
    df_get df "Workout Timestamp" = Ok c
    /\ df_get df "Calories Burned" = Ok cal
    /\ df_get df "Length (minutes)" = Ok len
    /\ df_get df "Total Output" = Ok out
    /\ mapM (c_datetime parse) c = Ok ts
    /\ mapM c_day ts = Ok days
    /\ mapM c_week ts = Ok weeks
    /\ mapM c_month ts = Ok months
    /\ mapM c_year ts = Ok years
    /\ column_div cal len = Ok cpm
    /\ column_div out len = Ok opm
    /\ df' =
       df_set (df_set (df_set (df_set (df_set (df_set (df_set df
         "c_datetime" ts) "c_day" days) "c_week" weeks) "c_month" months)
         "c_year" years) "c_calories_per_minute" cpm) "c_output_per_minute" opm.
Proof.
  unfold normalize, apply_column, ratio_column. intros H.
  destruct (df_get df "Workout Timestamp") as [c|] eqn:Ec;
    cbn [bind] in H; [|discriminate].
  destruct (mapM (c_datetime parse) c) as [ts|] eqn:Ets;
    cbn [bind] in H; [|discriminate].
  assert (G1 : df_get (df_set df "c_datetime" ts) "c_datetime" = Ok ts)
    by column_of.
  rewrite G1 in H. cbn [bind] in H.
  destruct (mapM c_day ts) as [days|] eqn:Ed; cbn [bind] in H; [|discriminate].
  match type of H with context [df_get ?d "c_datetime"] =>
    assert (G2 : df_get d "c_datetime" = Ok ts) by column_of end.
  rewrite G2 in H. cbn [bind] in H.
  destruct (mapM c_week ts) as [weeks|] eqn:Ew; cbn [bind] in H; [|discriminate].
  match type of H with context [df_get ?d "c_datetime"] =>
    assert (G3 : df_get d "c_datetime" = Ok ts) by column_of end.
  rewrite G3 in H. cbn [bind] in H.
  destruct (mapM c_month ts) as [months|] eqn:Em; cbn [bind] in H; [|discriminate].
  match type of H with context [df_get ?d "c_datetime"] =>
    assert (G4 : df_get d "c_datetime" = Ok ts) by column_of end.
  rewrite G4 in H. cbn [bind] in H.
  destruct (mapM c_year ts) as [years|] eqn:Ey; cbn [bind] in H; [|discriminate].
  match type of H with context [df_get ?d "Calories Burned"] =>
    assert (G5 : df_get d "Calories Burned" = df_get df "Calories Burned")
      by column_of;
    assert (G6 : df_get d "Length (minutes)" = df_get df "Length (minutes)")
      by column_of
  end.
  rewrite G5, G6 in H.
  destruct (df_get df "Calories Burned") as [cal|] eqn:Ecal;
    cbn [bind] in H; [|discriminate].
  destruct (df_get df "Length (minutes)") as [len|] eqn:Elen;
    cbn [bind] in H; [|discriminate].
  destruct (column_div cal len) as [cpm|] eqn:Ecpm;
    cbn [bind] in H; [|discriminate].
  match type of H with context [df_get ?d "Total Output"] =>
    assert (G7 : df_get d "Total Output" = df_get df "Total Output")
      by column_of;
    assert (G8 : df_get d "Length (minutes)" = Ok len)
      by (column_of; exact Elen)
  end.
  rewrite G7, G8 in H.
  destruct (df_get df "Total Output") as [out|] eqn:Eout;
    cbn [bind] in H; [|discriminate].
  destruct (column_div out len) as [opm|] eqn:Eopm;
    cbn [bind] in H; [|discriminate].
  inversion H.
  exists c, ts, days, weeks, months, years, cal, len, out, cpm, opm.
  repeat (split; [first [assumption|reflexivity]|]). congruence.
Qed.

Lemma mapM_maps {A B} (f : A -> result B) (l : list A) (l' : list B) :
  mapM f l = Ok l' -> forall x y, In x l -> f x = Ok y -> In y l'.
Proof.
  revert l'. induction l as [|x l IH]; simpl; intros l' H x' y' Hin Hf.
  - contradiction.
  - destruct (f x) as [y|] eqn:E; simpl in H; [|discriminate].
    destruct (mapM f l) as [ys|]; simpl in H; [|discriminate].
    inversion H; subst. destruct Hin as [<-|Hin].
    + left. congruence.
    + right. exact (IH _ eq_refl _ _ Hin Hf).
Qed.

Lemma c_week_timestamp (x w : value) :
  c_week x = Ok w -> is_timestamp x = true.
Proof. destruct x; simpl; try discriminate. reflexivity. Qed.

Lemma mapM_c_week_timestamps (ts weeks : list value) :
  mapM c_week ts = Ok weeks -> forallb is_timestamp ts = true.
Proof.
  intros H. apply forallb_forall. intros x Hin.
  destruct (proj1 (mapM_image _ _ _ H) x Hin) as [w Hw].
  exact (c_week_timestamp _ _ Hw).
Qed.

(** X7. When the normalizer returns, the table of the session has the
    seven derived columns, each computed from the columns the caller
    stored: [c_datetime] holds the converted workout timestamps, none of
    them NaT; [c_day], [c_week], [c_month] and [c_year] are [c_datetime]
    mapped element by element, and the two per-minute columns are the
    quotients of the uploaded calories, output and length columns. *)
Theorem X7_derived_columns (parse : string -> option pydatetime)
    (s s' : store) (l : nat) (df : DataFrame) :
  session_get (session_state s) "workouts_df" = Some (SDataFrame l) ->
  nth_error (heap s) l = Some df ->
  process_workouts_df parse s = (Ok tt, s') ->
  exists df' c cal len out ts,
    nth_error (heap s') l = Some df'
    /\ df_get df "Workout Timestamp" = Ok c
    /\ df_get df "Calories Burned" = Ok cal
    /\ df_get df "Length (minutes)" = Ok len
    /\ df_get df "Total Output" = Ok out
    /\ mapM (c_datetime parse) c = Ok ts
    /\ forallb is_timestamp ts = true
    /\ df_get df' "c_datetime" = Ok ts
    /\ df_get df' "c_day" = mapM c_day ts
    /\ df_get df' "c_week" = mapM c_week ts
    /\ df_get df' "c_month" = mapM c_month ts
    /\ df_get df' "c_year" = mapM c_year ts
    /\ df_get df' "c_calories_per_minute" = column_div cal len
    /\ df_get df' "c_output_per_minute" = column_div out len.
Proof.
  intros Hs Hl H.
  destruct (proj1 (process_outcome parse s l df Hs Hl) s' H)
    as (df' & Hn & Hl' & _).
  destruct (normalize_inv _ _ _ Hn)
    as (c & ts & days & weeks & months & years & cal & len & out & cpm & opm
        & Ec & Ecal & Elen & Eout & Ets & Ed & Ew & Em & Ey & Ecpm & Eopm & ->).
  eexists; exists c, cal, len, out, ts.
  split; [exact Hl'|].
  repeat (split; [assumption|]).
  split; [exact (mapM_c_week_timestamps _ _ Ew)|].
  rewrite Ed, Ew, Em, Ey, Ecpm, Eopm.
  repeat split; column_of.
Qed.

Lemma X7_witness :
  exists df' c cal len out ts,
    nth_error
      (heap (snd (process_workouts_df Examples.known_timestamps
                    Examples.uploaded))) 0 = Some df'
    /\ df_get Examples.one_ride "Workout Timestamp" = Ok c
    /\ df_get Examples.one_ride "Calories Burned" = Ok cal
    /\ df_get Examples.one_ride "Length (minutes)" = Ok len
    /\ df_get Examples.one_ride "Total Output" = Ok out
    /\ mapM (c_datetime Examples.known_timestamps) c = Ok ts
    /\ forallb is_timestamp ts = true
    /\ df_get df' "c_datetime" = Ok ts
    /\ df_get df' "c_day" = mapM c_day ts
    /\ df_get df' "c_week" = mapM c_week ts
    /\ df_get df' "c_month" = mapM c_month ts
    /\ df_get df' "c_year" = mapM c_year ts
    /\ df_get df' "c_calories_per_minute" = column_div cal len
    /\ df_get df' "c_output_per_minute" = column_div out len.
Proof.
  apply (X7_derived_columns Examples.known_timestamps Examples.uploaded
           (snd (process_workouts_df Examples.known_timestamps
                   Examples.uploaded)) 0 Examples.one_ride).
  - reflexivity.
  - reflexivity.
  - vm_compute. reflexivity.
Defined.

(** ** A timestamp that cannot be read *)

Lemma c_datetime_range (parse : string -> option pydatetime) (v t : value) :
  c_datetime parse v = Ok t -> is_timestamp t = true \/ t = VNaT.
Proof.
  unfold c_datetime, parse_datetime. destruct v; simpl; try discriminate.
  unfold to_datetime_utc.
  destruct (parse _) as [dt|]; [|intros H; inversion H; auto].
  match goal with |- context [if ?b then _ else _] => destruct b end;
    [|discriminate].
  destruct (Calendar.ord2ymd _) as [[y m] d]. intros H. inversion H. auto.
Qed.

Lemma c_week_outcome (x : value) :
  is_timestamp x = true \/ x = VNaT ->
  c_week x = Raise ValueError \/ exists w, c_week x = Ok w.
Proof.
  intros [H| ->]; [|left; reflexivity].
  destruct x; try discriminate. simpl.
  destruct (Calendar.isocalendar y m d) as [[iy w] wd].
  unfold Calendar.strptime_Y_W_w1.
  match goal with |- context [if ?b then _ else _] => destruct b end;
    simpl; [auto|].
  destruct (Calendar.ord2ymd _) as [[y' m'] d']. eauto.
Qed.

Lemma normalize_unparseable (parse : string -> option pydatetime)
    (df : DataFrame) (c : list value) (text : string) :
  df_get df "Workout Timestamp" = Ok c ->
  (forall v, In v c -> exists t, c_datetime parse v = Ok t) ->
  In (VStr text) c ->
  parse (str_replace (str_replace text "(-" "(GMT-") "(+" "(GMT+") = None ->
  normalize parse df = Raise ValueError.
Proof.
  intros Ec Hall Hin Hp. unfold normalize, apply_column.
  rewrite Ec. cbn [bind].
  destruct (mapM_all_ok _ _ Hall) as [ts Ets]. rewrite Ets. cbn [bind].
  assert (R : forall t, In t ts -> is_timestamp t = true \/ t = VNaT).
  { intros t Ht. destruct (proj2 (mapM_image _ _ _ Ets) t Ht) as (v & _ & Hv).
    exact (c_datetime_range _ _ _ Hv). }
  assert (N : In VNaT ts).
  { apply (mapM_maps _ _ _ Ets (VStr text)); [exact Hin|].
    unfold c_datetime, parse_datetime. rewrite Hp. reflexivity. }
  assert (G1 : df_get (df_set df "c_datetime" ts) "c_datetime" = Ok ts)
    by column_of.
  rewrite G1. cbn [bind].
  destruct (mapM_all_ok c_day ts) as [days Ed].
  { intros t Ht. destruct (R t Ht) as [T| ->]; [|simpl; eauto].
    destruct t; try discriminate. simpl. eauto. }
  rewrite Ed. cbn [bind].
  match goal with |- context [df_get ?d "c_datetime"] =>
    assert (G2 : df_get d "c_datetime" = Ok ts) by column_of end.
  rewrite G2. cbn [bind].
  rewrite (mapM_raises c_week ValueError ts); [reflexivity| |].
  - intros t Ht. exact (c_week_outcome t (R t Ht)).
  - exists VNaT. split; [exact N|reflexivity].
Qed.

(** X8. A workout timestamp that the date parser cannot read stops the
    normalizer: when the timestamp column holds such a string (and the
    other cells convert), the call raises [ValueError] at the week column,
    and no aggregation is written to the session. *)
Theorem X8_unparseable_timestamp (parse : string -> option pydatetime)
    (s : store) (l : nat) (df : DataFrame) (c : list value) (text : string) :
  session_get (session_state s) "workouts_df" = Some (SDataFrame l) ->
  nth_error (heap s) l = Some df ->
  df_get df "Workout Timestamp" = Ok c ->
  (forall v, In v c -> exists t, c_datetime parse v = Ok t) ->
  In (VStr text) c ->
  parse (str_replace (str_replace text "(-" "(GMT-") "(+" "(GMT+") = None ->
  fst (process_workouts_df parse s) = Raise ValueError
  /\ session_state (snd (process_workouts_df parse s)) = session_state s.
Proof.
  intros Hs Hl Ec Hall Hin Hp.
  exact (proj2 (proj2 (process_outcome parse s l df Hs Hl)) _
           (normalize_unparseable parse df c text Ec Hall Hin Hp)).
Qed.

Lemma X8_witness :
  fst (process_workouts_df Examples.known_timestamps
         MoreExamples.uploaded_unreadable) = Raise ValueError
  /\ session_state (snd (process_workouts_df Examples.known_timestamps
                           MoreExamples.uploaded_unreadable))
     = session_state MoreExamples.uploaded_unreadable.
Proof.
  apply (X8_unparseable_timestamp Examples.known_timestamps
           MoreExamples.uploaded_unreadable 0 MoreExamples.unreadable_ride
           [VStr "some day in March"] "some day in March").
  - reflexivity.
  - reflexivity.
  - reflexivity.
  - intros v [<-|[]]. eexists. vm_compute. reflexivity.
  - left. reflexivity.
  - vm_compute. reflexivity.
Defined.

(** ** Every record falls in a period *)

Lemma iterrows_in_lt (df : DataFrame) (row : Series) :
  In row (iterrows df) ->
  exists i, (i < nrows df)%nat
            /\ row = map (fun c => (fst c, nth i (snd c) VNaT)) (columns df).
Proof.
  unfold iterrows. rewrite in_map_iff. intros (i & <- & Hi).
  apply in_seq in Hi. exists i. split; [lia|reflexivity].
Qed.

(** A column without a missing value keys every row. *)
Lemma keyed_column (df : DataFrame) (col : string) (c : list value) :
  String.eqb col "" = false ->
  df_get df col = Ok c ->
  (nrows df <= List.length c)%nat ->
  (forall v, In v c -> isna v = false) ->
  forall row, In row (iterrows df) -> keyed (Some col) row = true.
Proof.
  intros Hne Hc Hlen Hall row Hin.
  destruct (iterrows_in_lt _ _ Hin) as (i & Hi & ->).
  unfold keyed, row_key, truthy. rewrite Hne, series_get_row.
  unfold df_get in Hc. rewrite Hc. cbn [bind].
  rewrite (Hall (nth i c VNaT)); [reflexivity|].
  apply nth_In. lia.
Qed.

Lemma period_present (x w y : value) :
  c_week x = Ok w ->
  c_day x = Ok y \/ c_week x = Ok y \/ c_month x = Ok y \/ c_year x = Ok y ->
  isna y = false.
Proof.
  intros Hw. pose proof (c_week_timestamp _ _ Hw) as T.
  destruct x; try discriminate. clear Hw. simpl.
  intros [H|[H|[H|H]]]; try (inversion H; reflexivity).
  destruct (Calendar.isocalendar y0 m d) as [[iy wk] wd].
  destruct (Calendar.strptime_Y_W_w1 y0 wk) as [[[y' m'] d']|];
    simpl in H; [|discriminate].
  inversion H. reflexivity.
Qed.

(** X9. Once the normalizer has returned, every record of the table is in
    a year, a month, a week and a day: in each of the four aggregations by
    period the workout counts of the groups add up to the number of
    records of the table. *)
Theorem X9_every_record_in_a_period (parse : string -> option pydatetime)
    (s s' : store) (l : nat) (df : DataFrame) (c : list value) :
  session_get (session_state s) "workouts_df" = Some (SDataFrame l) ->
  nth_error (heap s) l = Some df ->
  df_get df "Workout Timestamp" = Ok c ->
  List.length c = nrows df ->
  process_workouts_df parse s = (Ok tt, s') ->
  forall name gb, In (name, gb) time_aggregations ->
    exists a,
      session_get (session_state s') name = Some (SAggregation gb a)
      /\ sum_workouts a = Z.of_nat (nrows df).
Proof.
  intros Hs Hl Ec Hlen H name gb Hin.
  destruct (proj1 (process_outcome parse s l df Hs Hl) s' H)
    as (df' & Hn & _ & Hst).
  destruct (Hst name gb) as (a & Ha & Hget).
  { simpl in Hin. simpl. tauto. }
  exists a. split; [exact Hget|].
  rewrite (sum_workouts_count _ _ _ Ha).
  destruct (normalize_inv _ _ _ Hn)
    as (c0 & ts & days & weeks & months & years & cal & len & out & cpm & opm
        & Ec0 & _ & _ & _ & Ets & Ed & Ew & Em & Ey & _ & _ & E').
  rewrite Ec in Ec0. inversion Ec0; subst c0.
  assert (Hrows : nrows df' = nrows df) by (rewrite E'; reflexivity).
  assert (Lts : List.length ts = nrows df)
    by (rewrite (mapM_length _ _ _ Ets); exact Hlen).
  assert (P : forall (f : value -> result value) col,
             In f [c_day; c_week; c_month; c_year] ->
             mapM f ts = Ok col ->
             (nrows df' <= List.length col)%nat
             /\ forall v, In v col -> isna v = false).
  { intros f col Hf Hm. split.
    - rewrite (mapM_length _ _ _ Hm). lia.
    - intros v Hv. destruct (proj2 (mapM_image _ _ _ Hm) v Hv) as (x & Hx & Hfx).
      destruct (proj1 (mapM_image _ _ _ Ew) x Hx) as [w Hw].
      apply (period_present x w v Hw).
      simpl in Hf. destruct Hf as [<-|[<-|[<-|[<-|[]]]]]; auto. }
  rewrite filter_true; [now rewrite iterrows_length, Hrows|].
  simpl in Hin.
  destruct Hin as [Hin|[Hin|[Hin|[Hin|[]]]]]; inversion Hin; subst name gb.
  - destruct (P c_year years) as [P1 P2]; [simpl; tauto|exact Ey|].
    apply (keyed_column df' "c_year" years); auto.
    rewrite E'. column_of.
  - destruct (P c_month months) as [P1 P2]; [simpl; tauto|exact Em|].
    apply (keyed_column df' "c_month" months); auto.
    rewrite E'. column_of.
  - destruct (P c_week weeks) as [P1 P2]; [simpl; tauto|exact Ew|].
    apply (keyed_column df' "c_week" weeks); auto.
    rewrite E'. column_of.
  - destruct (P c_day days) as [P1 P2]; [simpl; tauto|exact Ed|].
    apply (keyed_column df' "c_day" days); auto.
    rewrite E'. column_of.
Qed.

Lemma X9_witness :
  exists a,
    session_get
      (session_state (snd (process_workouts_df Examples.known_timestamps
                              Examples.uploaded)))
      "workouts_aggregation_by_week"
    = Some (SAggregation (Some "c_week") a)
    /\ sum_workouts a = Z.of_nat (nrows Examples.one_ride).
Proof.
  apply (X9_every_record_in_a_period Examples.known_timestamps
           Examples.uploaded _ 0 Examples.one_ride
           [VStr "2021-03-05 18:30 (-05)"]).
  - reflexivity.
  - reflexivity.
  - reflexivity.
  - reflexivity.
  - vm_compute. reflexivity.
  - simpl. tauto.
Defined.

(** ** Week labels *)

Import Calendar.

Ltac euclid := Z.to_euclidean_division_equations; lia.

Lemma year_length (y : Z) :
  365 <= ymd2ord (y + 1) 1 1 - ymd2ord y 1 1 <= 366.
Proof.
  unfold ymd2ord, days_before_year, days_before_month. simpl nth.
  replace (y + 1 - 1) with y by lia. change (2 <? 1) with false. cbn [andb].
  euclid.
Qed.

Lemma isocalendar_in_year (y m d : Z) :
  fst (fst (isocalendar y m d)) = y ->
  let week := (ymd2ord y m d - isoweek1monday y) / 7 in
  isocalendar y m d
    = (y, week + 1, (ymd2ord y m d - isoweek1monday y) mod 7 + 1)
  /\ 0 <= week
  /\ (52 <= week -> ymd2ord y m d < isoweek1monday (y + 1)).
Proof.
  unfold isocalendar. cbv zeta.
  destruct (Z.ltb_spec ((ymd2ord y m d - isoweek1monday y) / 7) 0) as [H|H].
  - simpl. lia.
  - destruct (Z.leb_spec 52 ((ymd2ord y m d - isoweek1monday y) / 7)) as [H1|H1];
      destruct (Z.leb_spec (isoweek1monday (y + 1)) (ymd2ord y m d)) as [H2|H2];
      simpl; intros E; try lia; repeat split; lia.
Qed.

Lemma isoweek1monday_bounds (y : Z) :
  ymd2ord y 1 1 - 3 <= isoweek1monday y <= ymd2ord y 1 1 + 3
  /\ (isoweek1monday y + 6) mod 7 = 0.
Proof.
  unfold isoweek1monday. cbv zeta.
  destruct (Z.ltb_spec 3 ((ymd2ord y 1 1 + 6) mod 7)); euclid.
Qed.


Lemma strptime_week (y w : Z) :
  1000 <= y <= 9999 -> 1 <= w <= 53 ->
  strptime_Y_W_w1 y w =
    Ok (ord2ymd (ymd2ord y 1 1 + (7 - weekday y 1 1) mod 7 + 7 * (w - 1))).
Proof.
  intros Hy Hw. unfold strptime_Y_W_w1.
  replace ((1000 <=? y) && (y <=? 9999) && (0 <=? w) && (w <=? 53)) with true
    by (symmetry; rewrite !andb_true_iff, !Z.leb_le; lia).
  cbn [negb]. cbv zeta.
  assert (J : calc_julian_from_U_or_W y w 0 true
              = 1 + (7 - weekday y 1 1) mod 7 + 7 * (w - 1)).
  { unfold calc_julian_from_U_or_W. cbv zeta.
    destruct (Z.eqb_spec w 0); lia. }
  rewrite J.
  assert (P : 0 <= (7 - weekday y 1 1) mod 7) by (apply Z.mod_pos_bound; lia).
  destruct (Z.leb_spec (1 + (7 - weekday y 1 1) mod 7 + 7 * (w - 1)) 0);
    [lia|].
  do 2 f_equal. lia.
Qed.

(** X10. The week label of a timestamp that lies in the ISO year of its
    calendar year: it is the Monday that begins the timestamp's week when
    1 January of the year is a Monday, Friday, Saturday or Sunday, and the
    Monday after it when 1 January is a Tuesday, Wednesday or Thursday. *)
Theorem X10_week_label (y m d ns : Z) :
  1000 <= y <= 9999 ->
  fst (fst (isocalendar y m d)) = y ->
  c_week (VTimestamp y m d ns) =
    let '(y', m', d') := week_label y m d in Ok (VDate y' m' d').
Proof.
  intros Hy Hiso. pose proof (year_length y) as L.
  destruct (isocalendar_in_year y m d Hiso) as (E & W0 & W52).
  pose proof (isoweek1monday_bounds y) as [B M].
  pose proof (isoweek1monday_bounds (y + 1)) as [B' M'].
  cbn [c_week]. rewrite E. clear E Hiso.
  rewrite strptime_week; [|exact Hy|].
  - cbn [bind]. unfold week_label, late_weeks, weekday. cbv zeta.
    match goal with
    | |- ?lhs = ?rhs =>
        match lhs with context [ord2ymd ?a] =>
          match rhs with context [ord2ymd ?b] =>
            replace b with a; [reflexivity|]
          end
        end
    end.
    set (F := ymd2ord y 1 1) in *. set (T := ymd2ord y m d) in *.
    set (W := isoweek1monday y) in *. clearbody F T W.
    destruct (Z.leb_spec 1 ((F + 6) mod 7));
      destruct (Z.leb_spec ((F + 6) mod 7) 3); cbn [andb]; euclid.
  - set (F := ymd2ord y 1 1) in *. set (T := ymd2ord y m d) in *.
    set (W := isoweek1monday y) in *.
    set (F' := ymd2ord (y + 1) 1 1) in *. set (W' := isoweek1monday (y + 1)) in *.
    clearbody F T W F' W'.
    split; [lia|].
    destruct (Z.le_gt_cases 52 ((T - W) / 7)) as [G|G]; [|lia].
    specialize (W52 G). euclid.
Qed.

Lemma ymd2ord_in_year (y m d : Z) :
  1 <= m <= 12 -> 1 <= d -> ymd2ord y 1 1 <= ymd2ord y m d.
Proof.
  intros Hm Hd. unfold ymd2ord, days_before_month.
  assert (C : m = 1 \/ m = 2 \/ m = 3 \/ m = 4 \/ m = 5 \/ m = 6 \/ m = 7
              \/ m = 8 \/ m = 9 \/ m = 10 \/ m = 11 \/ m = 12) by lia.
  repeat (destruct C as [->|C]; [simpl; destruct (is_leap y); lia|]).
  subst m. simpl. destruct (is_leap y); lia.
Qed.

Lemma isocalendar_week (y m d : Z) :
  1 <= m <= 12 -> 1 <= d ->
  1 <= snd (fst (isocalendar y m d)) <= 53.
Proof.
  intros Hm Hd. pose proof (ymd2ord_in_year y m d Hm Hd) as HT.
  pose proof (year_length y) as L.
  pose proof (year_length (y - 1)) as L0.
  replace (y - 1 + 1) with y in L0 by lia.
  pose proof (isoweek1monday_bounds y) as [B M].
  pose proof (isoweek1monday_bounds (y + 1)) as [B' M'].
  pose proof (isoweek1monday_bounds (y - 1)) as [B0 M0].
  unfold isocalendar. cbv zeta.
  set (F := ymd2ord y 1 1) in *. set (T := ymd2ord y m d) in *.
  set (W := isoweek1monday y) in *.
  set (F' := ymd2ord (y + 1) 1 1) in *. set (W' := isoweek1monday (y + 1)) in *.
  set (F0 := ymd2ord (y - 1) 1 1) in *. set (W0 := isoweek1monday (y - 1)) in *.
  clearbody F T W F' W' F0 W0.
  destruct (Z.ltb_spec ((T - W) / 7) 0) as [H|H]; [cbn [fst snd]; euclid|].
  destruct (Z.leb_spec 52 ((T - W) / 7)) as [H1|H1];
    destruct (Z.leb_spec W' T) as [H2|H2]; cbn [andb fst snd]; euclid.
Qed.

Lemma c_week_defined (y m d ns : Z) :
  1000 <= y <= 9999 -> 1 <= m <= 12 -> 1 <= d ->
  exists n,
    c_week (VTimestamp y m d ns)
      = (let '(y', m', d') := ord2ymd n in Ok (VDate y' m' d'))
    /\ (n + 6) mod 7 = 0
    /\ ymd2ord y 1 1 <= n <= ymd2ord y 1 1 + 6 + 7 * 52.
Proof.
  intros Hy Hm Hd. pose proof (isocalendar_week y m d Hm Hd) as Hw.
  cbn [c_week]. destruct (isocalendar y m d) as [[iy w] wd]. cbn [fst snd] in Hw.
  rewrite (strptime_week y w Hy Hw). cbn [bind].
  eexists. split; [reflexivity|]. unfold weekday.
  set (F := ymd2ord y 1 1) in *. clearbody F. euclid.
Qed.


Lemma X10_witness :
  c_week (VTimestamp 2025 6 4 0) = Ok (VDate 2025 6 9)
  /\ c_week (VTimestamp 2023 6 7 0) = Ok (VDate 2023 6 5).
Proof.
  split.
  - exact (X10_week_label 2025 6 4 0 ltac:(lia) eq_refl).
  - exact (X10_week_label 2023 6 7 0 ltac:(lia) eq_refl).
Defined.


(** ** The dates of the converted timestamps *)

Lemma month_day_valid (n : Z) (leapyear : bool) :
  0 <= n <= 364 ->
  let month := Z.shiftr (n + 50) 5 in
  let preceding :=
    nth (Z.to_nat month) DAYS_BEFORE_MONTH 0
    + (if (2 <? month) && leapyear then 1 else 0) in
  let md :=
    if n <? preceding then
      let month := month - 1 in
      let preceding :=
        preceding
        - (nth (Z.to_nat month) DAYS_IN_MONTH 0
           + (if (month =? 2) && leapyear then 1 else 0)) in
      (month, n - preceding + 1)
    else (month, n - preceding + 1) in
  1 <= fst md <= 12 /\ 1 <= snd md.
Proof.
  intros Hn. cbv zeta. rewrite Z.shiftr_div_pow2 by lia.
  change (2 ^ 5) with 32.
  assert (C : let m := (n + 50) / 32 in
              m = 1 \/ m = 2 \/ m = 3 \/ m = 4 \/ m = 5 \/ m = 6 \/ m = 7
              \/ m = 8 \/ m = 9 \/ m = 10 \/ m = 11 \/ m = 12)
    by (cbv zeta; euclid).
  cbv zeta in C.
  assert (B : 32 * ((n + 50) / 32) - 50 <= n) by euclid.
  repeat (destruct C as [C|C]);
    rewrite C in *; cbn [Z.to_nat Pos.to_nat Pos.iter_op Nat.add nth
                          DAYS_BEFORE_MONTH DAYS_IN_MONTH];
    simpl; destruct leapyear; simpl;
    match goal with
    | |- context [?a <? ?b] => destruct (Z.ltb_spec a b)
    end; cbn [fst snd]; lia.
Qed.

Lemma ord2ymd_valid (n : Z) :
  612410 <= n <= 825915 ->
  let '(y, m, d) := ord2ymd n in
  1000 <= y <= 9999 /\ 1 <= m <= 12 /\ 1 <= d.
Proof.
  intros Hn. unfold ord2ymd. cbv zeta.
  unfold DI400Y, DI100Y, DI4Y.
  set (n0 := n - 1).
  set (n400 := n0 / 146097). set (r1 := n0 mod 146097).
  set (n100 := r1 / 36524). set (r2 := r1 mod 36524).
  set (n4 := r2 / 1461). set (r3 := r2 mod 1461).
  set (n1 := r3 / 365). set (r4 := r3 mod 365).
  assert (Y : 1001 <= n400 * 400 + 1 + n100 * 100 + n4 * 4 + n1 <= 9999)
    by (subst n400 r1 n100 r2 n4 r3 n1 r4 n0; euclid).
  assert (R : 0 <= r4 <= 364) by (subst r4; euclid).
  destruct ((n1 =? 4) || (n100 =? 4)); [lia|].
  pose proof (month_day_valid r4
                ((n1 =? 3) && (negb (n4 =? 24) || (n100 =? 3))) R) as V.
  cbv zeta in V.
  destruct (r4 <? _); cbn [fst snd] in V; (split; [lia|exact V]).
Qed.

Lemma to_datetime_utc_valid (x : option pydatetime) (t : value) :
  to_datetime_utc x = Ok t -> t = VNaT \/ valid_timestamp t = true.
Proof.
  destruct x as [dt|]; cbn [to_datetime_utc]; [|intros H; inversion H; auto].
  cbv zeta.
  set (us := ymd2ord (dt_year dt) (dt_month dt) (dt_day dt) * US_PER_DAY
             + dt_us dt
             - match dt_utcoffset dt with Some o => o | None => 0 end * 1000000).
  clearbody us.
  destruct (Z.leb_spec (- INT64_MAX) ((us - ymd2ord 1970 1 1 * US_PER_DAY) * 1000))
    as [L|L]; [|discriminate].
  destruct (Z.leb_spec ((us - ymd2ord 1970 1 1 * US_PER_DAY) * 1000) INT64_MAX)
    as [U|U]; [|discriminate].
  cbn [andb].
  assert (R : 612410 <= us / US_PER_DAY <= 825915).
  { change (ymd2ord 1970 1 1) with 719163 in L, U.
    unfold US_PER_DAY, INT64_MAX in *. euclid. }
  pose proof (ord2ymd_valid _ R) as V.
  destruct (ord2ymd (us / US_PER_DAY)) as [[y m] d].
  intros H. inversion H. right. cbn [valid_timestamp].
  rewrite !andb_true_iff, !Z.leb_le. lia.
Qed.
Lemma periods_defined (t : value) :
  valid_timestamp t = true ->
  (exists a, c_day t = Ok a) /\ (exists a, c_week t = Ok a)
  /\ (exists a, c_month t = Ok a) /\ (exists a, c_year t = Ok a).
Proof.
  destruct t; try discriminate. cbn [valid_timestamp].
  rewrite !andb_true_iff, !Z.leb_le. intros ((((Y1 & Y2) & M1) & M2) & D).
  split; [cbn; eauto|]. split; [|split; cbn; eauto].
  destruct (c_week_defined y m d ns) as (n & E & _); [lia|lia|lia|].
  rewrite E. destruct (ord2ymd n) as [[y' m'] d']. eauto.
Qed.

(** X17. The week of a converted timestamp is always defined: on a value
    that the conversion of a workout timestamp has produced, [c_week]
    raises exactly when the value is NaT, the timestamp the parser could
    not read. *)
Theorem X17_week_of_converted (parse : string -> option pydatetime)
    (v t : value) :
  c_datetime parse v = Ok t ->
  ((exists w, c_week t = Ok w) <-> t <> VNaT)
  /\ (t = VNaT -> c_week t = Raise ValueError).
Proof.
  intros H. split; [|intros ->; reflexivity].
  unfold c_datetime in H.
  destruct (parse_datetime parse v) as [x|]; cbn [bind] in H; [|discriminate].
  destruct (to_datetime_utc_valid _ _ H) as [->|V].
  - split; [intros [w Hw]; discriminate|congruence].
  - split; [intros _ E; subst t; discriminate|].
    intros _. exact (proj1 (proj2 (periods_defined t V))).
Qed.

Lemma X17_witness :
  ((exists w, c_week (VTimestamp 2021 3 5 84600000000000) = Ok w)
   <-> VTimestamp 2021 3 5 84600000000000 <> VNaT)
  /\ (VTimestamp 2021 3 5 84600000000000 = VNaT ->
      c_week (VTimestamp 2021 3 5 84600000000000) = Raise ValueError).
Proof.
  apply (X17_week_of_converted Examples.known_timestamps
           (VStr "2021-03-05 18:30 (-05)")).
  vm_compute. reflexivity.
Defined.

(** ** Tables that are processed without error *)

Lemma column_div_floats (x y : list value) :
  (forall v, In v x -> is_float v = true) ->
  (forall v, In v y -> is_float v = true) ->
  exists q, column_div x y = Ok q.
Proof.
  revert y. induction x as [|a x IH]; intros [|b y] Hx Hy;
    try (cbn; eauto; fail).
  cbn [column_div].
  pose proof (Hx a (or_introl eq_refl)) as Ha.
  pose proof (Hy b (or_introl eq_refl)) as Hb.
  destruct a; try discriminate. destruct b; try discriminate.
  cbn [np_div bind].
  destruct (IH y) as [q ->]; [intros; apply Hx; now right
                             |intros; apply Hy; now right|].
  cbn [bind]. eauto.
Qed.

Lemma normalize_returns (parse : string -> option pydatetime)
    (df : DataFrame) :
  timestamps_read parse df -> float_metrics df ->
  exists df', normalize parse df = Ok df'.
Proof.
  intros (c & Ec & Hc) Hm. unfold normalize, apply_column, ratio_column.
  rewrite Ec. cbn [bind].
  destruct (mapM_all_ok (c_datetime parse) c) as [ts Ets].
  { intros v Hv. destruct (Hc v Hv) as (t & Ht & _). eauto. }
  rewrite Ets. cbn [bind].
  assert (V : forall t, In t ts -> valid_timestamp t = true).
  { intros t Ht. destruct (proj2 (mapM_image _ _ _ Ets) t Ht) as (v & Hv & Hvt).
    destruct (Hc v Hv) as (t' & Ht' & Hne). rewrite Hvt in Ht'.
    inversion Ht'; subst t'. unfold c_datetime in Hvt.
    destruct (parse_datetime parse v) as [x|]; cbn [bind] in Hvt;
      [|discriminate].
    destruct (to_datetime_utc_valid _ _ Hvt); [contradiction|assumption]. }
  assert (G1 : df_get (df_set df "c_datetime" ts) "c_datetime" = Ok ts)
    by column_of.
  rewrite G1. cbn [bind].
  destruct (mapM_all_ok c_day ts) as [days Ed];
    [intros t Ht; exact (proj1 (periods_defined t (V t Ht)))|].
  rewrite Ed. cbn [bind].
  match goal with |- context [df_get ?d "c_datetime"] =>
    assert (G2 : df_get d "c_datetime" = Ok ts) by column_of end.
  rewrite G2. cbn [bind].
  destruct (mapM_all_ok c_week ts) as [weeks Ew];
    [intros t Ht; exact (proj1 (proj2 (periods_defined t (V t Ht))))|].
  rewrite Ew. cbn [bind].
  match goal with |- context [df_get ?d "c_datetime"] =>
    assert (G3 : df_get d "c_datetime" = Ok ts) by column_of end.
  rewrite G3. cbn [bind].
  destruct (mapM_all_ok c_month ts) as [months Em];
    [intros t Ht; exact (proj1 (proj2 (proj2 (periods_defined t (V t Ht)))))|].
  rewrite Em. cbn [bind].
  match goal with |- context [df_get ?d "c_datetime"] =>
    assert (G4 : df_get d "c_datetime" = Ok ts) by column_of end.
  rewrite G4. cbn [bind].
  destruct (mapM_all_ok c_year ts) as [years Ey];
    [intros t Ht; exact (proj2 (proj2 (proj2 (periods_defined t (V t Ht)))))|].
  rewrite Ey. cbn [bind].
  destruct (Hm "Calories Burned" ltac:(metric_in)) as (cal & Ecal & Hcal).
  destruct (Hm "Length (minutes)" ltac:(metric_in)) as (len & Elen & Hlen).
  destruct (Hm "Total Output" ltac:(metric_in)) as (out & Eout & Hout).
  match goal with |- context [df_get ?d "Calories Burned"] =>
    assert (G5 : df_get d "Calories Burned" = Ok cal)
      by (column_of; exact Ecal);
    assert (G6 : df_get d "Length (minutes)" = Ok len)
      by (column_of; exact Elen)
  end.
  rewrite G5, G6. cbn [bind].
  destruct (column_div_floats cal len Hcal Hlen) as [cpm ->]. cbn [bind].
  match goal with |- context [df_get ?d "Total Output"] =>
    assert (G7 : df_get d "Total Output" = Ok out)
      by (column_of; exact Eout);
    assert (G8 : df_get d "Length (minutes)" = Ok len)
      by (column_of; exact Elen)
  end.
  rewrite G7, G8. cbn [bind].
  destruct (column_div_floats out len Hout Hlen) as [opm ->]. cbn [bind].
  eauto.
Qed.

(** X18. A table that is processed without error: when every workout
    timestamp is read by the parser and fits the nanosecond range, the
    seven metric columns are float64 columns and the table has the column
    Instructor Name, [process_workouts_df] returns. *)
Theorem X18_processing_returns (parse : string -> option pydatetime)
    (s : store) (l : nat) (df : DataFrame) :
  session_get (session_state s) "workouts_df" = Some (SDataFrame l) ->
  nth_error (heap s) l = Some df ->
  timestamps_read parse df ->
  float_metrics df ->
  (exists c, df_get df "Instructor Name" = Ok c) ->
  exists s', process_workouts_df parse s = (Ok tt, s').
Proof.
  intros Hs Hl Ht Hm [ins Eins].
  destruct (normalize_returns parse df Ht Hm) as [df' Hn].
  assert (R : fst (process_workouts_df parse s) = Ok tt).
  { apply (proj1 (proj2 (process_outcome parse s l df Hs Hl)) df' Hn).
    destruct (normalize_inv _ _ _ Hn)
      as (c & ts & days & weeks & months & years & cal & len & out & cpm & opm
          & _ & _ & Elen & _ & _ & _ & _ & _ & _ & _ & _ & E).
    assert (M : metrics_ok df').
    { intros col Hcol. destruct (Hm col Hcol) as (cc & Ecc & Hcc).
      exists cc. split.
      - rewrite E. simpl in Hcol.
        repeat (destruct Hcol as [<-|Hcol]; [column_of; exact Ecc|]).
        contradiction.
      - intros v Hv. specialize (Hcc v Hv). now destruct v. }
    intros name gb Hin. apply Aggregation_returns; [exact M|].
    intros g Hg. simpl in Hin.
    repeat (destruct Hin as [Hin|Hin];
      [inversion Hin; subst name gb; cbn in Hg;
       first [discriminate
             |inversion Hg; subst g; rewrite E; eexists; column_of;
              first [exact Eins|exact Elen]]|]).
    contradiction. }
  destruct (process_workouts_df parse s) as [r s']. cbn [fst] in R. subst r.
  eauto.
Qed.

Lemma X18_witness :
  exists s',
    process_workouts_df Examples.known_timestamps
      {| heap := [UploadExamples.mixed_file];
         session_state := [("workouts_df", SDataFrame 0)] |} = (Ok tt, s').
Proof.
  apply (X18_processing_returns Examples.known_timestamps _ 0
           UploadExamples.mixed_file).
  - reflexivity.
  - reflexivity.
  - eexists. split; [reflexivity|].
    intros v Hv. simpl in Hv.
    repeat (destruct Hv as [<-|Hv];
      [eexists; split; [vm_compute; reflexivity|discriminate]|]).
    contradiction.
  - intros col Hcol. simpl in Hcol.
    repeat (destruct Hcol as [<-|Hcol];
      [eexists; split; [reflexivity|];
       intros v Hv; simpl in Hv;
       repeat (destruct Hv as [<-|Hv]; [reflexivity|]); contradiction|]).
    contradiction.
  - eexists. reflexivity.
Defined.

(** ** The upload page *)

Lemma map_nth_positions {A} (F : nat -> A) (idx : list nat) :
  map (fun j => F (nth j idx O)) (seq 0 (List.length idx)) = map F idx.
Proof.
  induction idx as [|i idx IH]; [reflexivity|].
  cbn [List.length seq map nth]. f_equal.
  rewrite <- seq_shift, map_map. exact IH.
Qed.

Lemma iterrows_take_rows (df : DataFrame) (idx : list nat) :
  iterrows (take_rows df idx) = map (row_at df) idx.
Proof.
  unfold iterrows, take_rows. cbn [nrows columns].
  rewrite <- (map_nth_positions (row_at df) idx).
  apply map_ext_in. intros j Hj. apply in_seq in Hj.
  unfold row_at. rewrite map_map. apply map_ext. intros [name col].
  cbn [fst snd]. f_equal.
  rewrite (nth_indep _ VNaT (nth O col VNaT)) by (rewrite length_map; lia).
  now rewrite (map_nth (fun i => nth i col VNaT) idx O j).
Qed.

Lemma filter_map_swap {A B} (p : B -> bool) (f : A -> B) (l : list A) :
  filter p (map f l) = map f (filter (fun x => p (f x)) l).
Proof.
  induction l as [|x l IH]; simpl; [reflexivity|].
  destruct (p (f x)); simpl; now rewrite IH.
Qed.

Lemma cell_row_at (df : DataFrame) (i : nat) (col : string) :
  cell (row_at df i) col =
    match df_get df col with
    | Ok c => nth i c VNaT
    | Raise _ => VNaT
    end.
Proof.
  unfold cell, row_at, df_get. rewrite series_get_row.
  destruct (column_get (columns df) col); reflexivity.
Qed.

(** The rows of a filtered table are the matching rows of the table, in
    their order. *)
Lemma iterrows_filter_eq (df F : DataFrame) (col : string) (x : value) :
  filter_eq df col x = Ok F ->
  iterrows F = filter (fun row => py_eq (cell row col) x) (iterrows df).
Proof.
  unfold filter_eq. destruct (df_get df col) as [c|] eqn:Ec;
    cbn [bind]; [|discriminate].
  intros H. inversion H. rewrite iterrows_take_rows.
  unfold iterrows at 1. fold (row_at df).
  rewrite filter_map_swap. f_equal. apply filter_ext.
  intros i. now rewrite cell_row_at, Ec.
Qed.

Lemma keyed_all_time (row : Series) : keyed None row = true.
Proof. reflexivity. Qed.

Lemma cells_of_rows (df df' : DataFrame) (col : string) :
  nrows df' = nrows df -> df_get df' col = df_get df col ->
  map (fun row => cell row col) (iterrows df')
  = map (fun row => cell row col) (iterrows df).
Proof.
  intros Hn Hc. unfold iterrows. fold (row_at df) (row_at df').
  rewrite !map_map, Hn. apply map_ext. intros i.
  now rewrite !cell_row_at, Hc.
Qed.

Lemma nth_error_new {A} (h : list A) (x : A) :
  nth_error (h ++ [x]) (List.length h) = Some x.
Proof. rewrite nth_error_app2, Nat.sub_diag; [reflexivity|lia]. Qed.

Lemma nth_error_old {A} (h : list A) (x : A) (l : nat) :
  (l < List.length h)%nat -> nth_error (h ++ [x]) l = nth_error h l.
Proof. intros H. now rewrite nth_error_app1. Qed.

(** X12. An upload that is processed keeps the cycling records and no
    others.  When the page returns, the session refers to a new table whose
    rows are, in every uploaded column, the rows of the uploaded file with
    the discipline "Cycling", in their order; the all-time aggregation of
    the session counts exactly these records; the page has reported their
    number and shows the table; the tables that were there before are
    untouched. *)
Theorem X12_upload_keeps_cycling (parse : string -> option pydatetime)
    (raw : DataFrame) (s s' : store) (log : list ui_event) :
  render_upload_workouts parse (Some raw) s = (Ok tt, s', log) ->
  let cycling := filter is_cycling (iterrows raw) in
  exists df' a,
    session_get (session_state s') "workouts_df"
      = Some (SDataFrame (List.length (heap s)))
    /\ nth_error (heap s') (List.length (heap s)) = Some df'
    /\ nrows df' = List.length cycling
    /\ (forall col, ~ In col derived_columns ->
          map (fun row => cell row col) (iterrows df')
          = map (fun row => cell row col) cycling)
    /\ session_get (session_state s') "workouts_aggregation_all_time"
         = Some (SAggregation None a)
    /\ sum_workouts a = Z.of_nat (List.length cycling)
    /\ (forall l, (l < List.length (heap s))%nat ->
          nth_error (heap s') l = nth_error (heap s) l)
    /\ log =
       [ Title "Upload Workouts"; Markdown workouts_guide;
         File_uploader "Upload your workouts" ["csv"] workouts_help;
         Markdown "Processing your workouts...";
         Markdown (decimal (List.length cycling) ++ " workouts processed!");
         Markdown "Use the sidebar to analyze your workouts.";
         Subheader "Cycling Workouts"; Show_dataframe df' ].
Proof.
  unfold render_upload_workouts. cbv zeta.
  destruct (filter_eq raw "Fitness Discipline" (VStr "Cycling")) as [F|e] eqn:EF;
    [|discriminate].
  pose proof (iterrows_filter_eq _ _ _ _ EF) as RF.
  fold is_cycling in RF.
  assert (NF : nrows F = List.length (filter is_cycling (iterrows raw)))
    by (now rewrite <- RF, iterrows_length).
  set (l := List.length (heap s)).
  set (s1 := {| heap := heap s ++ [F];
                session_state :=
                  session_set (session_state s) "workouts_df" (SDataFrame l) |}).
  assert (Hs1 : session_get (session_state s1) "workouts_df"
                = Some (SDataFrame l))
    by (cbn [s1 session_state]; now rewrite session_get_set, String.eqb_refl).
  assert (Hl1 : nth_error (heap s1) l = Some F) by apply nth_error_new.
  destruct (process_workouts_df parse s1) as [[[]|e] s2] eqn:P; [|discriminate].
  destruct (process_frame parse s1 l F _ _ Hs1 Hl1 P)
    as ((df' & Hl2 & Hn & Hc) & Hother & Hs2).
  destruct (proj1 (process_outcome parse s1 l F Hs1 Hl1) s2 P)
    as (df2 & _ & Hl2' & Hst).
  rewrite Hl2 in Hl2'. inversion Hl2'; subst df2. clear Hl2'.
  destruct (Hst "workouts_aggregation_all_time" None) as (a & Ha & Hget);
    [simpl; tauto|].
  rewrite Hl2. unfold show_workouts. rewrite Hs2, Hl2.
  intros H. inversion H; subst s' log. clear H.
  exists df', a.
  split; [exact Hs2|]. split; [exact Hl2|].
  split; [congruence|].
  split.
  { intros col Hcol. rewrite <- RF. apply cells_of_rows; auto. }
  split; [exact Hget|].
  split.
  { rewrite (sum_workouts_count _ _ _ Ha), filter_true, iterrows_length
      by (intros; apply keyed_all_time).
    congruence. }
  split.
  { intros l' Hl'. rewrite Hother by (unfold l; lia).
    apply nth_error_old. exact Hl'. }
  rewrite Hn, NF. reflexivity.
Qed.

Lemma X12_witness :
  exists df' a,
    session_get (session_state UploadExamples.after_upload) "workouts_df"
      = Some (SDataFrame 0)
    /\ nth_error (heap UploadExamples.after_upload) 0 = Some df'
    /\ nrows df'
       = List.length (filter is_cycling (iterrows UploadExamples.mixed_file))
    /\ (forall col, ~ In col derived_columns ->
          map (fun row => cell row col) (iterrows df')
          = map (fun row => cell row col)
              (filter is_cycling (iterrows UploadExamples.mixed_file)))
    /\ session_get (session_state UploadExamples.after_upload)
         "workouts_aggregation_all_time"
         = Some (SAggregation None a)
    /\ sum_workouts a
       = Z.of_nat
           (List.length (filter is_cycling (iterrows UploadExamples.mixed_file)))
    /\ (forall l, (l < 0)%nat ->
          nth_error (heap UploadExamples.after_upload) l
          = nth_error (heap UploadExamples.new_session) l)
    /\ snd (render_upload_workouts Examples.known_timestamps
              (Some UploadExamples.mixed_file) UploadExamples.new_session) =
       [ Title "Upload Workouts"; Markdown workouts_guide;
         File_uploader "Upload your workouts" ["csv"] workouts_help;
         Markdown "Processing your workouts...";
         Markdown (decimal
                     (List.length
                        (filter is_cycling
                           (iterrows UploadExamples.mixed_file)))
                   ++ " workouts processed!");
         Markdown "Use the sidebar to analyze your workouts.";
         Subheader "Cycling Workouts"; Show_dataframe df' ].
Proof.
  apply (X12_upload_keeps_cycling Examples.known_timestamps
           UploadExamples.mixed_file UploadExamples.new_session
           UploadExamples.after_upload
           (snd (render_upload_workouts Examples.known_timestamps
                   (Some UploadExamples.mixed_file)
                   UploadExamples.new_session))).
  vm_compute. reflexivity.
Defined.

(** X13. An upload that fails before the aggregations.  A file without
    the column "Fitness Discipline" raises [KeyError] and leaves the store
    as it was.  When a column assignment of the normalizer raises on the
    cycling records, the page raises the same exception after the session
    has been made to refer to the new table: the other entries of the
    session, the aggregations of an earlier upload among them, and the
    earlier tables stay as they were, and no count is reported. *)
Theorem X13_upload_failure (parse : string -> option pydatetime)
    (raw : DataFrame) (s : store) :
  (df_get raw "Fitness Discipline" = Raise (KeyError "Fitness Discipline") ->
   render_upload_workouts parse (Some raw) s =
     (Raise (KeyError "Fitness Discipline"), s,
      [ Title "Upload Workouts"; Markdown workouts_guide;
        File_uploader "Upload your workouts" ["csv"] workouts_help ]))
  /\ (forall F e,
        filter_eq raw "Fitness Discipline" (VStr "Cycling") = Ok F ->
        normalize parse F = Raise e ->
        exists s',
          render_upload_workouts parse (Some raw) s =
            (Raise e, s',
             [ Title "Upload Workouts"; Markdown workouts_guide;
               File_uploader "Upload your workouts" ["csv"] workouts_help;
               Markdown "Processing your workouts..." ])
          /\ session_get (session_state s') "workouts_df"
               = Some (SDataFrame (List.length (heap s)))
          /\ (forall name, name <> "workouts_df" ->
                session_get (session_state s') name
                = session_get (session_state s) name)
          /\ (forall l, (l < List.length (heap s))%nat ->
                nth_error (heap s') l = nth_error (heap s) l)).
Proof.
  split.
  - intros H. unfold render_upload_workouts, filter_eq. rewrite H. reflexivity.
  - intros F e EF En. unfold render_upload_workouts. cbv zeta. rewrite EF.
    set (l := List.length (heap s)).
    set (s1 := {| heap := heap s ++ [F];
                  session_state :=
                    session_set (session_state s) "workouts_df"
                      (SDataFrame l) |}).
    assert (Hs1 : session_get (session_state s1) "workouts_df"
                  = Some (SDataFrame l))
      by (cbn [s1 session_state]; now rewrite session_get_set, String.eqb_refl).
    assert (Hl1 : nth_error (heap s1) l = Some F) by apply nth_error_new.
    destruct (proj2 (proj2 (process_outcome parse s1 l F Hs1 Hl1)) e En)
      as [R1 R2].
    destruct (process_workouts_df parse s1) as [r s2] eqn:P.
    cbn [fst snd] in R1, R2. subst r.
    destruct (process_frame parse s1 l F _ _ Hs1 Hl1 P)
      as (_ & Hother & Hs2).
    exists s2. split; [reflexivity|]. split; [exact Hs2|]. split.
    + intros name Hname. rewrite R2. cbn [s1 session_state].
      rewrite session_get_set.
      destruct (String.eqb_spec "workouts_df" name); [congruence|reflexivity].
    + intros l' Hl'. rewrite Hother by (unfold l; lia).
      apply nth_error_old. exact Hl'.
Qed.

Lemma X13_witness :
  render_upload_workouts Examples.known_timestamps
    (Some UploadExamples.no_discipline_file) UploadExamples.after_upload =
    (Raise (KeyError "Fitness Discipline"), UploadExamples.after_upload,
     [ Title "Upload Workouts"; Markdown workouts_guide;
       File_uploader "Upload your workouts" ["csv"] workouts_help ])
  /\ exists s',
       render_upload_workouts Examples.known_timestamps
         (Some UploadExamples.unreadable_file) UploadExamples.after_upload =
         (Raise ValueError, s',
          [ Title "Upload Workouts"; Markdown workouts_guide;
            File_uploader "Upload your workouts" ["csv"] workouts_help;
            Markdown "Processing your workouts..." ])
       /\ session_get (session_state s') "workouts_df"
            = Some (SDataFrame (List.length (heap UploadExamples.after_upload)))
       /\ (forall name, name <> "workouts_df" ->
             session_get (session_state s') name
             = session_get (session_state UploadExamples.after_upload) name)
       /\ (forall l, (l < List.length (heap UploadExamples.after_upload))%nat ->
             nth_error (heap s') l
             = nth_error (heap UploadExamples.after_upload) l).
Proof.
  split.
  - apply (proj1 (X13_upload_failure Examples.known_timestamps
                    UploadExamples.no_discipline_file
                    UploadExamples.after_upload)).
    vm_compute. reflexivity.
  - eapply (proj2 (X13_upload_failure Examples.known_timestamps
                     UploadExamples.unreadable_file
                     UploadExamples.after_upload)).
    + vm_compute. reflexivity.
    + vm_compute. reflexivity.
Defined.

(** ** Groups are independent *)

Lemma summary_cong (st : accumulators) (k k' : value) :
  py_eq k' k = true -> summary st k' = summary st k.
Proof.
  intros H. unfold summary, at_label, series_div.
  now rewrite !(dict_get_cong _ k' k H).
Qed.

Lemma summary_of_group (group_by group_by' : option string)
    (rows rows' : list Series) (st st' : accumulators) (k : value) :
  accumulate group_by rows empty_accumulators = Ok st ->
  accumulate group_by' rows' empty_accumulators = Ok st' ->
  group group_by k rows = group group_by' k rows' ->
  summary st k = summary st' k.
Proof.
  intros H H' HG.
  destruct (accumulate_entries _ _ _ H k) as [W E].
  destruct (accumulate_entries _ _ _ H' k) as [W' E'].
  assert (A : forall a, dict_get (get_acc a st) k = dict_get (get_acc a st') k)
    by (intros a; now rewrite E, E', HG).
  unfold summary, at_label, series_div.
  rewrite W, W', HG.
  pose proof (A Time) as A1. pose proof (A Distance) as A2.
  pose proof (A Output) as A3. pose proof (A OutputMinutes) as A4.
  pose proof (A Calories) as A5. pose proof (A CaloriesMinutes) as A6.
  pose proof (A Hr) as A7. pose proof (A HrMinutes) as A8.
  pose proof (A Speed) as A9. pose proof (A SpeedMinutes) as A10.
  pose proof (A Cadence) as A11. pose proof (A CadenceMinutes) as A12.
  cbn [get_acc] in *.
  now rewrite A1, A2, A3, A4, A5, A6, A7, A8, A9, A10, A11, A12.
Qed.

(** X14. The row of a group depends on the records of that group alone:
    whenever two aggregations, of any two tables by any two fields, key the
    same records in the same order to a label, the label has the same row
    in both results. *)
Theorem X14_groups_are_independent (df df' : DataFrame)
    (group_by group_by' : option string) (r r' : AggregatedDF)
    (k : value) (g : GroupSummary) :
  Aggregation df group_by = Ok r ->
  Aggregation df' group_by' = Ok r' ->
  In (k, g) r ->
  group group_by k (iterrows df) = group group_by' k (iterrows df') ->
  loc r' k = Some g.
Proof.
  intros H H' Hin HG.
  destruct (Aggregation_inv _ _ _ H) as (st & Hst & [Ww _] & ->).
  destruct (Aggregation_inv _ _ _ H') as (st' & Hst' & [Ww' _] & ->).
  apply in_result in Hin. destruct Hin as [Hk ->].
  rewrite (summary_of_group _ _ _ _ _ _ _ Hst Hst' HG).
  assert (L : has_label (keys (total_workouts st')) k = true).
  { rewrite dict_get_has_label.
    rewrite (proj1 (accumulate_entries _ _ _ Hst' k)), <- HG.
    rewrite <- (proj1 (accumulate_entries _ _ _ Hst k)).
    pose proof (dict_get_in _ _ Ww Hk).
    destruct (dict_get (total_workouts st) k); congruence. }
  apply existsb_exists in L. destruct L as (k' & Hk' & E).
  rewrite <- (summary_cong st' k k' E).
  unfold loc. apply (dict_get_wf _ k').
  - eapply dict_wf_keys; [|exact Ww']. now rewrite keys_frame.
  - apply in_map_iff. exists k'. auto.
  - exact E.
Qed.

Lemma X14_witness :
  exists r r' g,
    Aggregation UploadExamples.mixed_file (Some "Instructor Name") = Ok r
    /\ Aggregation (take_rows UploadExamples.mixed_file [0%nat; 2%nat])
         (Some "Instructor Name") = Ok r'
    /\ In (VStr "Robin", g) r
    /\ loc r' (VStr "Robin") = Some g.
Proof.
  eexists. eexists. eexists.
  assert (H : forall A B C D : Prop, A -> B -> C -> (A -> B -> C -> D) ->
                A /\ B /\ C /\ D) by tauto.
  apply H.
  - vm_compute. reflexivity.
  - vm_compute. reflexivity.
  - left. reflexivity.
  - intros A B C.
    exact (X14_groups_are_independent _ _ _ _ _ _ _ _ A B C
             ltac:(vm_compute; reflexivity)).
Defined.

(** ** Processing again *)










(** ** The rewriting of the timestamps *)

Lemma replace_step (x : ascii) (s : string) :
  replace_from (compact x) (expanded x) O s =
    match s with
    | String c s' =>
        if starts_with (compact x) s
        then match s' with
             | String _ rest =>
                 (expanded x ++ replace_from (compact x) (expanded x) O rest)%string
             | EmptyString => expanded x
             end
        else String c (replace_from (compact x) (expanded x) O s')
    | EmptyString => EmptyString
    end.
Proof.
  destruct s as [|c s']; [reflexivity|].
  cbn [replace_from]. destruct (starts_with (compact x) (String c s')) eqn:E;
    [|reflexivity].
  destruct s' as [|c' rest]; reflexivity.
Qed.

Lemma starts_with_compact (x : ascii) (s : string) :
  starts_with (compact x) s = true ->
  exists rest, s = String "(" (String x rest).
Proof.
  destruct s as [|c [|c' rest]]; cbn [compact starts_with]; try discriminate.
  - rewrite andb_false_r. discriminate.
  - rewrite andb_true_r. intros H. apply andb_prop in H. destruct H as [H1 H2].
    apply Ascii.eqb_eq in H1, H2. subst. eauto.
Qed.

Lemma replace_first_char (x : ascii) (s : string) :
  first_char (replace_from (compact x) (expanded x) O s) = first_char s.
Proof.
  rewrite replace_step. destruct s as [|c s']; [reflexivity|].
  destruct (starts_with (compact x) (String c s')) eqn:E; [|reflexivity].
  destruct (starts_with_compact _ _ E) as (rest & Hs). inversion Hs; subst.
  reflexivity.
Qed.

Lemma starts_with_pair (a b : ascii) (s : string) :
  starts_with (String a (String b EmptyString)) s = true <->
  exists s', s = String a s' /\ first_char s' = Some b.
Proof.
  split.
  - destruct s as [|c [|c' rest]]; cbn [starts_with]; try discriminate.
    + rewrite andb_false_r. discriminate.
    + rewrite andb_true_r. intros H. apply andb_prop in H. destruct H as [H1 H2].
      apply Ascii.eqb_eq in H1, H2. subst. eauto.
  - intros (s' & -> & H). destruct s' as [|c' rest]; [discriminate|].
    inversion H; subst. cbn [starts_with]. now rewrite !Ascii.eqb_refl.
Qed.

(** A string without the compact annotation is left as it is. *)
Lemma replace_absent (x : ascii) (s : string) :
  occurs (compact x) s = false ->
  replace_from (compact x) (expanded x) O s = s.
Proof.
  induction s as [|c s' IH]; [reflexivity|].
  cbn [occurs]. intros H. apply orb_false_elim in H. destruct H as [H1 H2].
  cbn [replace_from]. rewrite H1. now rewrite IH.
Qed.

(** The rewriting does not bring in an annotation with another sign. *)
Lemma replace_keeps_absent (x y : ascii) :
  y <> "G"%char -> x <> "("%char ->
  forall n s, (String.length s <= n)%nat ->
    occurs (compact y) s = false ->
    occurs (compact y) (replace_from (compact x) (expanded x) O s) = false.
Proof.
  intros HyG Hx. induction n as [|n IH]; intros s Hlen H.
  - destruct s; [reflexivity|simpl in Hlen; lia].
  - rewrite replace_step. destruct s as [|c s']; [reflexivity|].
    cbn [String.length] in Hlen.
    cbn [occurs] in H. apply orb_false_elim in H. destruct H as [H1 H2].
    destruct (starts_with (compact x) (String c s')) eqn:E.
    + destruct (starts_with_compact _ _ E) as (rest & Hs). inversion Hs; subst c s'.
      cbn [occurs] in H2. apply orb_false_elim in H2. destruct H2 as [_ H3].
      cbn [String.length] in Hlen.
      assert (R : occurs (compact y)
                    (replace_from (compact x) (expanded x) O rest) = false)
        by (apply IH; [lia|exact H3]).
      unfold compact, expanded in *. cbn [append occurs starts_with]. rewrite R.
      destruct (Ascii.eqb_spec y "G"); [contradiction|].
      destruct (Ascii.eqb_spec "(" x); [congruence|].
      reflexivity.
    + cbn [occurs]. rewrite (IH s') by (try lia; exact H2).
      rewrite orb_false_r.
      destruct (starts_with (compact y)
                  (String c (replace_from (compact x) (expanded x) O s'))) eqn:S;
        [|reflexivity].
      apply starts_with_pair in S. destruct S as (r & Hr & Hf).
      inversion Hr; subst c r. rewrite replace_first_char in Hf.
      rewrite <- H1. symmetry. apply starts_with_pair. eauto.
Qed.

(** After the rewriting no compact annotation is left. *)
Lemma replace_removes (x : ascii) :
  x <> "G"%char -> x <> "("%char ->
  forall n s, (String.length s <= n)%nat ->
    occurs (compact x) (replace_from (compact x) (expanded x) O s) = false.
Proof.
  intros HxG Hx. induction n as [|n IH]; intros s Hlen.
  - destruct s; [reflexivity|simpl in Hlen; lia].
  - rewrite replace_step. destruct s as [|c s']; [reflexivity|].
    cbn [String.length] in Hlen.
    destruct (starts_with (compact x) (String c s')) eqn:E.
    + destruct (starts_with_compact _ _ E) as (rest & Hs). inversion Hs; subst c s'.
      cbn [String.length] in Hlen.
      assert (R : occurs (compact x)
                    (replace_from (compact x) (expanded x) O rest) = false)
        by (apply IH; lia).
      unfold compact, expanded in *. cbn [append occurs starts_with]. rewrite R.
      destruct (Ascii.eqb_spec x "G"); [contradiction|].
      destruct (Ascii.eqb_spec "(" x); [congruence|].
      reflexivity.
    + cbn [occurs]. rewrite (IH s') by lia. rewrite orb_false_r.
      destruct (starts_with (compact x)
                  (String c (replace_from (compact x) (expanded x) O s'))) eqn:S;
        [|reflexivity].
      apply starts_with_pair in S. destruct S as (r & Hr & Hf).
      inversion Hr; subst c r. rewrite replace_first_char in Hf.
      rewrite <- E. symmetry. apply starts_with_pair. eauto.
Qed.

(** X16. What [parse_datetime] hands to the date parser: the timestamp
    with no compact zone annotation left in it, neither "(-" nor "(+"; a
    timestamp without such an annotation is handed over as it is. *)
Theorem X16_timestamp_rewriting (parse : string -> option pydatetime)
    (s : string) :
  exists r,
    parse_datetime parse (VStr s) = Ok (parse r)
    /\ occurs "(-" r = false
    /\ occurs "(+" r = false
    /\ (occurs "(-" s = false -> occurs "(+" s = false -> r = s).
Proof.
  exists (str_replace (str_replace s "(-" "(GMT-") "(+" "(GMT+").
  split; [reflexivity|]. unfold str_replace. split; [|split].
  - apply (replace_keeps_absent "+" "-" ltac:(discriminate) ltac:(discriminate)
             _ _ (le_n _)).
    apply (replace_removes "-" ltac:(discriminate) ltac:(discriminate)
             _ _ (le_n _)).
  - apply (replace_removes "+" ltac:(discriminate) ltac:(discriminate)
             _ _ (le_n _)).
  - intros H1 H2.
    change (replace_from (compact "+") (expanded "+") O
              (replace_from (compact "-") (expanded "-") O s) = s).
    rewrite (replace_absent "-" s H1). exact (replace_absent "+" s H2).
Qed.

Lemma X16_witness :
  exists r,
    parse_datetime Examples.known_timestamps (VStr "2021-03-05 18:30 (-05)")
      = Ok (Examples.known_timestamps r)
    /\ occurs "(-" r = false
    /\ occurs "(+" r = false
    /\ (occurs "(-" "2021-03-05 18:30 (-05)" = false ->
        occurs "(+" "2021-03-05 18:30 (-05)" = false ->
        r = "2021-03-05 18:30 (-05)").
Proof.
  exact (X16_timestamp_rewriting Examples.known_timestamps
           "2021-03-05 18:30 (-05)").
Defined.
